(** * Permit retrieval layer: query builder, tool surface and clients

    A shallow embedding of [backend/permit/queries.py], of the tools of
    [backend/permit/tools.py] and of the clients of [backend/client],
    together with the properties the specification states about them and
    further properties read off the code.

    The record store, the clock, the process environment, the store's SDK
    and the HTTP client of the search service are the program's external
    collaborators: the store is a function from queries to answers or
    raised exceptions, the clock a sequence of readings, the SDK and the
    HTTP client functions of their arguments.  Log calls change no result
    and are left out. *)

From Stdlib Require Import ZArith List String Ascii Bool Lia Sorted Permutation.
From Stdlib Require Import DecimalString.
Import ListNotations.

Local Open Scope string_scope.
Local Open Scope list_scope.
Local Open Scope Z_scope.

(** ** Exceptions and outcomes *)

(** The subclasses of Python's [Exception] the code can meet.  [StoreError]
    stands for whatever the record-store client raises. *)
Inductive ExnKind :=
| ValueError | TypeError | KeyError | AttributeError | OverflowError | StoreError.

Record Exn := mkExn { exn_kind : ExnKind; exn_msg : string }.

Inductive Outcome (A : Type) :=
| Returns (a : A)
| Raises (e : Exn).
Arguments Returns {A} a.
Arguments Raises {A} e.

Module Exc.
Definition bind {A B} (m : Outcome A) (f : A -> Outcome B) : Outcome B :=
  match m with
  | Returns a => f a
  | Raises e => Raises e
  end.

(** [try: m except Exception as e: h e] *)
Definition catch {A} (m : Outcome A) (h : Exn -> Outcome A) : Outcome A :=
  match m with
  | Returns a => Returns a
  | Raises e => h e
  end.

(** [try: m except ValueError as e: h e]; other kinds pass through. *)
Definition catch_value_error {A} (m : Outcome A) (h : Exn -> Outcome A)
  : Outcome A :=
  match m with
  | Returns a => Returns a
  | Raises e =>
      match exn_kind e with
      | ValueError => h e
      | _ => Raises e
      end
  end.

Fixpoint mapM {A B} (f : A -> Outcome B) (l : list A) : Outcome (list B) :=
  match l with
  | [] => Returns []
  | x :: xs => bind (f x) (fun y => bind (mapM f xs) (fun ys => Returns (y :: ys)))
  end.
End Exc.

Declare Scope exc_scope.
Delimit Scope exc_scope with exc.
Notation "x <- m ;; k" := (Exc.bind m (fun x => k))
  (at level 61, m at next level, right associativity) : exc_scope.

(** ** Calendar: the fragment of Python's [datetime] the code relies on *)

Module Calendar.

Record DateTime := mkDateTime {
  dt_year : Z;
  dt_month : Z;
  dt_day : Z;
  (** microseconds elapsed since midnight, [0 <= dt_micros < day_us] *)
  dt_micros : Z
}.

Definition day_us : Z := 86400 * 1000000.
Definition MAXORDINAL : Z := 3652059.
Definition MAX_DELTA_DAYS : Z := 999999999.

Definition is_leap (year : Z) : bool :=
  (year mod 4 =? 0) && (negb (year mod 100 =? 0) || (year mod 400 =? 0)).

Definition DAYS_IN_MONTH (month : Z) : Z :=
  match month with
  | 1 => 31 | 2 => 28 | 3 => 31 | 4 => 30 | 5 => 31 | 6 => 30
  | 7 => 31 | 8 => 31 | 9 => 30 | 10 => 31 | 11 => 30 | 12 => 31
  | _ => -1
  end.

Definition DAYS_BEFORE_MONTH (month : Z) : Z :=
  match month with
  | 1 => 0 | 2 => 31 | 3 => 59 | 4 => 90 | 5 => 120 | 6 => 151
  | 7 => 181 | 8 => 212 | 9 => 243 | 10 => 273 | 11 => 304 | 12 => 334
  | _ => -1
  end.

Definition days_before_year (year : Z) : Z :=
  let y := year - 1 in y * 365 + y / 4 - y / 100 + y / 400.

Definition days_in_month (year month : Z) : Z :=
  if (month =? 2) && is_leap year then 29 else DAYS_IN_MONTH month.

Definition days_before_month (year month : Z) : Z :=
  DAYS_BEFORE_MONTH month + (if (2 <? month) && is_leap year then 1 else 0).

Definition ymd2ord (year month day : Z) : Z :=
  days_before_year year + days_before_month year month + day.

Definition DI400Y : Z := days_before_year 401.
Definition DI100Y : Z := days_before_year 101.
Definition DI4Y : Z := days_before_year 5.

Definition ord2ymd (n0 : Z) : Z * Z * Z :=
  let n := n0 - 1 in
  let n400 := n / DI400Y in
  let n := n mod DI400Y in
  let year := n400 * 400 + 1 in
  let n100 := n / DI100Y in
  let n := n mod DI100Y in
  let n4 := n / DI4Y in
  let n := n mod DI4Y in
  let n1 := n / 365 in
  let n := n mod 365 in
  let year := year + n100 * 100 + n4 * 4 + n1 in
  if (n1 =? 4) || (n100 =? 4) then (year - 1, 12, 31)
  else
    let leapyear := (n1 =? 3) && (negb (n4 =? 24) || (n100 =? 3)) in
    let month := Z.shiftr (n + 50) 5 in
    let preceding :=
      DAYS_BEFORE_MONTH month + (if (2 <? month) && leapyear then 1 else 0) in
    if n <? preceding then
      let month := month - 1 in
      let preceding :=
        preceding
        - (DAYS_IN_MONTH month + (if (month =? 2) && leapyear then 1 else 0)) in
      (year, month, n - preceding + 1)
    else (year, month, n - preceding + 1).

Definition toordinal (d : DateTime) : Z :=
  ymd2ord (dt_year d) (dt_month d) (dt_day d).

(** The checks of the [date] constructor. *)
Definition check_date_fields (year month day : Z) : bool :=
  (1 <=? year) && (year <=? 9999) && (1 <=? month) && (month <=? 12)
  && (1 <=? day) && (day <=? days_in_month year month).

(** [d + timedelta(days=days)] *)
Definition add_days (d : DateTime) (days : Z) : Outcome DateTime :=
  if (Z.abs days <=? MAX_DELTA_DAYS) then
    let o := toordinal d + days in
    if (0 <? o) && (o <=? MAXORDINAL) then
      let '(y, m, dd) := ord2ymd o in
      Returns (mkDateTime y m dd (dt_micros d))
    else Raises (mkExn OverflowError "date value out of range")
  else Raises (mkExn OverflowError "days out of range").

(** [(a - b).days]: the day component of the normalised difference. *)
Definition sub_days (a b : DateTime) : Z :=
  ((toordinal a - toordinal b) * day_us + (dt_micros a - dt_micros b)) / day_us.

(** *** Decimal text *)

Definition digit_char (n : Z) : ascii :=
  ascii_of_nat (48 + Z.to_nat (n mod 10)).

Definition pad2 (n : Z) : string :=
  String (digit_char (n / 10)) (String (digit_char n) EmptyString).

Definition pad4 (n : Z) : string :=
  String (digit_char (n / 1000)) (String (digit_char (n / 100)) (pad2 n)).

(** [d.strftime("%Y-%m-%d")] *)
Definition strftime_ymd (d : DateTime) : string :=
  (pad4 (dt_year d) ++ "-" ++ pad2 (dt_month d) ++ "-" ++ pad2 (dt_day d))%string.

(** *** [datetime.strptime(s, "%Y-%m-%d")]

    The format compiles to the regular expression
    [(\d\d\d\d)-(1[0-2]|0[1-9]|[1-9])-(3[01]|[12]\d|0[1-9]|[1-9]| [1-9])];
    alternatives are tried in that order and the whole text must be
    consumed.  Digits are the ASCII digits. *)

Definition code (c : ascii) : Z := Z.of_nat (nat_of_ascii c).
Definition in_range (lo hi : Z) (c : ascii) : bool :=
  (lo <=? code c) && (code c <=? hi).
Definition is_digit (c : ascii) : bool := in_range 48 57 c.
Definition digit_val (c : ascii) : Z := code c - 48.

Definition year_tok (l : list ascii) : option (Z * list ascii) :=
  match l with
  | a :: b :: c :: d :: r =>
      if is_digit a && is_digit b && is_digit c && is_digit d
      then Some (digit_val a * 1000 + digit_val b * 100 + digit_val c * 10
                 + digit_val d, r)
      else None
  | _ => None
  end.

Definition two (p q : ascii -> bool) (l : list ascii) : list (Z * list ascii) :=
  match l with
  | a :: b :: r =>
      if p a && q b
      then [((if is_digit a then digit_val a else 0) * 10 + digit_val b, r)]
      else []
  | _ => []
  end.

Definition one (p : ascii -> bool) (l : list ascii) : list (Z * list ascii) :=
  match l with
  | a :: r => if p a then [(digit_val a, r)] else []
  | _ => []
  end.

Definition is_char (n : Z) (c : ascii) : bool := code c =? n.

(** The ways the month group can match, in priority order. *)
Definition month_alts (l : list ascii) : list (Z * list ascii) :=
  two (is_char 49) (in_range 48 50) l
  ++ two (is_char 48) (in_range 49 57) l
  ++ one (in_range 49 57) l.

Definition day_alts (l : list ascii) : list (Z * list ascii) :=
  two (is_char 51) (in_range 48 49) l
  ++ two (in_range 49 50) is_digit l
  ++ two (is_char 48) (in_range 49 57) l
  ++ one (in_range 49 57) l
  ++ two (is_char 32) (in_range 49 57) l.

Definition dash (l : list ascii) : list (list ascii) :=
  match l with
  | c :: r => if is_char 45 c then [r] else []
  | [] => []
  end.

(** All matches of the pattern at the start of the text, in the order a
    backtracking matcher finds them; the first one is the match. *)
Definition regex_matches (l : list ascii) : list (Z * Z * Z * list ascii) :=
  match year_tok l with
  | None => []
  | Some (y, r0) =>
      flat_map (fun r1 =>
        flat_map (fun '(m, r2) =>
          flat_map (fun r3 =>
            map (fun '(d, r4) => (y, m, d, r4)) (day_alts r3))
            (dash r2))
          (month_alts r1))
        (dash r0)
  end.

Definition strptime_ymd (s : string) : Outcome DateTime :=
  match regex_matches (list_ascii_of_string s) with
  | [] => Raises (mkExn ValueError "time data does not match format")
  | (y, m, d, rest) :: _ =>
      match rest with
      | _ :: _ => Raises (mkExn ValueError "unconverted data remains")
      | [] =>
          if check_date_fields y m d
          then Returns (mkDateTime y m d 0)
          else Raises (mkExn ValueError "date value out of range")
      end
  end.

End Calendar.
Import Calendar.

(** ** tools.py: the date-difference utility *)

Definition get_time_difference (now_datetime target_datetime : string)
  : Outcome Z :=
  Exc.catch_value_error
    (now <- strptime_ymd now_datetime ;;
     target <- strptime_ymd target_datetime ;;
     let days := sub_days target now in
     Returns days)%exc
    (fun _ => Returns 0).

(** ** Values: the JSON fragment exchanged with the record store

    Documents, permit entries and query results are JSON objects; Python
    sees them as [dict], [list], [str], [int] and [None].  Booleans and
    fractional numbers do not occur in permit records and are left out.
    Text is a sequence of code units and compares unit by unit. *)

#[warnings="-register-all"]
Inductive Value :=
| VNull
| VStr (s : string)
| VNum (n : Z)
| VList (l : list Value)
| VDict (d : list (string * Value)).

Definition Row := list (string * Value).

Module Py.

Fixpoint dict_get (d : Row) (k : string) : option Value :=
  match d with
  | [] => None
  | (k', v) :: d' => if String.eqb k' k then Some v else dict_get d' k
  end.

(** [x.get(k, default)] *)
Definition get (x : Value) (k : string) (default : Value) : Outcome Value :=
  match x with
  | VDict d =>
      match dict_get d k with
      | Some v => Returns v
      | None => Returns default
      end
  | _ => Raises (mkExn AttributeError "object has no attribute 'get'")
  end.

(** [x[k]] *)
Definition index (x : Value) (k : string) : Outcome Value :=
  match x with
  | VDict d =>
      match dict_get d k with
      | Some v => Returns v
      | None => Raises (mkExn KeyError k)
      end
  | _ => Raises (mkExn TypeError "indices must be integers")
  end.

(** Truth value of an object in a condition. *)
Definition truthy (x : Value) : bool :=
  match x with
  | VNull => false
  | VStr s => negb (String.eqb s "")
  | VNum n => negb (n =? 0)
  | VList l => match l with [] => false | _ => true end
  | VDict d => match d with [] => false | _ => true end
  end.

Definition truthy_str (o : option string) : bool :=
  match o with
  | Some s => negb (String.eqb s "")
  | None => false
  end.

Definition truthy_int (o : option Z) : bool :=
  match o with
  | Some n => negb (n =? 0)
  | None => false
  end.

(** [a - b] *)
Definition sub (a b : Value) : Outcome Value :=
  match a, b with
  | VNum x, VNum y => Returns (VNum (x - y))
  | _, _ => Raises (mkExn TypeError "unsupported operand type(s) for -")
  end.

(** [a < b] where it is defined: two strings (by code unit) or two
    numbers. *)
Definition ltb (a b : Value) : bool :=
  match a, b with
  | VStr x, VStr y => String.ltb x y
  | VNum x, VNum y => x <? y
  | _, _ => false
  end.

Definition leb (a b : Value) : bool :=
  match a, b with
  | VStr x, VStr y => String.leb x y
  | VNum x, VNum y => x <=? y
  | _, _ => false
  end.

Definition is_str (v : Value) : bool :=
  match v with VStr _ => true | _ => false end.
Definition is_num (v : Value) : bool :=
  match v with VNum _ => true | _ => false end.

(** Whether sorting a list with these keys can compare them all: any
    two keys that meet must both be strings or both be numbers.  (Python
    also orders lists; the sort keys here are date texts, and a list key
    is treated like the other kinds without an order.) *)
Definition comparable (keys : list Value) : bool :=
  (Nat.leb (List.length keys) 1) || forallb is_str keys || forallb is_num keys.

Section Sort.
Context {A : Type}.
Variable key : A -> Value.

(** Stable insertion: [x] stays in front of the elements it is not
    greater than. *)
Fixpoint insert (x : A) (l : list A) : list A :=
  match l with
  | [] => [x]
  | y :: ys => if ltb (key y) (key x) then y :: insert x ys else x :: y :: ys
  end.

Definition stable_sort (l : list A) : list A :=
  fold_right insert [] l.

(** A reversed sort keeps equal elements in their original order. *)
Definition sort_keyed (reverse : bool) (l : list A) : list A :=
  if reverse then rev (stable_sort (rev l)) else stable_sort l.
End Sort.

(** [items.sort(key=key, reverse=reverse)]: the keys are computed first
    and each item is ordered by its own key. *)
Definition sort (key : Value -> Outcome Value) (reverse : bool)
           (items : list Value) : Outcome (list Value) :=
  (keys <- Exc.mapM key items ;;
   if comparable keys
   then Returns (map snd (sort_keyed fst reverse (combine keys items)))
   else Raises (mkExn TypeError "'<' not supported between instances"))%exc.

End Py.

(** ** The record store's query language

    The queries the code sends are kept as syntax: the selected shape, the
    conjunction of conditions after [WHERE], and the named parameters that
    travel beside the text. *)

Inductive Ref :=
| c_ (f : string)   (** [c.f], a property of the document *)
| p_ (f : string).  (** [p.f], a property of the joined permit entry *)

Inductive Expr :=
| Field (r : Ref)
| Param (name : string)
| Lit (s : string)
| YEAR (e : Expr)
| LOWER (e : Expr).

Inductive CmpOp := OpEq | OpLt | OpLe | OpGe.

Inductive Cond :=
| Cmp (a : Expr) (op : CmpOp) (b : Expr)
| CONTAINS (a b : Expr)
| IS_DEFINED (e : Expr).

Inductive Shape :=
| Select (cols : list Ref)      (** [SELECT cols FROM c JOIN p IN c.permits] *)
| CountEntries                  (** [SELECT VALUE COUNT(1) FROM c JOIN p IN c.permits] *)
| CountBy (f : string)          (** [SELECT c.f, COUNT(1) as count FROM c GROUP BY c.f] *)
| DistinctValue (f : string).   (** [SELECT DISTINCT VALUE c.f FROM c] *)

Record Query := mkQuery {
  shape : Shape;
  conditions : list Cond;
  parameters : Row
}.

(** A container handle answers a query with its items or raises. *)
Definition Container := Query -> Outcome (list Value).

(** *** Reference semantics of the store over a list of documents

    A property that is missing is [undefined]; a comparison with an
    undefined or differently typed operand is not satisfied.  [LOWER] folds
    the letters [A-Z], and [YEAR] reads the year of a date text. *)

Module Store.

Definition lower_char (c : ascii) : ascii :=
  if in_range 65 90 c then ascii_of_nat (nat_of_ascii c + 32) else c.

Fixpoint lower (s : string) : string :=
  match s with
  | EmptyString => EmptyString
  | String c s' => String (lower_char c) (lower s')
  end.

(** [contains hay needle]: [needle] occurs in [hay]. *)
Fixpoint contains (hay needle : string) : bool :=
  String.prefix needle hay
  || match hay with
     | EmptyString => false
     | String _ hay' => contains hay' needle
     end.

(** The year of a date text: its four leading decimal digits. *)
Definition year_of_text (s : string) : option Z :=
  match year_tok (list_ascii_of_string s) with
  | Some (y, _) => Some y
  | None => None
  end.

Fixpoint value_eqb (a b : Value) {struct a} : bool :=
  match a, b with
  | VNull, VNull => true
  | VStr x, VStr y => String.eqb x y
  | VNum x, VNum y => x =? y
  | VList xs, VList ys =>
      (fix all2 (xs ys : list Value) {struct xs} : bool :=
         match xs, ys with
         | [], [] => true
         | x :: xs', y :: ys' => value_eqb x y && all2 xs' ys'
         | _, _ => false
         end) xs ys
  | VDict xs, VDict ys =>
      (fix all2 (xs ys : Row) {struct xs} : bool :=
         match xs, ys with
         | [], [] => true
         | (k, x) :: xs', (k', y) :: ys' =>
             String.eqb k k' && value_eqb x y && all2 xs' ys'
         | _, _ => false
         end) xs ys
  | _, _ => false
  end.

Definition field (v : Value) (f : string) : option Value :=
  match v with
  | VDict d => Py.dict_get d f
  | _ => None
  end.

Definition ref_name (r : Ref) : string :=
  match r with c_ f => f | p_ f => f end.

Section Binding.
Variable params : Row.
Variable c : Value.
Variable p : option Value.

Definition deref (r : Ref) : option Value :=
  match r with
  | c_ f => field c f
  | p_ f => match p with Some e => field e f | None => None end
  end.

(** [None] is the language's [undefined]. *)
Fixpoint eval (e : Expr) : option Value :=
  match e with
  | Field r => deref r
  | Param name => Py.dict_get params name
  | Lit s => Some (VStr s)
  | YEAR e' =>
      match eval e' with
      | Some (VStr s) => option_map VNum (year_of_text s)
      | _ => None
      end
  | LOWER e' =>
      match eval e' with
      | Some (VStr s) => Some (VStr (lower s))
      | _ => None
      end
  end.

(** Only two strings or two numbers compare; anything else is
    undefined and fails the condition. *)
Definition compare_values (a b : Value) : option comparison :=
  match a, b with
  | VStr x, VStr y => Some (String.compare x y)
  | VNum x, VNum y => Some (x ?= y)
  | _, _ => None
  end.

Definition test (op : CmpOp) (r : comparison) : bool :=
  match op, r with
  | OpEq, Eq => true
  | OpLt, Lt => true
  | OpLe, Lt | OpLe, Eq => true
  | OpGe, Gt | OpGe, Eq => true
  | _, _ => false
  end.

Definition holds (cond : Cond) : bool :=
  match cond with
  | Cmp a op b =>
      match eval a, eval b with
      | Some x, Some y =>
          match compare_values x y with
          | Some r => test op r
          | None => false
          end
      | _, _ => false
      end
  | CONTAINS a b =>
      match eval a, eval b with
      | Some (VStr x), Some (VStr y) => contains x y
      | _, _ => false
      end
  | IS_DEFINED e => match eval e with Some _ => true | None => false end
  end.
End Binding.

Definition entries (c : Value) : list Value :=
  match field c "permits" with
  | Some (VList ps) => ps
  | _ => []
  end.

(** [FROM c JOIN p IN c.permits]: one binding per nested entry. *)
Definition joined (db : list Value) : list (Value * Value) :=
  flat_map (fun c => map (pair c) (entries c)) db.

Definition matching (q : Query) (cp : Value * Value) : bool :=
  forallb (holds (parameters q) (fst cp) (Some (snd cp))) (conditions q).

Definition matching_doc (q : Query) (c : Value) : bool :=
  forallb (holds (parameters q) c None) (conditions q).

(** Undefined properties are left out of the projected object. *)
Definition project (cols : list Ref) (cp : Value * Value) : Value :=
  VDict (flat_map (fun r =>
                     match deref (fst cp) (Some (snd cp)) r with
                     | Some v => [(ref_name r, v)]
                     | None => []
                     end) cols).

Definition opt_eqb (a b : option Value) : bool :=
  match a, b with
  | Some x, Some y => value_eqb x y
  | None, None => true
  | _, _ => false
  end.

Fixpoint bump (k : option Value) (groups : list (option Value * Z))
  : list (option Value * Z) :=
  match groups with
  | [] => [(k, 1)]
  | (k', n) :: g => if opt_eqb k' k then (k', n + 1) :: g else (k', n) :: bump k g
  end.

Definition group_count (keys : list (option Value)) : list (option Value * Z) :=
  fold_left (fun g k => bump k g) keys [].

Definition group_row (f : string) (g : option Value * Z) : Value :=
  VDict (match fst g with Some v => [(f, v)] | None => [] end
         ++ [("count", VNum (snd g))]).

Fixpoint distinct (seen l : list Value) : list Value :=
  match l with
  | [] => []
  | v :: l' =>
      if existsb (value_eqb v) seen then distinct seen l'
      else v :: distinct (v :: seen) l'
  end.

Definition answer (db : list Value) (q : Query) : list Value :=
  match shape q with
  | Select cols => map (project cols) (filter (matching q) (joined db))
  | CountEntries =>
      [VNum (Z.of_nat (List.length (filter (matching q) (joined db))))]
  | CountBy f =>
      map (group_row f)
          (group_count (map (fun c => field c f) (filter (matching_doc q) db)))
  | DistinctValue f =>
      distinct []
        (flat_map (fun c => match field c f with Some v => [v] | None => [] end)
                  (filter (matching_doc q) db))
  end.

(** A store holding [db] that fails on the queries [faults] names. *)
Definition serve (faults : Query -> option Exn) (db : list Value) : Container :=
  fun q =>
    match faults q with
    | Some e => Raises e
    | None => Returns (answer db q)
    end.

Definition healthy : Query -> option Exn := fun _ => None.

End Store.

(** ** Effects: the clock, the environment and the queries sent *)

Record Env := mkEnv {
  clock : nat -> DateTime;          (** the n-th reading of [datetime.now()] *)
  getenv : string -> option string;
  (** building the client and its container proxy from the settings *)
  connect : string -> string -> string -> string -> Outcome Container
}.

Record Trace := mkTrace {
  clock_reads : nat;      (** readings of the clock taken so far *)
  issued : list Query     (** queries sent to the store so far *)
}.

Definition M (A : Type) : Type := Trace -> Outcome A * Trace.

Module Run.
Definition ret {A} (a : A) : M A := fun t => (Returns a, t).

Definition lift {A} (o : Outcome A) : M A := fun t => (o, t).

Definition bind {A B} (m : M A) (f : A -> M B) : M B :=
  fun t =>
    match m t with
    | (Returns a, t') => f a t'
    | (Raises e, t') => (Raises e, t')
    end.

(** [try: m except Exception as e: h e] *)
Definition try_except {A} (m : M A) (h : Exn -> M A) : M A :=
  fun t =>
    match m t with
    | (Returns a, t') => (Returns a, t')
    | (Raises e, t') => h e t'
    end.

(** [datetime.now()] *)
Definition now (env : Env) : M DateTime :=
  fun t => (Returns (clock env (clock_reads t)),
            mkTrace (S (clock_reads t)) (issued t)).

(** [container.query_items(query=..., parameters=...)], read to the end *)
Definition query_items (container : Container) (q : Query) : M (list Value) :=
  fun t => (container q, mkTrace (clock_reads t) (issued t ++ [q])).
End Run.

Declare Scope run_scope.
Delimit Scope run_scope with run.
Notation "x <- m ;; k" := (Run.bind m (fun x => k))
  (at level 61, m at next level, right associativity) : run_scope.

Definition start : Trace := mkTrace 0 [].

(** ** client/cosmos_db.py *)

Definition get_permit_container (env : Env) : M Container :=
  let uri := getenv env "COSMOS_DB_URI" in
  let key := getenv env "COSMOS_DB_KEY" in
  let database := getenv env "COSMOS_DB_DATABASE" in
  let container := getenv env "COSMOS_DB_CONTAINER" in
  match uri, key, database, container with
  | Some u, Some k, Some d, Some c =>
      if Py.truthy_str uri && Py.truthy_str key
         && Py.truthy_str database && Py.truthy_str container
      then Run.lift (connect env u k d c)
      else Run.lift (Raises (mkExn ValueError "Permit Metadata CosmosDB not configured."))
  | _, _, _, _ =>
      Run.lift (Raises (mkExn ValueError "Permit Metadata CosmosDB not configured."))
  end.

(** ** permit/queries.py *)

Section Queries.
Variable env : Env.

Local Open Scope run_scope.

(** [if container is None: container = get_permit_container()] *)
Definition auto_initialize (container : option Container) : M Container :=
  match container with
  | None => get_permit_container env
  | Some k => Run.ret k
  end.

(** The shared tail of the date queries: read the items, sort them by
    the date property, newest first under ['latest'] and oldest first
    under anything else; any exception gives the empty list. *)
Definition fetch_sorted (container : Container) (q : Query)
           (date : string) (order_by : string) : M (list Value) :=
  Run.try_except
    (results <- Run.query_items container q ;;
     let items := results in
     items <- Run.lift
                (if String.eqb order_by "latest"
                 then Py.sort (fun x => Py.get x date (VStr "")) true items
                 else Py.sort (fun x => Py.get x date (VStr "")) false items) ;;
     Run.ret items)
    (fun e => Run.ret []).

(** The [WHERE] clause both year queries build for the date property
    [date] of the entry. *)
Definition year_conditions (date : string)
           (permit_type : option string) (year : option Z)
           (organization : option string) (operator : option string)
  : list Cond * Row :=
  let conditions := [] in
  let parameters := [] in
  let '(conditions, parameters) :=
    if Py.truthy_str permit_type then
      (conditions ++ [Cmp (Field (c_ "permitType")) OpEq (Param "@permitType")],
       parameters ++ [("@permitType",
                       match permit_type with Some s => VStr s | None => VNull end)])
    else (conditions, parameters) in
  let '(conditions, parameters) :=
    if Py.truthy_str operator && Py.truthy_int year then
      let parameters :=
        parameters ++ [("@year", match year with Some y => VNum y | None => VNull end)] in
      if match operator with Some o => String.eqb o "greater" | None => false end then
        (conditions ++ [Cmp (YEAR (Field (p_ date))) OpGe (Param "@year")], parameters)
      else if match operator with Some o => String.eqb o "less" | None => false end then
        (conditions ++ [Cmp (YEAR (Field (p_ date))) OpLe (Param "@year")], parameters)
      else
        (conditions ++ [Cmp (YEAR (Field (p_ date))) OpEq (Param "@year")], parameters)
    else (conditions, parameters) in
  let '(conditions, parameters) :=
    if Py.truthy_str organization then
      (conditions ++ [Cmp (Field (c_ "organization")) OpEq (Param "@organization")],
       parameters ++ [("@organization",
                       match organization with Some s => VStr s | None => VNull end)])
    else (conditions, parameters) in
  (conditions, parameters).

Definition issue_year_columns : list Ref :=
  [c_ "documentTitle"; c_ "permitType"; c_ "organization";
   p_ "issueDate"; p_ "permitSummary"; p_ "permitNumber"].

Definition query_documents_by_issue_year
           (container : option Container) (permit_type : option string)
           (year : option Z) (organization : option string)
           (operator : option string) (order_by : string) : M (list Value) :=
  container <- auto_initialize container ;;
  let '(conditions, parameters) :=
    year_conditions "issueDate" permit_type year organization operator in
  fetch_sorted container
               (mkQuery (Select issue_year_columns) conditions parameters)
               "issueDate" order_by.

Definition expiration_year_columns : list Ref :=
  [c_ "documentTitle"; c_ "permitType"; c_ "organization";
   p_ "expirationDate"; p_ "permitSummary"; p_ "permitNumber"].

Definition query_documents_by_expiration_year
           (container : option Container) (permit_type : option string)
           (year : option Z) (organization : option string)
           (operator : option string) (order_by : string) : M (list Value) :=
  container <- auto_initialize container ;;
  let '(conditions, parameters) :=
    year_conditions "expirationDate" permit_type year organization operator in
  fetch_sorted container
               (mkQuery (Select expiration_year_columns) conditions parameters)
               "expirationDate" order_by.

Definition expiry_columns : list Ref :=
  [c_ "documentTitle"; c_ "permitType"; c_ "organization"; c_ "filepath";
   p_ "expirationDate"; p_ "permitSummary"; p_ "permitNumber"; p_ "installation"].

(** [" AND c.organization = @organization"], added when an organization
    is given. *)
Definition with_organization (organization : option string)
           (conditions : list Cond) (parameters : Row) : list Cond * Row :=
  if Py.truthy_str organization then
    (conditions ++ [Cmp (Field (c_ "organization")) OpEq (Param "@organization")],
     parameters ++ [("@organization",
                     match organization with Some s => VStr s | None => VNull end)])
  else (conditions, parameters).

Definition expired_conditions : list Cond :=
  [Cmp (Field (p_ "expirationDate")) OpLt (Param "@currentDate");
   Cmp (Field (c_ "permitType")) OpEq (Lit "PLO")].

Definition query_expired_documents
           (container : option Container) (organization : option string)
           (order_by : string) : M (list Value) :=
  container <- auto_initialize container ;;
  now <- Run.now env ;;
  let current_date := strftime_ymd now in
  let parameters := [("@currentDate", VStr current_date)] in
  let '(conditions, parameters) :=
    with_organization organization expired_conditions parameters in
  fetch_sorted container (mkQuery (Select expiry_columns) conditions parameters)
               "expirationDate" order_by.

Definition expiring_conditions : list Cond :=
  [Cmp (Field (p_ "expirationDate")) OpGe (Param "@currentDate");
   Cmp (Field (p_ "expirationDate")) OpLe (Param "@futureDate");
   Cmp (Field (c_ "permitType")) OpEq (Lit "PLO")].

Definition query_documents_expiring_soon
           (container : option Container) (days : Z)
           (organization : option string) (order_by : string) : M (list Value) :=
  container <- auto_initialize container ;;
  current_date <- Run.now env ;;
  future_date <- Run.now env ;;
  future <- Run.lift (add_days current_date days) ;;
  let future_date := strftime_ymd future in
  let current_date_str := strftime_ymd current_date in
  let parameters := [("@currentDate", VStr current_date_str);
                     ("@futureDate", VStr future_date)] in
  let '(conditions, parameters) :=
    with_organization organization expiring_conditions parameters in
  fetch_sorted container (mkQuery (Select expiry_columns) conditions parameters)
               "expirationDate" order_by.

Definition detail_columns : list Ref :=
  [c_ "documentTitle"; c_ "permitType"; c_ "organization"; c_ "filepath";
   p_ "issueDate"; p_ "expirationDate"; p_ "permitSummary"; p_ "permitNumber";
   p_ "installation"].

(** [None] is the not-found result. *)
Definition query_permit_by_number
           (container : option Container) (permit_number : option string)
  : M (option Value) :=
  container <- auto_initialize container ;;
  if negb (Py.truthy_str permit_number) then Run.ret None
  else
    let query := Select detail_columns in
    let conditions := [Cmp (Field (p_ "permitNumber")) OpEq (Param "@permitNumber")] in
    let parameters :=
      [("@permitNumber",
        match permit_number with Some s => VStr s | None => VNull end)] in
    Run.try_except
      (results <- Run.query_items container (mkQuery query conditions parameters) ;;
       let items := results in
       match items with
       | first :: _ => Run.ret (Some first)
       | [] => Run.ret None
       end)
      (fun e => Run.ret None).

Definition query_permits_by_installation
           (container : option Container) (installation : option string)
           (permit_type : option string) : M (list Value) :=
  container <- auto_initialize container ;;
  if negb (Py.truthy_str installation) then Run.ret []
  else
    let conditions :=
      [CONTAINS (LOWER (Field (p_ "installation"))) (LOWER (Param "@installation"))] in
    let parameters :=
      [("@installation",
        match installation with Some s => VStr s | None => VNull end)] in
    let '(conditions, parameters) :=
      if Py.truthy_str permit_type then
        (conditions ++ [Cmp (Field (c_ "permitType")) OpEq (Param "@permitType")],
         parameters ++ [("@permitType",
                         match permit_type with Some s => VStr s | None => VNull end)])
      else (conditions, parameters) in
    Run.try_except
      (results <- Run.query_items container
                    (mkQuery (Select detail_columns) conditions parameters) ;;
       let items := results in
       Run.ret items)
      (fun e => Run.ret []).

(** [sorted(organizations)] *)
Definition sorted (l : list Value) : Outcome (list Value) :=
  Py.sort (fun x => Returns x) false l.

Definition get_all_organizations (container : option Container)
  : M (list Value) :=
  container <- auto_initialize container ;;
  Run.try_except
    (results <- Run.query_items container
                  (mkQuery (DistinctValue "organization")
                           [IS_DEFINED (Field (c_ "organization"))] []) ;;
     let organizations := results in
     Run.lift (sorted organizations))
    (fun e => Run.ret []).

End Queries.

(** *** Aggregate statistics *)

Definition PyDict := list (Value * Value).

Record Statistics := mkStatistics {
  total_permits : Value;
  expired_count : Value;
  active_count : Value;
  by_type : PyDict;
  by_organization : PyDict;
  generated_at : option DateTime;   (** the reading whose ISO text is stored *)
  error : option string
}.

Module Dict.
Definition hashable (v : Value) : bool :=
  match v with
  | VList _ | VDict _ => false
  | _ => true
  end.

(** [d[k] = v]: an existing key keeps its place. *)
Fixpoint set (d : PyDict) (k v : Value) : PyDict :=
  match d with
  | [] => [(k, v)]
  | (k', v') :: d' =>
      if Store.value_eqb k' k then (k', v) :: d' else (k', v') :: set d' k v
  end.

(** [{item[name]: item['count'] for item in items}], built onto [acc] *)
Fixpoint of_counts (name : string) (items : list Value) (acc : PyDict)
  : Outcome PyDict :=
  match items with
  | [] => Returns acc
  | item :: rest =>
      (k <- Py.index item name ;;
       v <- Py.index item "count" ;;
       if hashable k then of_counts name rest (set acc k v)
       else Raises (mkExn TypeError "unhashable type"))%exc
  end.

Definition values (d : PyDict) : list Value := map snd d.
End Dict.

(** [next(results, 0)] *)
Definition next (results : list Value) (default : Value) : Value :=
  match results with
  | x :: _ => x
  | [] => default
  end.

Definition expired_count_conditions : list Cond :=
  [Cmp (Field (p_ "expirationDate")) OpLt (Param "@currentDate");
   Cmp (Field (c_ "permitType")) OpEq (Lit "PLO")].

Definition total_query : Query := mkQuery CountEntries [] [].
Definition expired_query (current_date : string) : Query :=
  mkQuery CountEntries expired_count_conditions [("@currentDate", VStr current_date)].
Definition type_query : Query := mkQuery (CountBy "permitType") [] [].
Definition org_query : Query := mkQuery (CountBy "organization") [] [].

Definition get_permit_statistics (env : Env) (container : option Container)
  : M Statistics :=
  (container <- auto_initialize env container ;;
   now <- Run.now env ;;
   let current_date := strftime_ymd now in
   Run.try_except
     (total_results <- Run.query_items container total_query ;;
      let total_count := next total_results (VNum 0) in
      expired_results <- Run.query_items container (expired_query current_date) ;;
      let expired_count := next expired_results (VNum 0) in
      type_results <- Run.query_items container type_query ;;
      by_type <- Run.lift (Dict.of_counts "permitType" type_results []) ;;
      org_results <- Run.query_items container org_query ;;
      by_organization <- Run.lift (Dict.of_counts "organization" org_results []) ;;
      active <- Run.lift (Py.sub total_count expired_count) ;;
      stamp <- Run.now env ;;
      let statistics :=
        mkStatistics total_count expired_count active by_type by_organization
                     (Some stamp) None in
      Run.ret statistics)
     (fun e =>
        Run.ret (mkStatistics (VNum 0) (VNum 0) (VNum 0) [] [] None
                              (Some (exn_msg e)))))%run.

(** ** permit/tools.py: the permit-details tool *)

(** The text the tool answers with, kept as the template and what fills
    it. *)
Inductive Reply :=
| NotFound (permit_number : string)
    (** [f"Permit '{permit_number}' not found in the database."] *)
| Details (permit_number : string) (permit : Value) (expiration : Value)
          (status days_info : string)
    (** the details template; its status line is
        [f"Status: {status} {days_info}"] *)
| Failure (message : string).
    (** [f"Error retrieving permit details: {str(e)}"] *)

Definition status_line (status days_info : string) : string :=
  ("Status: " ++ status ++ " " ++ days_info)%string.

(** [str(n)] for an integer *)
Definition str_int (n : Z) : string := NilZero.string_of_int (Z.to_int n).

(** [datetime.strptime(expiry, "%Y-%m-%d")] on an object *)
Definition strptime (x : Value) : Outcome DateTime :=
  match x with
  | VStr s => strptime_ymd s
  | _ => Raises (mkExn TypeError "strptime() argument 1 must be str")
  end.

Definition get_permit_details (env : Env) (cosmos_container : Container)
           (permit_number : string) : M Reply :=
  (Run.try_except
     (permit <- query_permit_by_number env (Some cosmos_container)
                                       (Some permit_number) ;;
      match permit with
      | None => Run.ret (NotFound permit_number)
      | Some permit =>
          if negb (Py.truthy permit) then Run.ret (NotFound permit_number)
          else
            current_date <- Run.now env ;;
            expiry <- Run.lift (Py.get permit "expirationDate" VNull) ;;
            let status := "Active" in
            let days_info := "" in
            status_info <-
              (if Py.truthy expiry then
                 expiry_date <- Run.lift (strptime expiry) ;;
                 let days_diff := sub_days expiry_date current_date in
                 if days_diff <? 0 then
                   Run.ret ("Expired",
                            ("Expired " ++ str_int (Z.abs days_diff) ++ " days ago")%string)
                 else if days_diff <=? 30 then
                   Run.ret ("Expiring Soon",
                            ("Expires in " ++ str_int days_diff ++ " days")%string)
                 else
                   Run.ret (status,
                            ("Expires in " ++ str_int days_diff ++ " days")%string)
               else Run.ret (status, days_info)) ;;
            let '(status, days_info) := status_info in
            Run.ret (Details permit_number permit
                             (if Py.truthy expiry then expiry else VStr "N/A")
                             status days_info)
      end)
     (fun e => Run.ret (Failure (exn_msg e))))%run.

(** ** The query-builder operations as one interface *)

Inductive Call :=
| ByIssueYear (permit_type : option string) (year : option Z)
              (organization operator : option string) (order_by : string)
| ByExpirationYear (permit_type : option string) (year : option Z)
                   (organization operator : option string) (order_by : string)
| Expired (organization : option string) (order_by : string)
| ExpiringSoon (days : Z) (organization : option string) (order_by : string)
| ByNumber (permit_number : option string)
| ByInstallation (installation permit_type : option string)
| AllOrganizations
| PermitStatistics.

Inductive Answer :=
| Items (l : list Value)
| Found (o : option Value)
| Stats (s : Statistics).

Definition perform (env : Env) (container : option Container) (call : Call)
  : M Answer :=
  match call with
  | ByIssueYear permit_type year organization operator order_by =>
      (l <- query_documents_by_issue_year env container permit_type year
              organization operator order_by ;; Run.ret (Items l))%run
  | ByExpirationYear permit_type year organization operator order_by =>
      (l <- query_documents_by_expiration_year env container permit_type year
              organization operator order_by ;; Run.ret (Items l))%run
  | Expired organization order_by =>
      (l <- query_expired_documents env container organization order_by ;;
       Run.ret (Items l))%run
  | ExpiringSoon days organization order_by =>
      (l <- query_documents_expiring_soon env container days organization
              order_by ;; Run.ret (Items l))%run
  | ByNumber permit_number =>
      (o <- query_permit_by_number env container permit_number ;;
       Run.ret (Found o))%run
  | ByInstallation installation permit_type =>
      (l <- query_permits_by_installation env container installation
              permit_type ;; Run.ret (Items l))%run
  | AllOrganizations =>
      (l <- get_all_organizations env container ;; Run.ret (Items l))%run
  | PermitStatistics =>
      (s <- get_permit_statistics env container ;; Run.ret (Stats s))%run
  end.

(** The zeroed statistics carrying an error text. *)
Definition zeroed (message : string) : Statistics :=
  mkStatistics (VNum 0) (VNum 0) (VNum 0) [] [] None (Some message).

(** What each operation answers once an exception was caught. *)
Definition fallback (call : Call) (message : string) : Answer :=
  match call with
  | ByNumber _ => Found None
  | PermitStatistics => Stats (zeroed message)
  | _ => Items []
  end.

(** The queries an operation sent, given the trace it started from and the
    one it ended with. *)
Definition sent (before after : Trace) : list Query :=
  skipn (List.length (issued before)) (issued after).

(** ** permit/tools.py: the current-date tool and the listing tools *)

Definition get_current_date (env : Env) : M string :=
  (now <- Run.now env ;;
   let current := strftime_ymd now in
   Run.ret current)%run.

(** Text a tool builds is kept as its pieces: literal text and [str(v)] of
    an object that fills a replacement field. *)
Inductive Piece :=
| Text (s : string)
| Str (v : Value).

Definition Block := list Piece.

Inductive ToolText :=
| Line (b : Block)                           (** one formatted sentence *)
| Joined (sep : string) (blocks : list Block).  (** [sep.join(result_list)] *)

(** The line feed of the templates. *)
Definition nl : string := String (ascii_of_nat 10) EmptyString.

(** A template over one item: literal text and [item.get(key, default)]. *)
Inductive Slot :=
| Fixed (s : string)
| Lookup (key default : string).

Definition fill (item : Value) (slots : list Slot) : Outcome Block :=
  Exc.mapM (fun slot =>
              match slot with
              | Fixed s => Returns (Text s)
              | Lookup key default =>
                  (v <- Py.get item key (VStr default) ;; Returns (Str v))%exc
              end) slots.

(** [enumerate(items, start)] *)
Fixpoint enumerate {A} (start : Z) (items : list A) : list (Z * A) :=
  match items with
  | [] => []
  | x :: xs => (start, x) :: enumerate (start + 1) xs
  end.

(** [len(items)] *)
Definition len {A} (items : list A) : Z := Z.of_nat (List.length items).

(** [str(year)] of an optional integer *)
Definition str_optional_int (o : option Z) : string :=
  match o with
  | Some n => str_int n
  | None => "None"
  end.

(** One numbered entry: [f"{idx}"] followed by the template over the
    item. *)
Definition numbered (slots : list Slot) (entry : Z * Value) : Outcome Block :=
  (b <- fill (snd entry) slots ;; Returns (Text (str_int (fst entry)) :: b))%exc.

(** The loop that appends one entry per item to [result_list]. *)
Definition entries_of (slots : list Slot) (items : list Value)
  : Outcome (list Block) :=
  Exc.mapM (numbered slots) (enumerate 1 items).

Definition issue_year_entry : list Slot :=
  [Fixed ". "; Lookup "documentTitle" "N/A"; Fixed " - "; Lookup "permitNumber" "N/A";
   Fixed (nl ++ "   Organization: "); Lookup "organization" "N/A";
   Fixed (nl ++ "   Issue Date: "); Lookup "issueDate" "N/A";
   Fixed (nl ++ "   Summary: "); Lookup "permitSummary" "No summary available";
   Fixed nl].

Definition get_list_documents_by_issue_year
           (env : Env) (cosmos_container : Container)
           (permit_type : option string) (year : option Z)
           (organization operator : option string) (order_by : string)
  : M ToolText :=
  (Run.try_except
     (items <- query_documents_by_issue_year env (Some cosmos_container)
                 permit_type year organization operator order_by ;;
      match items with
      | [] =>
          Run.ret (Line [Text "No documents found issued in year ";
                         Text (str_optional_int year);
                         Text " with the specified filters."])
      | _ :: _ =>
          let result_list :=
            [[Text "List of documents issued: "; Text (str_int (len items));
              Text (" items found" ++ nl)]] in
          entries <- Run.lift (entries_of issue_year_entry items) ;;
          Run.ret (Joined nl (result_list ++ entries))
      end)
     (fun e => Run.ret (Line [Text "Error retrieving documents: ";
                              Text (exn_msg e)])))%run.

Definition expiration_year_entry : list Slot :=
  [Fixed ". "; Lookup "documentTitle" "N/A"; Fixed " - "; Lookup "permitNumber" "N/A";
   Fixed (nl ++ "   Organization: "); Lookup "organization" "N/A";
   Fixed (nl ++ "   Expiration Date: "); Lookup "expirationDate" "N/A";
   Fixed (nl ++ "   Summary: "); Lookup "permitSummary" "No summary available";
   Fixed nl].

Definition get_list_documents_by_expiration_year
           (env : Env) (cosmos_container : Container)
           (permit_type : option string) (year : option Z)
           (organization operator : option string) (order_by : string)
  : M ToolText :=
  (Run.try_except
     (items <- query_documents_by_expiration_year env (Some cosmos_container)
                 permit_type year organization operator order_by ;;
      match items with
      | [] =>
          Run.ret (Line [Text "No documents found expiring in year ";
                         Text (str_optional_int year);
                         Text " with the specified filters."])
      | _ :: _ =>
          let result_list :=
            [[Text "List of documents expiring: "; Text (str_int (len items));
              Text (" items found" ++ nl)]] in
          entries <- Run.lift (entries_of expiration_year_entry items) ;;
          Run.ret (Joined nl (result_list ++ entries))
      end)
     (fun e => Run.ret (Line [Text "Error retrieving documents: ";
                              Text (exn_msg e)])))%run.

Definition expired_entry : list Slot :=
  [Fixed ". "; Lookup "documentTitle" "N/A"; Fixed " - "; Lookup "permitNumber" "N/A";
   Fixed (nl ++ "   Organization: "); Lookup "organization" "N/A";
   Fixed (nl ++ "   Installation: "); Lookup "installation" "N/A";
   Fixed (nl ++ "   Expired On: "); Lookup "expirationDate" "N/A";
   Fixed (nl ++ "   Summary: "); Lookup "permitSummary" "No summary available";
   Fixed nl].

Definition get_list_documents_already_expired
           (env : Env) (cosmos_container : Container)
           (organization : option string) (order_by : string) : M ToolText :=
  (Run.try_except
     (now <- Run.now env ;;
      let current_date := strftime_ymd now in
      items <- query_expired_documents env (Some cosmos_container)
                 organization order_by ;;
      match items with
      | [] =>
          Run.ret (Line [Text "No expired documents found as of ";
                         Text current_date; Text "."])
      | _ :: _ =>
          let result_list :=
            [[Text "Documents that have already expired as of ";
              Text current_date; Text (":" ++ nl ++ "Total: ");
              Text (str_int (len items)); Text (" expired permits" ++ nl)]] in
          entries <- Run.lift (entries_of expired_entry items) ;;
          Run.ret (Joined nl (result_list ++ entries))
      end)
     (fun e => Run.ret (Line [Text "Error retrieving expired documents: ";
                              Text (exn_msg e)])))%run.

(** [for x in l: ...] with effects *)
Fixpoint for_each {A B} (f : A -> M B) (l : list A) : M (list B) :=
  match l with
  | [] => Run.ret []
  | x :: xs =>
      (y <- f x ;; ys <- for_each f xs ;; Run.ret (y :: ys))%run
  end.

(** [expiry != 'N/A'] *)
Definition differs_from (v : Value) (s : string) : bool :=
  match v with
  | VStr s' => negb (String.eqb s' s)
  | _ => true
  end.

Definition expiring_entry_head : list Slot :=
  [Fixed ". "; Lookup "documentTitle" "N/A"; Fixed " - "; Lookup "permitNumber" "N/A";
   Fixed (nl ++ "   Organization: "); Lookup "organization" "N/A";
   Fixed (nl ++ "   Installation: "); Lookup "installation" "N/A";
   Fixed (nl ++ "   Expires On: ")].

Definition expiring_entry_tail : list Slot :=
  [Fixed (nl ++ "   Summary: "); Lookup "permitSummary" "No summary available";
   Fixed nl].

(** The body of the loop of the expiring-soon tool: the days remaining are
    counted from a fresh reading of the clock. *)
Definition expiring_entry (env : Env) (entry : Z * Value) : M Block :=
  (let '(idx, item) := entry in
   expiry <- Run.lift (Py.get item "expirationDate" (VStr "N/A")) ;;
   days_text <-
     (if differs_from expiry "N/A" then
        expiry_date <- Run.lift (strptime expiry) ;;
        now <- Run.now env ;;
        let days_remaining := sub_days expiry_date now in
        Run.ret ("(" ++ str_int days_remaining ++ " days remaining)")%string
      else Run.ret "") ;;
   head <- Run.lift (fill item expiring_entry_head) ;;
   tail <- Run.lift (fill item expiring_entry_tail) ;;
   Run.ret (Text (str_int idx) :: head
            ++ [Str expiry; Text " "; Text days_text] ++ tail))%run.

Definition get_list_documents_expiring_soon
           (env : Env) (cosmos_container : Container) (days : Z)
           (organization : option string) (order_by : string) : M ToolText :=
  (Run.try_except
     (now <- Run.now env ;;
      let current_date := strftime_ymd now in
      items <- query_documents_expiring_soon env (Some cosmos_container) days
                 organization order_by ;;
      match items with
      | [] =>
          Run.ret (Line [Text "No documents expiring within the next ";
                         Text (str_int days); Text " days."])
      | _ :: _ =>
          let result_list :=
            [[Text "Documents expiring within the next "; Text (str_int days);
              Text " days (as of "; Text current_date;
              Text ("):" ++ nl ++ "Total: "); Text (str_int (len items));
              Text (" permits" ++ nl)]] in
          entries <- for_each (expiring_entry env) (enumerate 1 items) ;;
          Run.ret (Joined nl (result_list ++ entries))
      end)
     (fun e => Run.ret (Line [Text "Error retrieving documents expiring soon: ";
                              Text (exn_msg e)])))%run.

Definition installation_entry : list Slot :=
  [Fixed ". "; Lookup "permitNumber" "N/A"; Fixed " - "; Lookup "permitType" "N/A";
   Fixed (nl ++ "   Document: "); Lookup "documentTitle" "N/A";
   Fixed (nl ++ "   Organization: "); Lookup "organization" "N/A";
   Fixed (nl ++ "   Issue Date: "); Lookup "issueDate" "N/A";
   Fixed (nl ++ "   Expiration: "); Lookup "expirationDate" "N/A";
   Fixed (nl ++ "   Summary: "); Lookup "permitSummary" "No summary available";
   Fixed nl].

Definition get_permits_by_installation
           (env : Env) (cosmos_container : Container) (installation : string)
           (permit_type : option string) : M ToolText :=
  (Run.try_except
     (items <- query_permits_by_installation env (Some cosmos_container)
                 (Some installation) permit_type ;;
      match items with
      | [] =>
          Run.ret (Line [Text "No permits found for installation '";
                         Text installation; Text "'."])
      | _ :: _ =>
          let result_list :=
            [[Text "Permits for installation '"; Text installation;
              Text ("':" ++ nl ++ "Total: "); Text (str_int (len items));
              Text (" permits found" ++ nl)]] in
          entries <- Run.lift (entries_of installation_entry items) ;;
          Run.ret (Joined nl (result_list ++ entries))
      end)
     (fun e => Run.ret (Line [Text "Error retrieving permits for installation: ";
                              Text (exn_msg e)])))%run.

(** ** client/cosmos_db.py: the conversation container *)

Definition conversation_not_configured : string :=
  "Conversation History CosmosDB not configured. "
  ++ "Set AZURE_COSMOSDB_ACCOUNT, AZURE_COSMOSDB_ACCOUNT_KEY, "
  ++ "AZURE_COSMOSDB_DATABASE, and AZURE_COSMOSDB_CONVERSATIONS_CONTAINER in .env".

Definition get_conversation_container (env : Env) : M Container :=
  let account := getenv env "AZURE_COSMOSDB_ACCOUNT" in
  let key := getenv env "AZURE_COSMOSDB_ACCOUNT_KEY" in
  let database := getenv env "AZURE_COSMOSDB_DATABASE" in
  let container := getenv env "AZURE_COSMOSDB_CONVERSATIONS_CONTAINER" in
  match account, key, database, container with
  | Some a, Some k, Some d, Some c =>
      if Py.truthy_str account && Py.truthy_str key
         && Py.truthy_str database && Py.truthy_str container
      then
        let uri := ("https://" ++ a ++ ".documents.azure.com:443/")%string in
        Run.lift (connect env uri k d c)
      else Run.lift (Raises (mkExn ValueError conversation_not_configured))
  | _, _, _, _ =>
      Run.lift (Raises (mkExn ValueError conversation_not_configured))
  end.

(** ** client/cosmos_db.py: the client object and its lazy proxies

    The SDK client hands out a database proxy for a database name, and the
    proxy a container handle for a container name.  The object caches
    both; [sdk_calls] records what was asked of the SDK. *)

Module Client.

Inductive SdkCall :=
| GetDatabaseClient (database_id : string)
| GetContainerClient (container_id : string).

Definition DatabaseProxy := string -> Container.

(** [AzureCosmosClient(url=uri, credential=key)] *)
Definition Sdk := string -> string -> string -> DatabaseProxy.

Record CosmosDBClient := mkCosmosDBClient {
  uri : string;
  key : string;
  database_id : string;
  container_id : string;
  client : string -> DatabaseProxy;
  _database : option DatabaseProxy;
  _container : option Container;
  sdk_calls : list SdkCall
}.

Definition not_configured : string :=
  "CosmosDB credentials not configured. Provide uri and key parameters".

(** [CosmosDBClient(uri, key, database_id, container_id)] *)
Definition init (sdk : Sdk) (uri key : option string)
           (database_id container_id : string) : Outcome CosmosDBClient :=
  match uri, key with
  | Some u, Some k =>
      if Py.truthy_str uri && Py.truthy_str key
      then Returns (mkCosmosDBClient u k database_id container_id (sdk u k)
                                     None None [])
      else Raises (mkExn ValueError not_configured)
  | _, _ => Raises (mkExn ValueError not_configured)
  end.

Definition with_database (self : CosmosDBClient) (proxy : DatabaseProxy)
           (call : SdkCall) : CosmosDBClient :=
  mkCosmosDBClient (uri self) (key self) (database_id self) (container_id self)
                   (client self) (Some proxy) (_container self)
                   (sdk_calls self ++ [call]).

Definition with_container (self : CosmosDBClient) (handle : Container)
           (call : SdkCall) : CosmosDBClient :=
  mkCosmosDBClient (uri self) (key self) (database_id self) (container_id self)
                   (client self) (_database self) (Some handle)
                   (sdk_calls self ++ [call]).

(** The [database] property *)
Definition database (self : CosmosDBClient) : DatabaseProxy * CosmosDBClient :=
  match _database self with
  | None =>
      let proxy := client self (database_id self) in
      (proxy, with_database self proxy (GetDatabaseClient (database_id self)))
  | Some proxy => (proxy, self)
  end.

(** The [container] property *)
Definition container (self : CosmosDBClient) : Container * CosmosDBClient :=
  match _container self with
  | None =>
      let '(proxy, self) := database self in
      let handle := proxy (container_id self) in
      (handle, with_container self handle (GetContainerClient (container_id self)))
  | Some handle => (handle, self)
  end.

(** [CosmosDBClient.query_items]: the items are read into a list; an
    exception is logged and raised again. *)
Definition query_items (self : CosmosDBClient) (q : Query)
  : Outcome (list Value) * CosmosDBClient :=
  let '(handle, self) := container self in
  (Exc.catch (handle q) (fun e => Raises e), self).

(** What [get_permit_container] and [get_conversation_container] do once
    the settings are read: build the client and hand out its container. *)
Definition connect_with (sdk : Sdk) (uri key database container : string)
  : Outcome Container :=
  (client <- init sdk (Some uri) (Some key) database container ;;
   Returns (fst (Client.container client)))%exc.

End Client.

(** ** client/azure_search.py *)

Module AzureSearch.

Record AzureAISearch := mkAzureAISearch {
  base_url : string;
  api_key : string;
  index_name : string
}.

(** [a or b] on optional strings *)
Definition or_else (a b : option string) : option string :=
  if Py.truthy_str a then a else b.

Definition not_configured : string :=
  "Azure AI Search credentials not configured. "
  ++ "Set AZURE_AI_SEARCH_ENDPOINT, AZURE_AI_SEARCH_API_KEY, "
  ++ "and AZURE_AI_SEARCH_INDEX_NAME".

Definition init (env : Env)
           (base_url api_key index_name : option string) : Outcome AzureAISearch :=
  let base_url := or_else base_url (getenv env "AZURE_AI_SEARCH_ENDPOINT") in
  let api_key := or_else api_key (getenv env "AZURE_AI_SEARCH_API_KEY") in
  let index_name := or_else index_name (getenv env "AZURE_AI_SEARCH_INDEX_NAME") in
  match base_url, api_key, index_name with
  | Some b, Some a, Some i =>
      if Py.truthy_str base_url && Py.truthy_str api_key && Py.truthy_str index_name
      then Returns (mkAzureAISearch b a i)
      else Raises (mkExn ValueError not_configured)
  | _, _, _ =>
      Raises (mkExn ValueError not_configured)
  end.

Definition headers (self : AzureAISearch) : Row :=
  [("Content-Type", VStr "application/json"); ("api-key", VStr (api_key self))].

Definition search_url (self : AzureAISearch) : string :=
  (base_url self ++ "/indexes/" ++ index_name self
   ++ "/docs/search?api-version=2023-11-01")%string.

(** The HTTP client: [post url json headers] gives the decoded response
    or raises. *)
Definition Http := string -> Value -> Row -> Outcome Value.

(** Truth value of an optional list of field names. *)
Definition truthy_fields (o : option (list string)) : bool :=
  match o with
  | Some (_ :: _) => true
  | _ => false
  end.

Definition fields_of (o : option (list string)) : list string :=
  match o with Some l => l | None => [] end.

(** Truth value of an optional object. *)
Definition truthy_opt (o : option Value) : bool :=
  match o with
  | Some v => Py.truthy v
  | None => false
  end.

Definition semantic_payload (keyword : string) (k : Z)
           (select_fields vector_fields : option (list string))
           (filter_query : option string) : Row :=
  let payload :=
    [("search", VStr keyword); ("queryType", VStr "semantic");
     ("semanticConfiguration", VStr "default"); ("top", VNum k)] in
  let payload :=
    if truthy_fields select_fields
    then payload ++ [("select", VStr (String.concat "," (fields_of select_fields)))]
    else payload in
  let payload :=
    if truthy_fields vector_fields
    then payload
         ++ [("vectorQueries",
              VList [VDict [("kind", VStr "text"); ("text", VStr keyword);
                            ("fields",
                             VStr (String.concat "," (fields_of vector_fields)))]])]
    else payload in
  let payload :=
    if Py.truthy_str filter_query
    then payload ++ [("filter", match filter_query with
                                | Some f => VStr f
                                | None => VNull
                                end)]
    else payload in
  payload.

Definition semantic_ranking_search (http : Http) (self : AzureAISearch)
           (keyword : string) (k : Z)
           (select_fields vector_fields : option (list string))
           (filter_query : option string) : Outcome Value :=
  let url := search_url self in
  let payload :=
    semantic_payload keyword k select_fields vector_fields filter_query in
  Exc.catch (http url (VDict payload) (headers self)) (fun e => Raises e).

Definition vector_payload (vector : Value) (k : Z)
           (vector_fields select_fields : option (list string))
           (filter_query : option string) : Row :=
  let payload :=
    [("vectorQueries",
      VList [VDict [("kind", VStr "vector"); ("vector", vector);
                    ("fields",
                     VStr (String.concat ","
                             (if truthy_fields vector_fields
                              then fields_of vector_fields
                              else ["contentVector"])));
                    ("k", VNum k)]])] in
  let payload :=
    if truthy_fields select_fields
    then payload ++ [("select", VStr (String.concat "," (fields_of select_fields)))]
    else payload in
  let payload :=
    if Py.truthy_str filter_query
    then payload ++ [("filter", match filter_query with
                                | Some f => VStr f
                                | None => VNull
                                end)]
    else payload in
  payload.

Definition vector_search (http : Http) (self : AzureAISearch)
           (vector : Value) (k : Z)
           (vector_fields select_fields : option (list string))
           (filter_query : option string) : Outcome Value :=
  let url := search_url self in
  let payload := vector_payload vector k vector_fields select_fields filter_query in
  Exc.catch (http url (VDict payload) (headers self)) (fun e => Raises e).

Definition hybrid_payload (keyword : string) (vector : option Value) (k : Z)
           (select_fields : option (list string))
           (filter_query : option string) : Row :=
  let payload :=
    [("search", VStr keyword); ("queryType", VStr "semantic");
     ("semanticConfiguration", VStr "default"); ("top", VNum k)] in
  let payload :=
    if truthy_opt vector
    then payload
         ++ [("vectorQueries",
              VList [VDict [("kind", VStr "vector");
                            ("vector", match vector with
                                       | Some v => v
                                       | None => VNull
                                       end);
                            ("fields", VStr "contentVector,titleVector");
                            ("k", VNum k)]])]
    else payload in
  let payload :=
    if truthy_fields select_fields
    then payload ++ [("select", VStr (String.concat "," (fields_of select_fields)))]
    else payload in
  let payload :=
    if Py.truthy_str filter_query
    then payload ++ [("filter", match filter_query with
                                | Some f => VStr f
                                | None => VNull
                                end)]
    else payload in
  payload.

Definition hybrid_search (http : Http) (self : AzureAISearch)
           (keyword : string) (vector : option Value) (k : Z)
           (select_fields : option (list string))
           (filter_query : option string) : Outcome Value :=
  let url := search_url self in
  let payload := hybrid_payload keyword vector k select_fields filter_query in
  Exc.catch (http url (VDict payload) (headers self)) (fun e => Raises e).

End AzureSearch.

(** ** permit/tools.py: the content lookup *)

(** [for doc in x]: a list gives its elements, a string its characters, a
    dictionary its keys; nothing else can be iterated. *)
Definition iterate (x : Value) : Outcome (list Value) :=
  match x with
  | VList l => Returns l
  | VStr s =>
      Returns (map (fun c => VStr (String c EmptyString)) (list_ascii_of_string s))
  | VDict d => Returns (map (fun kv => VStr (fst kv)) d)
  | _ => Raises (mkExn TypeError "object is not iterable")
  end.

Definition get_permit_document_content (http : AzureSearch.Http)
           (retrieval_client : AzureSearch.AzureAISearch) (keyword : string)
  : Outcome ToolText :=
  Exc.catch
    (search_results <- AzureSearch.semantic_ranking_search
                         http retrieval_client keyword 10
                         (Some ["title"; "content"]) None None ;;
     found <- Py.get search_results "value" VNull ;;
     if negb (Py.truthy found)
     then Returns (Line [Text "No relevant documents found for the query."])
     else
       value <- Py.index search_results "value" ;;
       items <- iterate value ;;
       docs <- Exc.mapM (fun doc => Py.get doc "content" (VStr "")) items ;;
       value <- Py.index search_results "value" ;;
       items <- iterate value ;;
       titles <- Exc.mapM (fun doc => Py.get doc "title" (VStr "Untitled")) items ;;
       let result :=
         Joined (nl ++ nl)
                (map (fun '(t, d) => [Text "["; Str t; Text ("]:" ++ nl); Str d])
                     (combine titles docs)) in
       Returns result)%exc
    (fun e => Returns (Line [Text "Error retrieving documents: ";
                             Text (exn_msg e)])).

(** ** Sample data *)

Module Sample.

Definition entry (number issue : string) (expiration : option string)
           (installation : string) : Value :=
  VDict ([("permitNumber", VStr number); ("issueDate", VStr issue)]
         ++ match expiration with
            | Some e => [("expirationDate", VStr e)]
            | None => []
            end
         ++ [("permitSummary", VStr "summary"); ("installation", VStr installation)]).

Definition document (title type org : string) (permits : list Value) : Value :=
  VDict [("documentTitle", VStr title); ("permitType", VStr type);
         ("organization", VStr org); ("filepath", VStr "/permits/doc.pdf");
         ("permits", VList permits)].

(** One PLO document bundling two entries and one KKPR/KKPRL document. *)
Definition db : list Value :=
  [document "Pipeline A" "PLO" "PPN"
     [entry "PLO-2024-001" "2024-01-05" (Some "2025-11-25") "IT Semarang Refinery";
      entry "PLO-2023-007" "2023-03-01" (Some "2025-01-01") "IT Jakarta"];
   document "Sea use B" "KKPR/KKPRL" "PGN"
     [entry "KKPRL-2022-003" "2022-06-01" None "IT Semarang"]].

Definition store : Container := Store.serve Store.healthy db.

Definition outage : Exn := mkExn StoreError "service unavailable".

(** A handle whose every query fails. *)
Definition down : Container := fun _ => Raises outage.

(** 20 November 2025, a little after midnight; no settings configured. *)
Definition env : Env :=
  mkEnv (fun _ => mkDateTime 2025 11 20 100)
        (fun _ => None)
        (fun _ _ _ _ => Raises outage).

End Sample.

(** ** Vocabulary of the properties *)

(** A text the format ["%Y-%m-%d"] does not accept as a date. *)
Definition malformed (s : string) : Prop :=
  forall d, strptime_ymd s <> Returns d.

Definition non_decreasing (keys : list Value) : Prop :=
  Sorted (fun a b => Py.leb a b = true) keys.

Definition non_increasing (keys : list Value) : Prop :=
  Sorted (fun a b => Py.leb b a = true) keys.

Definition ordered (reverse : bool) (keys : list Value) : Prop :=
  if reverse then non_increasing keys else non_decreasing keys.

Definition same_kind (a b : Value) : Prop :=
  (Py.is_str a = true /\ Py.is_str b = true)
  \/ (Py.is_num a = true /\ Py.is_num b = true).

(** The sort keys of a result list: the date property of each item, the
    empty string where it is missing. *)
Definition date_keys (date : string) (items : list Value) : Outcome (list Value) :=
  Exc.mapM (fun x => Py.get x date (VStr "")) items.

Definition date_ordered (date order_by : string) (items : list Value) : Prop :=
  exists keys,
    date_keys date items = Returns keys
    /\ (order_by = "latest" -> non_increasing keys)
    /\ (order_by = "earliest" -> non_decreasing keys).

(** The string held by a property of an object, if it holds one. *)
Definition text_of (x : Value) (f : string) : option string :=
  match Store.field x f with
  | Some (VStr s) => Some s
  | _ => None
  end.

(** The entry of a joined pair carries this permit number. *)
Definition has_number (permit_number : string) (cp : Value * Value) : bool :=
  match text_of (snd cp) "permitNumber" with
  | Some s => String.eqb s permit_number
  | None => false
  end.

(** The joined entries with this permit number, in store order. *)
Definition with_number (permit_number : string) (db : list Value)
  : list (Value * Value) :=
  filter (has_number permit_number) (Store.joined db).

(** [needle] occurs in [hay] as a run of consecutive characters. *)
Definition substring_of (needle hay : string) : Prop :=
  exists pre post, hay = (pre ++ needle ++ post)%string.

(** The entry's installation contains the search text, letter case
    aside. *)
Definition installation_matches (installation : string) (cp : Value * Value)
  : Prop :=
  exists s, text_of (snd cp) "installation" = Some s
            /\ substring_of (Store.lower installation) (Store.lower s).

(** The document of a joined pair has the permit type asked for, when one
    is asked for. *)
Definition of_type (permit_type : option string) (cp : Value * Value) : Prop :=
  match permit_type with
  | Some type => type <> "" -> text_of (fst cp) "permitType" = Some type
  | None => True
  end.

(** The query the lookup by installation sends for a non-empty search
    text. *)
Definition installation_query (installation : string)
           (permit_type : option string) : Query :=
  let conditions :=
    [CONTAINS (LOWER (Field (p_ "installation"))) (LOWER (Param "@installation"))] in
  let parameters := [("@installation", VStr installation)] in
  if Py.truthy_str permit_type then
    mkQuery (Select detail_columns)
            (conditions ++ [Cmp (Field (c_ "permitType")) OpEq (Param "@permitType")])
            (parameters ++ [("@permitType",
                             match permit_type with
                             | Some s => VStr s
                             | None => VNull
                             end)])
  else mkQuery (Select detail_columns) conditions parameters.

(** The query [query_expired_documents] sends on [current_date]. *)
Definition expired_documents_query (current_date : string)
           (organization : option string) : Query :=
  let '(conditions, parameters) :=
    with_organization organization expired_conditions
                      [("@currentDate", VStr current_date)] in
  mkQuery (Select expiry_columns) conditions parameters.

(** The query [query_documents_expiring_soon] sends for the window from
    [current_date] to [future_date]. *)
Definition expiring_soon_query (current_date future_date : string)
           (organization : option string) : Query :=
  let '(conditions, parameters) :=
    with_organization organization expiring_conditions
                      [("@currentDate", VStr current_date);
                       ("@futureDate", VStr future_date)] in
  mkQuery (Select expiry_columns) conditions parameters.

(** Four digits, a dash, two digits, a dash, two digits. *)
Definition is_ymd_form (s : string) : bool :=
  match list_ascii_of_string s with
  | [y1; y2; y3; y4; d1; m1; m2; d2; a1; a2] =>
      is_digit y1 && is_digit y2 && is_digit y3 && is_digit y4
      && is_char 45 d1 && is_digit m1 && is_digit m2
      && is_char 45 d2 && is_digit a1 && is_digit a2
  | _ => false
  end.

(** The query a year operation sends. *)
Definition year_query (cols : list Ref) (date : string)
           (permit_type : option string) (year : option Z)
           (organization operator : option string) : Query :=
  let '(conditions, parameters) :=
    year_conditions date permit_type year organization operator in
  mkQuery (Select cols) conditions parameters.

(** The year [y] of a date stands to the requested [year] as the operator
    says: ['equal'] is equality, ['greater'] is on or after, ['less'] is on
    or before. *)
Definition satisfies (operator : string) (y year : Z) : Prop :=
  (operator = "equal" /\ y = year)
  \/ (operator = "greater" /\ y >= year)
  \/ (operator = "less" /\ y <= year).

Definition valid_operator (operator : string) : Prop :=
  In operator ["equal"; "greater"; "less"].

(** The record shows the permit type asked for, when one is asked for. *)
Definition shows_type (permit_type : option string) (item : Value) : Prop :=
  match permit_type with
  | Some type => type <> "" -> text_of item "permitType" = Some type
  | None => True
  end.

(** The record shows a date in property [date] whose year satisfies the
    operator. *)
Definition year_satisfies (date operator : string) (year : Z) (item : Value)
  : Prop :=
  exists s y, text_of item date = Some s
              /\ Store.year_of_text s = Some y
              /\ satisfies operator y year.

(** The pair is an entry of a PLO document whose expiration date lies in
    the closed window from [current_date] to [future_date]. *)
Definition expires_within (current_date future_date : string)
           (cp : Value * Value) : bool :=
  match text_of (fst cp) "permitType", text_of (snd cp) "expirationDate" with
  | Some type, Some e =>
      String.eqb type "PLO"
      && String.leb current_date e && String.leb e future_date
  | _, _ => false
  end.

(** The document of the pair belongs to the organization asked for, when
    one is asked for. *)
Definition of_organization (organization : option string)
           (cp : Value * Value) : bool :=
  match organization with
  | Some o =>
      if String.eqb o "" then true
      else match text_of (fst cp) "organization" with
           | Some o' => String.eqb o' o
           | None => false
           end
  | None => true
  end.

(** Calls that leave the optional arguments of the signatures out. *)
Definition query_documents_expiring_soon_by_default (env : Env)
           (container : option Container) : M (list Value) :=
  query_documents_expiring_soon env container 30 None "earliest".

Definition query_expired_documents_by_default (env : Env)
           (container : option Container) : M (list Value) :=
  query_expired_documents env container None "latest".

Definition query_documents_by_issue_year_by_default (env : Env)
           (container : option Container) : M (list Value) :=
  query_documents_by_issue_year env container None None None None "latest".

Definition query_documents_by_expiration_year_by_default (env : Env)
           (container : option Container) : M (list Value) :=
  query_documents_by_expiration_year env container None None None None "latest".

(** [sum(d.values())] over integer counts. *)
Definition sum_counts (d : PyDict) : Z :=
  fold_right (fun kv acc => match snd kv with VNum n => n + acc | _ => acc end)
             0 d.

(** The document states property [f] as a string. *)
Definition has_text (f : string) (c : Value) : Prop :=
  exists s, text_of c f = Some s.

(** The status derived from the days remaining until expiry. *)
Definition derived_status (days_remaining : Z) : string :=
  if days_remaining <? 0 then "Expired"
  else if days_remaining <=? 30 then "Expiring Soon"
  else "Active".

(** The phrase that tells the days elapsed or remaining. *)
Definition days_phrase (days_remaining : Z) : string :=
  if days_remaining <? 0
  then ("Expired " ++ str_int (Z.abs days_remaining) ++ " days ago")%string
  else ("Expires in " ++ str_int days_remaining ++ " days")%string.

(** An operation that, holding container [k] and started in [t], returns
    [a] after sending [qs], where [a] is [dflt] as soon as one of the
    queries sent raised. *)
Definition settles {A} (k : Container) (m : M A) (t : Trace)
           (dflt : Exn -> A) : Prop :=
  exists a n qs,
    m t = (Returns a, mkTrace n (issued t ++ qs))
    /\ (forall q e, In q qs -> k q = Raises e -> a = dflt e).

(** The documents counted by a list of groups. *)
Definition group_total (groups : list (option Value * Z)) : Z :=
  fold_right (fun g acc => snd g + acc) 0 groups.

(** ** Vocabulary of the further properties *)

(** A clock reading that is a date of the calendar with a time of day. *)
Definition valid_datetime (d : DateTime) : Prop :=
  check_date_fields (dt_year d) (dt_month d) (dt_day d) = true
  /\ 0 <= dt_micros d < day_us.

(** The year, month and day of [d] name a day of the calendar. *)
Definition is_date (d : DateTime) : bool :=
  check_date_fields (dt_year d) (dt_month d) (dt_day d).

Definition month_day_tail (m d : Z) : list ascii :=
  list_ascii_of_string ("-" ++ pad2 m ++ "-" ++ pad2 d)%string.

(** What the pattern matches after the year group, with the year read
    before it. *)
Definition after_year (y : Z) (r0 : list ascii) : list (Z * Z * Z * list ascii) :=
  flat_map (fun r1 =>
    flat_map (fun '(m, r2) =>
      flat_map (fun r3 =>
        map (fun '(d, r4) => (y, m, d, r4)) (day_alts r3))
        (dash r2))
      (month_alts r1))
    (dash r0).

Definition tail_parses (m d : Z) : bool :=
  match after_year 0 (month_day_tail m d) with
  | (_, m', d', []) :: _ => (m' =? m) && (d' =? d)
  | _ => false
  end.

(** The date [(y1, m1, d1)] comes before [(y2, m2, d2)]. *)
Definition date_lt (y1 m1 d1 y2 m2 d2 : Z) : Prop :=
  y1 < y2 \/ (y1 = y2 /\ (m1 < m2 \/ (m1 = m2 /\ d1 < d2))).

Definition then_compare (c : comparison) (rest : comparison) : comparison :=
  match c with Eq => rest | _ => c end.

(** The month and day of the [n]-th day (from 0) of a year, as the tail of
    [ord2ymd] finds them. *)
Definition month_day (year n : Z) (leapyear : bool) : Z * Z * Z :=
  let month := Z.shiftr (n + 50) 5 in
  let preceding :=
    DAYS_BEFORE_MONTH month + (if (2 <? month) && leapyear then 1 else 0) in
  if n <? preceding then
    let month := month - 1 in
    let preceding :=
      preceding
      - (DAYS_IN_MONTH month + (if (month =? 2) && leapyear then 1 else 0)) in
    (year, month, n - preceding + 1)
  else (year, month, n - preceding + 1).

Definition month_day_ok (n : Z) (leapyear : bool) : bool :=
  let '(_, m, d) := month_day 0 n leapyear in
  (1 <=? m) && (m <=? 12) && (1 <=? d)
  && (d <=? (if (m =? 2) && leapyear then 29 else DAYS_IN_MONTH m))
  && (DAYS_BEFORE_MONTH m + (if (2 <? m) && leapyear then 1 else 0) + d =? n + 1).

(** The pair is an entry of a PLO document whose expiration date is
    before [current_date]. *)
Definition expired_before (current_date : string) (cp : Value * Value) : bool :=
  match text_of (fst cp) "permitType", text_of (snd cp) "expirationDate" with
  | Some type, Some e => String.eqb type "PLO" && String.ltb e current_date
  | _, _ => false
  end.

(** ** Further sample data *)

Module Fixture.

(** A clock that shows the morning of 20 November 2025 at its first
    reading and one day more at each further reading. *)
Definition morning (day : Z) : DateTime := mkDateTime 2025 11 day 100.

Definition passing_days : Env :=
  mkEnv (fun n => morning (20 + Z.of_nat n))
        (fun _ => None)
        (fun _ _ _ _ => Raises Sample.outage).

(** A store with one PLO document whose entries give their expiration
    date with a time of day, without one, and not at all. *)
Definition stamped : list Value :=
  [Sample.document "Pipeline C" "PLO" "KPI"
     [Sample.entry "PLO-2025-010" "2025-01-10" (Some "2025-11-25T00:00:00")
                   "IT Balongan";
      Sample.entry "PLO-2025-011" "2025-01-11" (Some "2025-11-20") "IT Balongan";
      Sample.entry "PLO-2025-012" "2025-01-12" None "IT Balongan"]].

Definition stamped_store : Container := Store.serve Store.healthy stamped.

(** Two permits of one document that expired on the same day. *)
Definition same_day : list Value :=
  [Sample.document "Pipeline D" "PLO" "SHU"
     [Sample.entry "PLO-2020-001" "2020-07-01" (Some "2024-06-30") "IT Cilacap";
      Sample.entry "PLO-2020-002" "2020-07-01" (Some "2024-06-30") "IT Cilacap"]].

Definition same_day_store : Container := Store.serve Store.healthy same_day.

End Fixture.

(** The organizations the documents state as text, in store order. *)
Definition organizations_of (db : list Value) : list string :=
  flat_map (fun c => match text_of c "organization" with
                     | Some o => [o]
                     | None => []
                     end) db.

(** The first occurrences in [l] of the names not in [seen]. *)
Fixpoint first_occurrences (seen l : list string) : list string :=
  match l with
  | [] => []
  | s :: l' =>
      if existsb (String.eqb s) seen then first_occurrences seen l'
      else s :: first_occurrences (s :: seen) l'
  end.

(** The organization of the document, where it states one, is a text. *)
Definition organization_is_text (c : Value) : Prop :=
  forall v, Store.field c "organization" = Some v -> Py.is_str v = true.

Definition strictly_ascending (names : list string) : Prop :=
  Sorted (fun a b => String.ltb a b = true) names.

(** The four queries of the statistics, in the order they are sent. *)
Definition statistics_queries (current_date : string) : list Query :=
  [total_query; expired_query current_date; type_query; org_query].

(** What a slot of a template shows of a record: a property that is
    missing shows the default. *)
Definition render (row : Row) (slot : Slot) : Piece :=
  match slot with
  | Fixed s => Text s
  | Lookup key default =>
      Str (match Py.dict_get row key with
           | Some v => v
           | None => VStr default
           end)
  end.

(** The entry of a numbered record. *)
Definition entry_block (slots : list Slot) (numbered_row : Z * Row) : Block :=
  Text (str_int (fst numbered_row)) :: map (render (snd numbered_row)) slots.

(** The text of a listing: the sentence for no results, or the header
    followed by one entry per record, numbered from 1 in the order of the
    records. *)
Definition listing (no_results : Block) (header : Z -> Block)
           (slots : list Slot) (rows : list Row) : ToolText :=
  match rows with
  | [] => Line no_results
  | _ :: _ =>
      Joined nl (header (len rows) :: map (entry_block slots) (enumerate 1 rows))
  end.

Definition issued_header (n : Z) : Block :=
  [Text "List of documents issued: "; Text (str_int n); Text (" items found" ++ nl)].

Definition expiring_header (n : Z) : Block :=
  [Text "List of documents expiring: "; Text (str_int n);
   Text (" items found" ++ nl)].

Definition expired_header (current_date : string) (n : Z) : Block :=
  [Text "Documents that have already expired as of "; Text current_date;
   Text (":" ++ nl ++ "Total: "); Text (str_int n); Text (" expired permits" ++ nl)].

Definition installation_header (installation : string) (n : Z) : Block :=
  [Text "Permits for installation '"; Text installation;
   Text ("':" ++ nl ++ "Total: "); Text (str_int n); Text (" permits found" ++ nl)].

Definition expiring_soon_header (days : Z) (current_date : string) (n : Z) : Block :=
  [Text "Documents expiring within the next "; Text (str_int days);
   Text " days (as of "; Text current_date; Text ("):" ++ nl ++ "Total: ");
   Text (str_int n); Text (" permits" ++ nl)].

(** The sentences for no results. *)
Definition none_issued (year : option Z) : Block :=
  [Text "No documents found issued in year "; Text (str_optional_int year);
   Text " with the specified filters."].

Definition none_expiring (year : option Z) : Block :=
  [Text "No documents found expiring in year "; Text (str_optional_int year);
   Text " with the specified filters."].

Definition none_expired (current_date : string) : Block :=
  [Text "No expired documents found as of "; Text current_date; Text "."].

Definition none_expiring_soon (days : Z) : Block :=
  [Text "No documents expiring within the next "; Text (str_int days);
   Text " days."].

Definition none_installed (installation : string) : Block :=
  [Text "No permits found for installation '"; Text installation; Text "'."].

(** A container none of whose queries succeeds. *)
Definition unavailable (k : Container) : Prop :=
  forall q, exists e, k q = Raises e.

(** What the expiring-soon tool reads as the expiry of a record. *)
Definition expiry_of (row : Row) : Value :=
  match Py.dict_get row "expirationDate" with
  | Some v => v
  | None => VStr "N/A"
  end.

(** The record has an expiry other than ['N/A']. *)
Definition dated (row : Row) : bool := differs_from (expiry_of row) "N/A".

(** The expiry of the record, where it has one, is a date the format
    accepts. *)
Definition readable (row : Row) : Prop :=
  dated row = true -> exists d, strptime (expiry_of row) = Returns d.

Definition unreadable (row : Row) : Prop :=
  dated row = true /\ exists e, strptime (expiry_of row) = Raises e.

Definition expiring_soon_failure (message : string) : ToolText :=
  Line [Text "Error retrieving documents expiring soon: "; Text message].

(** The settings each container is configured with. *)
Definition permit_settings : list string :=
  ["COSMOS_DB_URI"; "COSMOS_DB_KEY"; "COSMOS_DB_DATABASE"; "COSMOS_DB_CONTAINER"].

Definition conversation_settings : list string :=
  ["AZURE_COSMOSDB_ACCOUNT"; "AZURE_COSMOSDB_ACCOUNT_KEY";
   "AZURE_COSMOSDB_DATABASE"; "AZURE_COSMOSDB_CONVERSATIONS_CONTAINER"].

(** Every setting of the list is present and not empty. *)
Definition configured (env : Env) (names : list string) : bool :=
  forallb (fun name => Py.truthy_str (getenv env name)) names.

Definition setting (env : Env) (name : string) : string :=
  match getenv env name with
  | Some s => s
  | None => ""
  end.

(** The environment reaches its containers through the client class over
    the SDK. *)
Definition on_sdk (sdk : Client.Sdk) (env : Env) : Prop :=
  forall uri key database container,
    connect env uri key database container
    = Client.connect_with sdk uri key database container.

(** Queries made one after the other on the same client object. *)
Fixpoint query_all (self : Client.CosmosDBClient) (qs : list Query)
  : list (Outcome (list Value)) * Client.CosmosDBClient :=
  match qs with
  | [] => ([], self)
  | q :: qs' =>
      let '(r, self) := Client.query_items self q in
      let '(rs, self) := query_all self qs' in
      (r :: rs, self)
  end.

(** The block of one document in the reply of the content lookup. *)
Definition document_block (row : Row) : Block :=
  [Text "["; render row (Lookup "title" "Untitled"); Text ("]:" ++ nl);
   render row (Lookup "content" "")].

(** What the content lookup posts for a keyword. *)
Definition content_request (keyword : string) : Value :=
  VDict [("search", VStr keyword); ("queryType", VStr "semantic");
         ("semanticConfiguration", VStr "default"); ("top", VNum 10);
         ("select", VStr "title,content")].

(** An SDK whose containers are the sample store whatever the names, and
    an environment configured for the permit container only. *)
Definition sample_sdk : Client.Sdk := fun _ _ _ _ => Sample.store.

Definition permit_only : Env :=
  mkEnv (fun _ => mkDateTime 2025 11 20 100)
        (fun name => if existsb (String.eqb name) permit_settings
                     then Some ("value of " ++ name)%string else None)
        (Client.connect_with sample_sdk).

(** An HTTP client that answers every request with two documents, the
    second without a title. *)
Definition two_documents : AzureSearch.Http :=
  fun _ _ _ =>
    Returns (VDict [("value",
                     VList [VDict [("title", VStr "PLO.pdf");
                                   ("content", VStr "pipeline")];
                            VDict [("content", VStr "depth")]])]).

Definition refused : AzureSearch.Http :=
  fun _ _ _ => Raises (mkExn StoreError "403 Forbidden").

Definition search_client : AzureSearch.AzureAISearch :=
  AzureSearch.mkAzureAISearch "https://search.example" "secret" "permits".

(** * Properties *)

Arguments strftime_ymd : simpl never.
Arguments add_days : simpl never.
Arguments sub_days : simpl never.
Arguments strptime_ymd : simpl never.
Arguments Py.sort : simpl never.
Arguments Store.test : simpl never.
Arguments Store.year_of_text : simpl never.

(** ** Date difference *)

Lemma strptime_ymd_raises_value_error s e :
  strptime_ymd s = Raises e -> exn_kind e = ValueError.
Proof.
  unfold strptime_ymd.
  destruct (regex_matches _) as [|[[[y m] d] rest] ?].
  - intros [= <-]. reflexivity.
  - destruct rest.
    + destruct (check_date_fields y m d); [discriminate|].
      intros [= <-]. reflexivity.
    + intros [= <-]. reflexivity.
Qed.

Lemma malformed_raises s :
  malformed s -> exists e, strptime_ymd s = Raises e /\ exn_kind e = ValueError.
Proof.
  intros H. destruct (strptime_ymd s) as [d|e] eqn:E.
  - exfalso. exact (H d E).
  - exists e. split; [reflexivity|].
    exact (strptime_ymd_raises_value_error _ _ E).
Qed.



(** ** Sorting *)

Lemma string_ltb_asym x y : String.ltb x y = true -> String.ltb y x = false.
Proof.
  unfold String.ltb. rewrite (String.compare_antisym x y).
  destruct (String.compare y x); cbn; congruence.
Qed.

Lemma string_not_ltb_leb x y : String.ltb y x = false -> String.leb x y = true.
Proof.
  unfold String.ltb, String.leb. rewrite (String.compare_antisym x y).
  destruct (String.compare y x); cbn; congruence.
Qed.

Lemma ltb_asym a b : Py.ltb a b = true -> Py.ltb b a = false.
Proof.
  destruct a, b; cbn; try congruence.
  - apply string_ltb_asym.
  - intros H. apply Z.ltb_lt in H. apply Z.ltb_ge. lia.
Qed.

Lemma not_ltb_leb a b :
  (Py.is_str a = true /\ Py.is_str b = true)
  \/ (Py.is_num a = true /\ Py.is_num b = true) ->
  Py.ltb b a = false -> Py.leb a b = true.
Proof.
  destruct a, b; cbn; intros [[? ?]|[? ?]]; try discriminate.
  - apply string_not_ltb_leb.
  - intros Hlt. apply Z.ltb_ge in Hlt. apply Z.leb_le. lia.
Qed.

Section SortFacts.
Context {A : Type}.
Variable key : A -> Value.

(** [a] may stand before [b]: [b] is not smaller. *)
Let before (a b : A) : Prop := Py.ltb (key b) (key a) = false.
Let after (a b : A) : Prop := Py.ltb (key a) (key b) = false.

Lemma insert_perm x l : Permutation (Py.insert key x l) (x :: l).
Proof.
  induction l as [|y ys IH]; cbn; [reflexivity|].
  destruct (Py.ltb (key y) (key x)); [|reflexivity].
  rewrite IH. apply perm_swap.
Qed.

Lemma stable_sort_perm l : Permutation (Py.stable_sort key l) l.
Proof.
  induction l as [|x xs IH]; cbn; [reflexivity|].
  rewrite insert_perm. now constructor.
Qed.

Lemma sort_keyed_perm reverse l : Permutation (Py.sort_keyed key reverse l) l.
Proof.
  unfold Py.sort_keyed. destruct reverse.
  - rewrite <- Permutation_rev, stable_sort_perm, <- Permutation_rev.
    reflexivity.
  - apply stable_sort_perm.
Qed.

Lemma insert_hd x y l :
  before y x -> HdRel before y l -> HdRel before y (Py.insert key x l).
Proof.
  intros Hyx Hl. destruct l as [|z zs]; cbn; [now constructor|].
  destruct (Py.ltb (key z) (key x)); constructor; trivial.
  now inversion Hl.
Qed.

Lemma insert_sorted x l : Sorted before l -> Sorted before (Py.insert key x l).
Proof.
  induction 1 as [|y ys Hs IH Hhd]; cbn.
  - repeat constructor.
  - destruct (Py.ltb (key y) (key x)) eqn:E.
    + constructor; [exact IH|].
      apply insert_hd; [|exact Hhd]. exact (ltb_asym _ _ E).
    + constructor; [now constructor|]. constructor. exact E.
Qed.

Lemma stable_sort_sorted l : Sorted before (Py.stable_sort key l).
Proof.
  induction l as [|x xs IH]; cbn; [constructor|now apply insert_sorted].
Qed.

Lemma sorted_snoc (R : A -> A -> Prop) l x :
  Sorted R l -> (forall y l', l = l' ++ [y] -> R y x) ->
  Sorted R (l ++ [x]).
Proof.
  induction 1 as [|y ys Hs IH Hhd]; intros Hlast; cbn.
  - repeat constructor.
  - constructor.
    + apply IH. intros z l' ->. apply (Hlast z (y :: l')). reflexivity.
    + destruct ys as [|z zs]; cbn.
      * constructor. apply (Hlast y []). reflexivity.
      * constructor. now inversion Hhd.
Qed.

Lemma sorted_rev l : Sorted before l -> Sorted after (rev l).
Proof.
  induction 1 as [|y ys Hs IH Hhd]; cbn; [constructor|].
  apply sorted_snoc; [exact IH|].
  intros z l' E.
  assert (E' : ys = z :: rev l').
  { rewrite <- (rev_involutive ys), E, rev_app_distr. reflexivity. }
  subst ys. now inversion Hhd.
Qed.

Lemma sort_keyed_sorted (reverse : bool) l :
  Sorted (if reverse then after else before) (Py.sort_keyed key reverse l).
Proof.
  unfold Py.sort_keyed. destruct reverse.
  - apply sorted_rev, stable_sort_sorted.
  - apply stable_sort_sorted.
Qed.
End SortFacts.

Lemma mapM_forall2 {A B} (f : A -> Outcome B) l ks :
  Exc.mapM f l = Returns ks <-> Forall2 (fun x k => f x = Returns k) l ks.
Proof.
  revert ks. induction l as [|x xs IH]; intros ks; cbn.
  - split.
    + intros [= <-]. constructor.
    + intros H. inversion H. reflexivity.
  - split.
    + destruct (f x) as [k|] eqn:Ek; cbn; [|discriminate].
      destruct (Exc.mapM f xs) as [ks'|] eqn:Eks; cbn; [|discriminate].
      intros [= <-]. constructor; [exact Ek|]. now apply IH.
    + intros H. inversion H as [|? k ? ks' Hk Hks]; subst.
      rewrite Hk. cbn. apply IH in Hks. rewrite Hks. reflexivity.
Qed.

Lemma forall2_combine {A B} (P : A -> B -> Prop) l ks :
  Forall2 P l ks ->
  Forall (fun p => P (snd p) (fst p)) (combine ks l) /\ map snd (combine ks l) = l.
Proof.
  induction 1 as [|x k xs ks' Hk _ [IH1 IH2]]; cbn.
  - split; [constructor|reflexivity].
  - split; [now constructor|now rewrite IH2].
Qed.

Lemma forall_pairs_forall2 {A B} (P : A -> B -> Prop) (ps : list (B * A)) :
  Forall (fun p => P (snd p) (fst p)) ps -> Forall2 P (map snd ps) (map fst ps).
Proof.
  induction 1; cbn; now constructor.
Qed.

Lemma sorted_map {A B} (f : A -> B) (R : B -> B -> Prop) l :
  Sorted (fun a b => R (f a) (f b)) l -> Sorted R (map f l).
Proof.
  induction 1 as [|x xs Hs IH Hhd]; cbn; constructor; trivial.
  destruct Hhd; cbn; now constructor.
Qed.

Lemma sorted_weaken {A} (P : A -> Prop) (R R' : A -> A -> Prop) l :
  (forall a b, P a -> P b -> R a b -> R' a b) ->
  Forall P l -> Sorted R l -> Sorted R' l.
Proof.
  intros HR HP. induction 1 as [|x xs Hs IH Hhd]; [constructor|].
  inversion HP as [|? ? Hx Hxs]; subst.
  constructor; [now apply IH|].
  destruct Hhd as [|y ys Hxy]; constructor.
  inversion Hxs; subst. now apply HR.
Qed.

Lemma sorted_short {A} (R : A -> A -> Prop) l :
  (List.length l <= 1)%nat -> Sorted R l.
Proof.
  destruct l as [|x [|y l]]; cbn; intros H; try lia; repeat constructor.
Qed.

(** On keys that passed the comparability check, an order between keys of
    one kind is an order between all of them. *)
Lemma comparable_sorted (S R : Value -> Value -> Prop) keys keys' :
  Py.comparable keys = true -> Permutation keys keys' ->
  (forall a b, same_kind a b -> S a b -> R a b) ->
  Sorted S keys' -> Sorted R keys'.
Proof.
  intros Hc Hp HR Hs. unfold Py.comparable in Hc.
  apply orb_true_iff in Hc as [Hc|Hc]; [apply orb_true_iff in Hc as [Hc|Hc]|].
  - apply sorted_short. rewrite <- (Permutation_length Hp).
    now apply Nat.leb_le.
  - apply (sorted_weaken (fun v => Py.is_str v = true) S); trivial.
    + intros a b Ha Hb. apply HR. left. now split.
    + apply (Permutation_Forall Hp), Forall_forall.
      now apply forallb_forall.
  - apply (sorted_weaken (fun v => Py.is_num v = true) S); trivial.
    + intros a b Ha Hb. apply HR. right. now split.
    + apply (Permutation_Forall Hp), Forall_forall.
      now apply forallb_forall.
Qed.

(** What [items.sort(key=..., reverse=...)] leaves behind when it returns:
    the same items, every one with a key, the keys in order. *)
Lemma sort_spec key reverse items l :
  Py.sort key reverse items = Returns l ->
  Permutation items l
  /\ exists keys, Exc.mapM key l = Returns keys /\ ordered reverse keys.
Proof.
  unfold Py.sort.
  destruct (Exc.mapM key items) as [keys0|] eqn:Ek; cbn; [|discriminate].
  destruct (Py.comparable keys0) eqn:Ec; [|discriminate].
  intros [= <-].
  apply mapM_forall2 in Ek.
  destruct (forall2_combine _ _ _ Ek) as [Hall Hsnd].
  pose proof (sort_keyed_perm fst reverse (combine keys0 items)) as Hp.
  split.
  - rewrite <- Hsnd at 1. apply Permutation_map. symmetry. exact Hp.
  - exists (map fst (Py.sort_keyed fst reverse (combine keys0 items))). split.
    + apply mapM_forall2, forall_pairs_forall2.
      apply (Permutation_Forall (Permutation_sym Hp)). exact Hall.
    + assert (Hk : Permutation keys0
                     (map fst (Py.sort_keyed fst reverse (combine keys0 items)))).
      { transitivity (map fst (combine keys0 items)).
        - clear -Ek. induction Ek; cbn; [reflexivity|now constructor].
        - apply Permutation_map. symmetry. exact Hp. }
      pose proof (sort_keyed_sorted fst reverse (combine keys0 items)) as Hs.
      destruct reverse; unfold ordered.
      * apply (comparable_sorted (fun a b => Py.ltb a b = false) _ _ _ Ec Hk).
        -- intros a b Hab. apply not_ltb_leb.
           destruct Hab as [[? ?]|[? ?]]; [left|right]; now split.
        -- exact (sorted_map fst (fun a b => Py.ltb a b = false) _ Hs).
      * apply (comparable_sorted (fun a b => Py.ltb b a = false) _ _ _ Ec Hk).
        -- intros a b Hab. now apply not_ltb_leb.
        -- exact (sorted_map fst (fun a b => Py.ltb b a = false) _ Hs).
Qed.

(** ** Running the operations *)

Lemma get_permit_container_run env t :
  exists o, get_permit_container env t = (o, t).
Proof.
  unfold get_permit_container, Run.lift.
  destruct (getenv env "COSMOS_DB_URI"), (getenv env "COSMOS_DB_KEY"),
    (getenv env "COSMOS_DB_DATABASE"), (getenv env "COSMOS_DB_CONTAINER");
    try (eexists; reflexivity).
  match goal with |- context [if ?b then _ else _] => destruct b end;
    eexists; reflexivity.
Qed.

Lemma auto_initialize_run env c t :
  exists o, auto_initialize env c t = (o, t)
            /\ (forall k, c = Some k -> o = Returns k).
Proof.
  destruct c as [k|]; cbn.
  - exists (Returns k). split; [reflexivity|]. now intros ? [= ->].
  - destruct (get_permit_container_run env t) as [o Ho].
    exists o. split; [exact Ho|discriminate].
Qed.

(** The shared tail always returns, having sent exactly its query: the
    sorted answer, or the empty list when the store or the sort raised. *)
Lemma fetch_sorted_run k q date order_by t :
  exists items,
    fetch_sorted k q date order_by t
    = (Returns items, mkTrace (clock_reads t) (issued t ++ [q]))
    /\ ((items = [] /\ (forall rs, k q = Returns rs ->
                         forall l, Py.sort (fun x => Py.get x date (VStr ""))
                                           (String.eqb order_by "latest") rs
                                   <> Returns l))
        \/ exists rs, k q = Returns rs
                      /\ Py.sort (fun x => Py.get x date (VStr ""))
                                 (String.eqb order_by "latest") rs = Returns items).
Proof.
  unfold fetch_sorted, Run.try_except, Run.bind, Run.query_items, Run.lift, Run.ret.
  destruct (k q) as [rs|e] eqn:Ek.
  - destruct (String.eqb order_by "latest");
      match goal with |- context [Py.sort ?f ?b rs] =>
        destruct (Py.sort f b rs) as [l|e] eqn:Es end;
      eexists; (split; [reflexivity|]);
      solve [ right; exists rs; split; [reflexivity|exact Es]
            | left; split; [reflexivity|]; intros ? [= <-] l'; congruence ].
  - eexists. split; [reflexivity|]. left. split; [reflexivity|]. discriminate.
Qed.

Lemma fetch_sorted_ordered k q date order_by t items :
  fst (fetch_sorted k q date order_by t) = Returns items ->
  date_ordered date order_by items.
Proof.
  destruct (fetch_sorted_run k q date order_by t) as (items' & -> & H).
  cbn. intros [= ->].
  destruct H as [[-> _]|(rs & _ & Hs)].
  - exists []. repeat split; constructor.
  - apply sort_spec in Hs as (_ & keys & Hk & Ho).
    exists keys. split; [exact Hk|]. split; intros ->; exact Ho.
Qed.

(** Unfold an operation up to the point where the container is at hand. *)
Ltac with_container env c t k :=
  let o := fresh "o" in
  let Hrun := fresh "Hrun" in
  let Hgiven := fresh "Hgiven" in
  unfold Run.bind at 1;
  destruct (auto_initialize_run env c t) as (o & Hrun & Hgiven);
  rewrite Hrun; clear Hrun;
  destruct o as [k|?]; [|try (cbn; discriminate)].

(** ** Sort order of the date queries *)

Lemma date_queries_sorted_aux env container organization order_by t items :
  (forall permit_type year operator,
      fst (query_documents_by_issue_year env container permit_type year
             organization operator order_by t) = Returns items ->
      date_ordered "issueDate" order_by items)
  /\ (forall permit_type year operator,
         fst (query_documents_by_expiration_year env container permit_type year
                organization operator order_by t) = Returns items ->
         date_ordered "expirationDate" order_by items)
  /\ (fst (query_expired_documents env container organization order_by t)
      = Returns items ->
      date_ordered "expirationDate" order_by items)
  /\ (forall days,
         fst (query_documents_expiring_soon env container days organization
                order_by t) = Returns items ->
         date_ordered "expirationDate" order_by items).
Proof.
  repeat split.
  - intros permit_type year operator.
    unfold query_documents_by_issue_year. with_container env container t k.
    destruct (year_conditions _ _ _ _ _) as [conds params].
    apply fetch_sorted_ordered.
  - intros permit_type year operator.
    unfold query_documents_by_expiration_year. with_container env container t k.
    destruct (year_conditions _ _ _ _ _) as [conds params].
    apply fetch_sorted_ordered.
  - unfold query_expired_documents. with_container env container t k.
    unfold Run.bind, Run.now.
    destruct (with_organization _ _ _) as [conds params].
    apply fetch_sorted_ordered.
  - intros days.
    unfold query_documents_expiring_soon. with_container env container t k.
    unfold Run.bind, Run.now, Run.lift.
    destruct (add_days _ _) as [future|e]; [|cbn; discriminate].
    destruct (with_organization _ _ _) as [conds params].
    apply fetch_sorted_ordered.
Qed.



(** ** Failure semantics *)

Lemma sent_app t n qs : sent t (mkTrace n (issued t ++ qs)) = qs.
Proof.
  unfold sent. cbn. rewrite skipn_app, skipn_all, Nat.sub_diag. reflexivity.
Qed.

Lemma fetch_sorted_caught k q date order_by t :
  exists items,
    fetch_sorted k q date order_by t
    = (Returns items, mkTrace (clock_reads t) (issued t ++ [q]))
    /\ (forall e, k q = Raises e -> items = []).
Proof.
  destruct (fetch_sorted_run k q date order_by t) as (items & E & H).
  exists items. split; [exact E|].
  intros e Hq. destruct H as [[-> _]|(rs & Hrs & _)]; congruence.
Qed.

Lemma settles_one {A} k q (m : M A) t (dflt : Exn -> A) a n :
  m t = (Returns a, mkTrace n (issued t ++ [q])) ->
  (forall e, k q = Raises e -> a = dflt e) ->
  settles k m t dflt.
Proof.
  intros E H. exists a, n, [q]. split; [exact E|].
  intros q' e [<-|[]]. apply H.
Qed.

Lemma settles_none {A} k (m : M A) t (dflt : Exn -> A) a :
  m t = (Returns a, t) -> settles k m t dflt.
Proof.
  intros E. exists a, (clock_reads t), []. rewrite app_nil_r. split.
  - rewrite E. now destruct t.
  - intros ? ? [].
Qed.

Ltac settle_fetch k :=
  match goal with
  | |- context [fetch_sorted k ?q ?d ?o ?t'] =>
      let items := fresh "items" in
      let E := fresh "E" in
      let H := fresh "H" in
      destruct (fetch_sorted_caught k q d o t') as (items & E & H);
      rewrite E; exists items, (clock_reads t'), [q];
      split; [reflexivity|];
      intros ? ? [<-|[]]; apply H
  end.

Lemma issue_year_settles env k permit_type year organization operator order_by t :
  settles k (query_documents_by_issue_year env (Some k) permit_type year
               organization operator order_by) t (fun _ => []).
Proof.
  unfold settles, query_documents_by_issue_year, Run.bind; cbn.
  destruct (year_conditions _ _ _ _ _) as [conds params].
  settle_fetch k.
Qed.

Lemma expiration_year_settles env k permit_type year organization operator
      order_by t :
  settles k (query_documents_by_expiration_year env (Some k) permit_type year
               organization operator order_by) t (fun _ => []).
Proof.
  unfold settles, query_documents_by_expiration_year, Run.bind; cbn.
  destruct (year_conditions _ _ _ _ _) as [conds params].
  settle_fetch k.
Qed.

Lemma expired_settles env k organization order_by t :
  settles k (query_expired_documents env (Some k) organization order_by) t
          (fun _ => []).
Proof.
  unfold settles, query_expired_documents, Run.bind, Run.now; cbn.
  destruct (with_organization _ _ _) as [conds params].
  settle_fetch k.
Qed.

Lemma expiring_soon_settles env k days organization order_by t future :
  add_days (clock env (clock_reads t)) days = Returns future ->
  settles k (query_documents_expiring_soon env (Some k) days organization
               order_by) t (fun _ => []).
Proof.
  intros Hf.
  unfold settles, query_documents_expiring_soon, Run.bind, Run.now, Run.lift; cbn.
  rewrite Hf.
  destruct (with_organization _ _ _) as [conds params].
  settle_fetch k.
Qed.

Lemma by_number_settles env k permit_number t :
  settles k (query_permit_by_number env (Some k) permit_number) t
          (fun _ => None).
Proof.
  unfold query_permit_by_number, Run.bind at 1; cbn.
  destruct (Py.truthy_str permit_number); cbn.
  - unfold Run.try_except, Run.bind, Run.query_items, Run.ret.
    match goal with |- context [k ?q] => destruct (k q) as [[|first rest]|e] eqn:E end;
      eapply settles_one; try reflexivity; intros; congruence.
  - eapply settles_none. reflexivity.
Qed.

Lemma by_installation_settles env k installation permit_type t :
  settles k (query_permits_by_installation env (Some k) installation permit_type)
          t (fun _ => []).
Proof.
  unfold query_permits_by_installation, Run.bind at 1; cbn.
  destruct (Py.truthy_str installation); cbn.
  - destruct (Py.truthy_str permit_type);
      unfold Run.try_except, Run.bind, Run.query_items, Run.ret;
      match goal with |- context [k ?q] => destruct (k q) as [rs|e] eqn:E end;
      eapply settles_one; try reflexivity; intros; congruence.
  - eapply settles_none. reflexivity.
Qed.

Lemma all_organizations_settles env k t :
  settles k (get_all_organizations env (Some k)) t (fun _ => []).
Proof.
  unfold get_all_organizations, Run.bind at 1; cbn.
  unfold Run.try_except, Run.bind, Run.query_items, Run.lift, Run.ret.
  match goal with |- context [k ?q] => destruct (k q) as [rs|e] eqn:E end.
  - destruct (sorted rs); eapply settles_one; try reflexivity; intros; congruence.
  - eapply settles_one; try reflexivity; intros; congruence.
Qed.

Lemma statistics_settles env k t :
  settles k (get_permit_statistics env (Some k)) t
          (fun e => zeroed (exn_msg e)).
Proof.
  unfold settles, get_permit_statistics, Run.bind, Run.now, Run.try_except,
    Run.query_items, Run.lift, Run.ret; cbn.
  repeat match goal with
         | |- context [k ?q] =>
             let E := fresh "E" in destruct (k q) eqn:E; cbn
         | |- context [Dict.of_counts ?f ?l ?a] =>
             destruct (Dict.of_counts f l a); cbn
         | |- context [Py.sub ?a ?b] => destruct (Py.sub a b); cbn
         end;
    repeat rewrite <- app_assoc; cbn;
    do 3 eexists; (split; [reflexivity|]);
    intros q e' Hin Hq; cbn in Hin;
    repeat destruct Hin as [<-|Hin]; try contradiction;
    unfold zeroed; congruence.
Qed.

Lemma missing_container_raises env call t e :
  fst (get_permit_container env t) = Raises e ->
  fst (perform env None call t) = Raises e.
Proof.
  intros H.
  destruct (get_permit_container_run env t) as [o Ho].
  rewrite Ho in H. cbn in H. subst o.
  destruct call; cbn [perform];
    unfold query_documents_by_issue_year, query_documents_by_expiration_year,
      query_expired_documents, query_documents_expiring_soon,
      query_permit_by_number, query_permits_by_installation,
      get_all_organizations, get_permit_statistics, Run.bind, auto_initialize;
    rewrite Ho; reflexivity.
Qed.

(** C2, as the code has it: holding a container, an operation returns, and
    if a query it sent raised, what it returns is its fallback (the empty
    list; [None] for the lookup by number; the zeroed statistics with the
    error text).  The expiring-soon query does so when its date arithmetic
    stays in range.  Without a container, an exception raised while the
    default one is built reaches the caller. *)
Theorem failures_are_absorbed env call t :
  (forall k,
      (forall days organization order_by,
          call = ExpiringSoon days organization order_by ->
          exists future, add_days (clock env (clock_reads t)) days = Returns future) ->
      exists a t',
        perform env (Some k) call t = (Returns a, t')
        /\ (forall q e, In q (sent t t') -> k q = Raises e ->
                        a = fallback call (exn_msg e)))
  /\ (forall e,
         fst (get_permit_container env t) = Raises e ->
         fst (perform env None call t) = Raises e).
Proof.
  split; [|intros e; apply missing_container_raises].
  intros k Hrange.
  destruct call; cbn [perform fallback]; unfold Run.bind.
  - destruct (issue_year_settles env k permit_type year organization operator
                order_by t) as (a & n & qs & -> & H).
    do 2 eexists. split; [reflexivity|]. rewrite sent_app.
    intros q e Hin Hq. now rewrite (H q e Hin Hq).
  - destruct (expiration_year_settles env k permit_type year organization
                operator order_by t) as (a & n & qs & -> & H).
    do 2 eexists. split; [reflexivity|]. rewrite sent_app.
    intros q e Hin Hq. now rewrite (H q e Hin Hq).
  - destruct (expired_settles env k organization order_by t)
      as (a & n & qs & -> & H).
    do 2 eexists. split; [reflexivity|]. rewrite sent_app.
    intros q e Hin Hq. now rewrite (H q e Hin Hq).
  - destruct (Hrange days organization order_by eq_refl) as [future Hf].
    destruct (expiring_soon_settles env k days organization order_by t future Hf)
      as (a & n & qs & -> & H).
    do 2 eexists. split; [reflexivity|]. rewrite sent_app.
    intros q e Hin Hq. now rewrite (H q e Hin Hq).
  - destruct (by_number_settles env k permit_number t) as (a & n & qs & -> & H).
    do 2 eexists. split; [reflexivity|]. rewrite sent_app.
    intros q e Hin Hq. now rewrite (H q e Hin Hq).
  - destruct (by_installation_settles env k installation permit_type t)
      as (a & n & qs & -> & H).
    do 2 eexists. split; [reflexivity|]. rewrite sent_app.
    intros q e Hin Hq. now rewrite (H q e Hin Hq).
  - destruct (all_organizations_settles env k t) as (a & n & qs & -> & H).
    do 2 eexists. split; [reflexivity|]. rewrite sent_app.
    intros q e Hin Hq. now rewrite (H q e Hin Hq).
  - destruct (statistics_settles env k t) as (a & n & qs & -> & H).
    do 2 eexists. split; [reflexivity|]. rewrite sent_app.
    intros q e Hin Hq. now rewrite (H q e Hin Hq).
Qed.

Lemma failures_are_absorbed_witness :
  fst (perform Sample.env (Some Sample.down) PermitStatistics start)
  = Returns (Stats (zeroed "service unavailable"))
  /\ fst (perform Sample.env None PermitStatistics start)
     = Raises (mkExn ValueError "Permit Metadata CosmosDB not configured.").
Proof.
  split.
  - destruct (proj1 (failures_are_absorbed Sample.env PermitStatistics start)
                Sample.down) as (a & t' & E & H).
    + intros ? ? ? [=].
    + rewrite E. cbn. f_equal.
      assert (Hq : In total_query (sent start t')).
      { revert E. vm_compute. intros [= _ <-]. now left. }
      exact (H total_query Sample.outage Hq eq_refl).
  - apply (proj2 (failures_are_absorbed Sample.env PermitStatistics start)).
    vm_compute. reflexivity.
Defined.

(** C2 as stated fails twice: without a container the error of the
    default-container factory reaches the caller, and the lookup by number
    answers a store failure with [None], not with an empty list. *)
Lemma failures_not_always_absorbed :
  fst (perform Sample.env None (Expired None "latest") start)
  = Raises (mkExn ValueError "Permit Metadata CosmosDB not configured.")
  /\ fst (perform Sample.env (Some Sample.down)
            (ByNumber (Some "PLO-2024-001")) start)
     = Returns (Found None).
Proof.
  split; vm_compute; reflexivity.
Qed.

(** ** Lookup by permit number *)

Lemma auto_initialize_returns env c t k :
  fst (auto_initialize env c t) = Returns k ->
  auto_initialize env c t = (Returns k, t).
Proof.
  destruct (auto_initialize_run env c t) as (o & -> & _). cbn. now intros ->.
Qed.

Lemma string_compare_refl s : String.compare s s = Eq.
Proof.
  induction s as [|a s IH]; cbn; [reflexivity|].
  unfold Ascii.compare. now rewrite N.compare_refl.
Qed.

Lemma string_compare_eqb s1 s2 :
  Store.test OpEq (String.compare s1 s2) = String.eqb s1 s2.
Proof.
  destruct (String.eqb s1 s2) eqn:E.
  - apply String.eqb_eq in E. subst. now rewrite string_compare_refl.
  - apply String.eqb_neq in E.
    destruct (String.compare s1 s2) eqn:C; cbn; trivial.
    now apply String.compare_eq_iff in C.
Qed.

Lemma by_number_matching permit_number params cp :
  Py.dict_get params "@permitNumber" = Some (VStr permit_number) ->
  Store.matching
    (mkQuery (Select detail_columns)
             [Cmp (Field (p_ "permitNumber")) OpEq (Param "@permitNumber")] params)
    cp
  = has_number permit_number cp.
Proof.
  intros Hp. unfold Store.matching, has_number, text_of. cbn.
  rewrite Hp.
  destruct (Store.field (snd cp) "permitNumber") as [[| s | | |]|]; cbn; trivial.
  rewrite string_compare_eqb. apply andb_true_r.
Qed.

Lemma by_number_answer db permit_number :
  Store.answer db
    (mkQuery (Select detail_columns)
             [Cmp (Field (p_ "permitNumber")) OpEq (Param "@permitNumber")]
             [("@permitNumber", VStr permit_number)])
  = map (Store.project detail_columns) (with_number permit_number db).
Proof.
  unfold Store.answer, with_number. cbn [shape]. f_equal.
  apply filter_ext. intros cp. now apply by_number_matching.
Qed.

(** C7: holding a container, the lookup answers an empty or missing permit
    number with [None] and sends nothing; a number no entry carries with
    [None], whether the store answers or fails; and a number some entry
    carries with the first such entry's record. *)
Theorem query_permit_by_number_spec env container k t :
  fst (auto_initialize env container t) = Returns k ->
  (forall permit_number,
      Py.truthy_str permit_number = false ->
      query_permit_by_number env container permit_number t = (Returns None, t))
  /\ (forall db faults permit_number,
         k = Store.serve faults db -> permit_number <> "" ->
         with_number permit_number db = [] ->
         fst (query_permit_by_number env container (Some permit_number) t)
         = Returns None)
  /\ (forall db permit_number first rest,
         k = Store.serve Store.healthy db -> permit_number <> "" ->
         with_number permit_number db = first :: rest ->
         fst (query_permit_by_number env container (Some permit_number) t)
         = Returns (Some (Store.project detail_columns first))).
Proof.
  intros Hk. apply auto_initialize_returns in Hk.
  repeat split.
  - intros permit_number Hempty.
    unfold query_permit_by_number, Run.bind. rewrite Hk, Hempty. reflexivity.
  - intros db faults permit_number -> Hne Hnone.
    unfold query_permit_by_number, Run.bind. rewrite Hk. cbn [Py.truthy_str].
    apply String.eqb_neq in Hne. rewrite Hne. cbn [negb].
    unfold Run.try_except, Run.bind, Run.query_items, Store.serve.
    destruct (faults _); [reflexivity|].
    rewrite by_number_answer, Hnone. reflexivity.
  - intros db permit_number first rest -> Hne Hsome.
    unfold query_permit_by_number, Run.bind. rewrite Hk. cbn [Py.truthy_str].
    apply String.eqb_neq in Hne. rewrite Hne. cbn [negb].
    unfold Run.try_except, Run.bind, Run.query_items, Store.serve, Store.healthy.
    rewrite by_number_answer, Hsome. reflexivity.
Qed.

Lemma query_permit_by_number_spec_witness :
  query_permit_by_number Sample.env (Some Sample.store) (Some "") start
  = (Returns None, start)
  /\ fst (query_permit_by_number Sample.env (Some Sample.store)
            (Some "PLO-1999-000") start) = Returns None
  /\ exists record,
      fst (query_permit_by_number Sample.env (Some Sample.store)
             (Some "PLO-2023-007") start) = Returns (Some record)
      /\ Py.get record "permitNumber" VNull = Returns (VStr "PLO-2023-007").
Proof.
  destruct (query_permit_by_number_spec Sample.env (Some Sample.store)
              Sample.store start eq_refl) as (H1 & H2 & H3).
  split; [apply H1; reflexivity|]. split.
  - apply (H2 Sample.db Store.healthy); [reflexivity|discriminate|reflexivity].
  - eexists. split.
    + eapply (H3 Sample.db); [reflexivity|discriminate|vm_compute; reflexivity].
    + vm_compute. reflexivity.
Defined.

(** ** Lookup by installation *)

Lemma prefix_spec needle hay :
  String.prefix needle hay = true <-> exists post, hay = (needle ++ post)%string.
Proof.
  revert hay. induction needle as [|a needle IH]; intros hay.
  - destruct hay; cbn; (split; [intros _; eexists; reflexivity|reflexivity]).
  - destruct hay as [|b hay]; cbn.
    + split; [discriminate|intros [post [=]]].
    + destruct (ascii_dec a b) as [->|Hne].
      * rewrite IH. split; intros [post H]; exists post; congruence.
      * split; [discriminate|intros [post [= E _]]; now elim Hne].
Qed.

Lemma contains_spec hay needle :
  Store.contains hay needle = true <-> substring_of needle hay.
Proof.
  induction hay as [|b hay IH]; cbn [Store.contains].
  - rewrite orb_false_r, prefix_spec. split.
    + intros [post H]. now exists EmptyString, post.
    + intros (pre & post & H). destruct pre; [now exists post|discriminate].
  - rewrite orb_true_iff, prefix_spec, IH. split.
    + intros [[post H]|(pre & post & H)].
      * now exists EmptyString, post.
      * exists (String b pre), post. cbn. now rewrite H.
    + intros (pre & post & H). destruct pre as [|c pre]; cbn in H.
      * left. now exists post.
      * right. injection H as _ H. now exists pre, post.
Qed.

Section ByInstallation.
Variable installation : string.
Variable permit_type : option string.

Let q : Query := installation_query installation permit_type.

Lemma by_installation_matching cp :
  Store.matching q cp = true
  <-> installation_matches installation cp /\ of_type permit_type cp.
Proof.
  unfold q, installation_query, Store.matching, installation_matches,
    of_type, text_of.
  destruct permit_type as [type|]; cbn [Py.truthy_str].
  - destruct (String.eqb type "") eqn:Et; cbn.
    + apply String.eqb_eq in Et.
      destruct (Store.field (snd cp) "installation") as [[| s | | |]|]; cbn;
        try (split; [discriminate|intros [(s' & [=] & _) _]]).
      rewrite andb_true_r, contains_spec. split.
      * intros H. split; [now exists s|congruence].
      * now intros [(s' & [= <-] & H) _].
    + apply String.eqb_neq in Et.
      destruct (Store.field (snd cp) "installation") as [[| s | | |]|]; cbn;
        try (split; [discriminate|intros [(s' & [=] & _) _]]).
      destruct (Store.field (fst cp) "permitType") as [[| ty | | |]|]; cbn;
        rewrite ?andb_false_r, ?andb_true_r;
        try (split; [discriminate|intros [_ H]; specialize (H Et); discriminate]).
      rewrite string_compare_eqb, andb_true_iff, contains_spec, String.eqb_eq.
      split.
      * intros [H ->]. split; [now exists s|reflexivity].
      * intros [(s' & [= <-] & H) Hty]. split; [exact H|].
        specialize (Hty Et). congruence.
  - cbn.
    destruct (Store.field (snd cp) "installation") as [[| s | | |]|]; cbn;
      try (split; [discriminate|intros [(s' & [=] & _) _]]).
    rewrite andb_true_r, contains_spec. split.
    + intros H. split; [now exists s|exact I].
    + now intros [(s' & [= <-] & H) _].
Qed.

Lemma by_installation_run env container k t :
  auto_initialize env container t = (Returns k, t) ->
  installation <> "" ->
  query_permits_by_installation env container (Some installation) permit_type t
  = (match k q with Returns rs => Returns rs | Raises _ => Returns [] end,
     mkTrace (clock_reads t) (issued t ++ [q])).
Proof.
  intros Hk Hne. apply String.eqb_neq in Hne.
  unfold query_permits_by_installation, Run.bind at 1. rewrite Hk.
  cbn [Py.truthy_str]. rewrite Hne. cbn [negb]. unfold q, installation_query.
  destruct (Py.truthy_str permit_type);
    unfold Run.try_except, Run.bind, Run.query_items, Run.ret;
    match goal with |- context [k ?q'] => destruct (k q') end; reflexivity.
Qed.
End ByInstallation.

(** C9: holding a container, the lookup answers an empty or missing
    installation with the empty list and sends nothing; otherwise a store
    that answers yields the records of exactly the entries whose
    installation contains the search text, letter case aside (and whose
    document has the permit type, when one is asked for).  Searching
    ["semarang"] finds an entry installed at ["IT Semarang Refinery"]. *)
Theorem query_permits_by_installation_spec env container k t :
  fst (auto_initialize env container t) = Returns k ->
  (forall installation permit_type,
      Py.truthy_str installation = false ->
      query_permits_by_installation env container installation permit_type t
      = (Returns [], t))
  /\ (forall db installation permit_type,
         k = Store.serve Store.healthy db -> installation <> "" ->
         exists hit,
           fst (query_permits_by_installation env container (Some installation)
                  permit_type t)
           = Returns (map (Store.project detail_columns)
                          (filter hit (Store.joined db)))
           /\ (forall cp, hit cp = true <->
                          installation_matches installation cp
                          /\ of_type permit_type cp))
  /\ (forall db cp,
         k = Store.serve Store.healthy db ->
         In cp (Store.joined db) ->
         text_of (snd cp) "installation" = Some "IT Semarang Refinery" ->
         exists rs,
           fst (query_permits_by_installation env container (Some "semarang")
                  None t) = Returns rs
           /\ In (Store.project detail_columns cp) rs).
Proof.
  intros Hk. apply auto_initialize_returns in Hk.
  assert (Hgeneral : forall db installation permit_type,
             k = Store.serve Store.healthy db -> installation <> "" ->
             exists hit,
               fst (query_permits_by_installation env container (Some installation)
                      permit_type t)
               = Returns (map (Store.project detail_columns)
                              (filter hit (Store.joined db)))
               /\ (forall cp, hit cp = true <->
                              installation_matches installation cp
                              /\ of_type permit_type cp)).
  { intros db installation permit_type -> Hne.
    rewrite (by_installation_run installation permit_type env container _ t Hk Hne).
    exists (Store.matching (installation_query installation permit_type)). split.
    - cbn [fst]. unfold Store.serve, Store.healthy, Store.answer, installation_query.
      destruct (Py.truthy_str permit_type); reflexivity.
    - intros cp. apply by_installation_matching. }
  repeat split.
  - intros installation permit_type Hempty.
    unfold query_permits_by_installation, Run.bind. rewrite Hk, Hempty.
    reflexivity.
  - exact Hgeneral.
  - intros db cp Hdb Hin Hinst.
    destruct (Hgeneral db "semarang" None Hdb) as (hit & E & Hhit);
      [discriminate|].
    eexists. split; [exact E|].
    apply in_map, filter_In. split; [exact Hin|].
    apply Hhit. split; [|exact I].
    exists "IT Semarang Refinery". split; [exact Hinst|].
    now exists "it ", " refinery".
Qed.

Lemma query_permits_by_installation_spec_witness :
  query_permits_by_installation Sample.env (Some Sample.store) None None start
  = (Returns [], start)
  /\ exists rs,
      fst (query_permits_by_installation Sample.env (Some Sample.store)
             (Some "semarang") None start) = Returns rs
      /\ In (Store.project detail_columns
               (Sample.document "Pipeline A" "PLO" "PPN" [],
                Sample.entry "PLO-2024-001" "2024-01-05" (Some "2025-11-25")
                             "IT Semarang Refinery")) rs.
Proof.
  destruct (query_permits_by_installation_spec Sample.env (Some Sample.store)
              Sample.store start eq_refl) as (H1 & _ & H3).
  split; [apply H1; reflexivity|].
  destruct (H3 Sample.db (hd (VNull, VNull) (Store.joined Sample.db)))
    as (rs & E & Hin); [reflexivity|now left|reflexivity|].
  exists rs. split; [exact E|].
  revert Hin. vm_compute. trivial.
Defined.

(** ** What a selected record shows of its entry *)

Lemma project_absent cols cp name :
  ~ In name (map Store.ref_name cols) ->
  Store.field (Store.project cols cp) name = None.
Proof.
  unfold Store.project. cbn [Store.field].
  induction cols as [|r cols IH]; cbn; [reflexivity|].
  intros Hn.
  destruct (Store.deref (fst cp) (Some (snd cp)) r); cbn.
  - destruct (String.eqb (Store.ref_name r) name) eqn:E.
    + apply String.eqb_eq in E. elim Hn. now left.
    + apply IH. intros H. apply Hn. now right.
  - apply IH. intros H. apply Hn. now right.
Qed.

(** A column selected once shows the property it refers to, and is
    missing exactly when the property is undefined. *)
Lemma project_field cols cp r :
  NoDup (map Store.ref_name cols) -> In r cols ->
  Store.field (Store.project cols cp) (Store.ref_name r)
  = Store.deref (fst cp) (Some (snd cp)) r.
Proof.
  induction cols as [|r0 cols IH]; cbn [map]; intros Hnd Hin; [contradiction|].
  inversion Hnd as [|? ? Hfresh Hnd']; subst.
  pose proof (project_absent cols cp (Store.ref_name r0) Hfresh) as Habs.
  specialize (IH Hnd').
  unfold Store.project in *. cbn [Store.field flat_map] in *.
  destruct Hin as [->|Hin].
  - destruct (Store.deref (fst cp) (Some (snd cp)) r); cbn.
    + now rewrite String.eqb_refl.
    + exact Habs.
  - assert (Hne : String.eqb (Store.ref_name r0) (Store.ref_name r) = false).
    { apply String.eqb_neq. intros E. apply Hfresh. rewrite E.
      now apply in_map. }
    destruct (Store.deref (fst cp) (Some (snd cp)) r0); cbn.
    + rewrite Hne. now apply IH.
    + now apply IH.
Qed.

(** Rewrite the property a selected record shows into the property of
    the pair it was selected from. *)
Ltac show_column cols cp r Hdistinct :=
  let H := fresh "Hcol" in
  pose proof (project_field cols cp r Hdistinct ltac:(cbn; tauto)) as H;
  cbn [Store.ref_name Store.deref] in H; rewrite H; clear H.

Ltac distinct_names :=
  repeat (constructor; [cbn; intuition discriminate|]); constructor.

Lemma issue_year_columns_distinct : NoDup (map Store.ref_name issue_year_columns).
Proof. distinct_names. Qed.

Lemma expiration_year_columns_distinct :
  NoDup (map Store.ref_name expiration_year_columns).
Proof. distinct_names. Qed.

Lemma expiry_columns_distinct : NoDup (map Store.ref_name expiry_columns).
Proof. distinct_names. Qed.

Lemma test_lt x y : Store.test OpLt (String.compare x y) = String.ltb x y.
Proof. unfold Store.test, String.ltb. now destruct (String.compare x y). Qed.

Lemma test_le x y : Store.test OpLe (String.compare x y) = String.leb x y.
Proof. unfold Store.test, String.leb. now destruct (String.compare x y). Qed.

Lemma test_ge x y : Store.test OpGe (String.compare x y) = String.leb y x.
Proof.
  unfold Store.test, String.leb. rewrite (String.compare_antisym x y).
  now destruct (String.compare y x).
Qed.

Lemma ltb_not_leb x y : String.ltb x y = true <-> String.leb y x = false.
Proof.
  unfold String.ltb, String.leb. rewrite (String.compare_antisym x y).
  destruct (String.compare y x); cbn; split; congruence.
Qed.

(** A condition comparing a property of the bound pair with a string
    parameter. *)
Lemma holds_text_param params c p r op name bound :
  Py.dict_get params name = Some (VStr bound) ->
  Store.holds params c (Some p) (Cmp (Field r) op (Param name)) = true ->
  exists s, Store.deref c (Some p) r = Some (VStr s)
            /\ Store.test op (String.compare s bound) = true.
Proof.
  intros Hp. cbn. rewrite Hp.
  destruct (Store.deref c (Some p) r) as [[| s | | |]|]; cbn; try discriminate.
  intros H. now exists s.
Qed.

Lemma holds_text_lit params c p r s0 :
  Store.holds params c (Some p) (Cmp (Field r) OpEq (Lit s0)) = true ->
  Store.deref c (Some p) r = Some (VStr s0).
Proof.
  cbn.
  destruct (Store.deref c (Some p) r) as [[| s | | |]|]; cbn; try discriminate.
  rewrite string_compare_eqb. intros H. apply String.eqb_eq in H. now subst.
Qed.

Lemma digit_char_is_digit n : is_digit (digit_char n) = true.
Proof.
  unfold is_digit, in_range, code, digit_char.
  pose proof (Z.mod_pos_bound n 10 ltac:(lia)) as Hb.
  rewrite nat_ascii_embedding by lia.
  apply andb_true_iff. split; apply Z.leb_le; lia.
Qed.

Lemma strftime_ymd_form d : is_ymd_form (strftime_ymd d) = true.
Proof.
  unfold is_ymd_form, strftime_ymd, pad4, pad2.
  cbn [String.append list_ascii_of_string].
  rewrite !digit_char_is_digit. reflexivity.
Qed.

(** ** Members of a fetched list *)

Lemma fetch_sorted_members faults db q cols date order_by t items :
  shape q = Select cols ->
  fst (fetch_sorted (Store.serve faults db) q date order_by t) = Returns items ->
  forall item, In item items ->
    exists cp, In cp (Store.joined db)
               /\ Store.matching q cp = true
               /\ item = Store.project cols cp.
Proof.
  intros Hshape.
  destruct (fetch_sorted_run (Store.serve faults db) q date order_by t)
    as (items' & -> & H).
  cbn. intros [= ->] item Hin.
  destruct H as [[-> _]|(rs & Hrs & Hs)]; [contradiction|].
  apply sort_spec in Hs as (Hperm & _).
  apply (Permutation_in _ (Permutation_sym Hperm)) in Hin.
  unfold Store.serve in Hrs. destruct (faults q); [discriminate|].
  injection Hrs as <-. unfold Store.answer in Hin. rewrite Hshape in Hin.
  apply in_map_iff in Hin as (cp & <- & Hcp).
  apply filter_In in Hcp as [Hj Hm]. now exists cp.
Qed.

(** ** Expired permits *)

Lemma expired_unfold env container k organization order_by t :
  auto_initialize env container t = (Returns k, t) ->
  query_expired_documents env container organization order_by t
  = fetch_sorted k
      (expired_documents_query (strftime_ymd (clock env (clock_reads t)))
                               organization)
      "expirationDate" order_by (mkTrace (S (clock_reads t)) (issued t)).
Proof.
  intros Hk.
  unfold query_expired_documents, Run.bind at 1. rewrite Hk.
  unfold Run.bind, Run.now, expired_documents_query.
  now destruct (with_organization _ _ _).
Qed.

Lemma expired_matching current_date organization cp :
  Store.matching (expired_documents_query current_date organization) cp = true ->
  text_of (fst cp) "permitType" = Some "PLO"
  /\ exists e, text_of (snd cp) "expirationDate" = Some e
               /\ String.ltb e current_date = true.
Proof.
  unfold Store.matching, expired_documents_query, with_organization, text_of.
  destruct (Py.truthy_str organization); cbn [conditions parameters app forallb
    expired_conditions];
    rewrite !andb_true_iff; intros (H1 & H2 & _);
    apply holds_text_param with (bound := current_date) in H1;
    try reflexivity;
    apply holds_text_lit in H2;
    destruct H1 as (e & He & Hlt); cbn [Store.deref] in *;
    rewrite H2, He; (split; [reflexivity|]); exists e;
    (split; [reflexivity|]); now rewrite <- test_lt.
Qed.

(** C5: holding a container over a store, the expired query returns, reads
    the clock once and takes [currentDate] from that reading in
    [YYYY-MM-DD] form; every record it returns is of permit type PLO and
    has an expiration date strictly before [currentDate]. *)
Theorem query_expired_documents_spec env container faults db organization
        order_by t :
  fst (auto_initialize env container t) = Returns (Store.serve faults db) ->
  let current_date := strftime_ymd (clock env (clock_reads t)) in
  exists items t',
    query_expired_documents env container organization order_by t
    = (Returns items, t')
    /\ clock_reads t' = S (clock_reads t)
    /\ is_ymd_form current_date = true
    /\ forall item, In item items ->
         text_of item "permitType" = Some "PLO"
         /\ exists e, text_of item "expirationDate" = Some e
                      /\ String.ltb e current_date = true
                      /\ String.leb current_date e = false.
Proof.
  intros Hk current_date. apply auto_initialize_returns in Hk.
  rewrite (expired_unfold _ _ _ _ _ _ Hk).
  destruct (fetch_sorted_run (Store.serve faults db)
              (expired_documents_query current_date organization)
              "expirationDate" order_by (mkTrace (S (clock_reads t)) (issued t)))
    as (items & E & _).
  fold current_date. rewrite E. do 2 eexists. split; [reflexivity|].
  split; [reflexivity|]. split; [apply strftime_ymd_form|].
  intros item Hin.
  assert (Hshape : shape (expired_documents_query current_date organization)
                   = Select expiry_columns).
  { unfold expired_documents_query, with_organization.
    now destruct (Py.truthy_str organization). }
  destruct (fetch_sorted_members faults db _ _ "expirationDate" order_by
              (mkTrace (S (clock_reads t)) (issued t)) items Hshape
              ltac:(now rewrite E) item Hin) as (cp & _ & Hm & ->).
  apply expired_matching in Hm as (Htype & e & He & Hlt).
  unfold text_of in *.
  show_column expiry_columns cp (c_ "permitType") expiry_columns_distinct.
  show_column expiry_columns cp (p_ "expirationDate") expiry_columns_distinct.
  split; [exact Htype|]. exists e. split; [exact He|].
  split; [exact Hlt|]. now apply ltb_not_leb.
Qed.

Lemma query_expired_documents_spec_witness :
  exists items t',
    query_expired_documents Sample.env (Some Sample.store) None "latest" start
    = (Returns items, t')
    /\ List.length items = 1%nat
    /\ clock_reads t' = 1%nat
    /\ forall item, In item items ->
         text_of item "permitType" = Some "PLO"
         /\ exists e, text_of item "expirationDate" = Some e
                      /\ String.ltb e "2025-11-20" = true
                      /\ String.leb "2025-11-20" e = false.
Proof.
  destruct (query_expired_documents_spec Sample.env (Some Sample.store)
              Store.healthy Sample.db None "latest" start eq_refl)
    as (items & t' & E & Hc & _ & H).
  exists items, t'. split; [exact E|].
  split; [|split; [exact Hc|exact H]].
  revert E. vm_compute. now intros [= <- _].
Defined.

(** ** Queries by year *)

Lemma holds_year params c p date op year :
  Py.dict_get params "@year" = Some (VNum year) ->
  Store.holds params c (Some p) (Cmp (YEAR (Field (p_ date))) op (Param "@year"))
  = true ->
  exists s y, text_of p date = Some s
              /\ Store.year_of_text s = Some y
              /\ Store.test op (y ?= year) = true.
Proof.
  intros Hp. unfold text_of. cbn. rewrite Hp.
  destruct (Store.field p date) as [[| s | | |]|]; cbn; try discriminate.
  destruct (Store.year_of_text s) as [y|] eqn:Ey; cbn; try discriminate.
  intros H. now exists s, y.
Qed.

Lemma holds_type params c p type :
  Py.dict_get params "@permitType" = Some (VStr type) ->
  Store.holds params c (Some p)
              (Cmp (Field (c_ "permitType")) OpEq (Param "@permitType")) = true ->
  text_of c "permitType" = Some type.
Proof.
  intros Hp H.
  apply holds_text_param with (bound := type) in H; [|exact Hp].
  destruct H as (s & Hs & Ht). cbn in Hs. unfold text_of. rewrite Hs.
  rewrite string_compare_eqb in Ht. apply String.eqb_eq in Ht. now subst.
Qed.

Lemma test_satisfies operator op y year :
  (operator = "equal" /\ op = OpEq) \/ (operator = "greater" /\ op = OpGe)
  \/ (operator = "less" /\ op = OpLe) ->
  Store.test op (y ?= year) = true -> satisfies operator y year.
Proof.
  unfold satisfies, Store.test.
  intros [[-> ->]|[[-> ->]|[-> ->]]]; destruct (Z.compare_spec y year);
    try discriminate; intros _;
    first [ left; split; [reflexivity|lia]
          | right; left; split; [reflexivity|lia]
          | right; right; split; [reflexivity|lia] ].
Qed.

Lemma year_matching cols date permit_type year organization operator cp :
  year <> 0 -> valid_operator operator ->
  Store.matching
    (year_query cols date permit_type (Some year) organization (Some operator))
    cp = true ->
  (exists s y, text_of (snd cp) date = Some s
               /\ Store.year_of_text s = Some y
               /\ satisfies operator y year)
  /\ of_type permit_type cp.
Proof.
  intros Hy Hop.
  assert (Hyear : Py.truthy_int (Some year) = true).
  { cbn. now apply negb_true_iff, Z.eqb_neq. }
  unfold Store.matching, year_query, year_conditions, of_type.
  rewrite Hyear.
  destruct permit_type as [type|]; cbn [Py.truthy_str];
    [destruct (String.eqb type "") eqn:Et|];
    destruct Hop as [<-|[<-|[<-|[]]]];
    destruct (Py.truthy_str organization);
    cbn [negb andb String.eqb Ascii.eqb Bool.eqb app conditions parameters forallb];
    rewrite ?andb_true_iff; intros H; decompose [and] H; clear H;
    (split;
     [ match goal with
       | Hc : Store.holds _ _ _ (Cmp (YEAR _) ?op _) = true |- _ =>
           apply holds_year with (year := year) in Hc; [|reflexivity];
           destruct Hc as (s & y & Hs & Hyr & Ht);
           exists s, y; split; [exact Hs|]; split; [exact Hyr|];
           apply (test_satisfies _ op); [tauto|exact Ht]
       end
     | try exact I; intros Hne;
       first [ apply String.eqb_eq in Et; contradiction
             | match goal with
               | Hc : Store.holds _ _ _ (Cmp (Field (c_ "permitType")) _ _) = true
                 |- _ => eapply holds_type; [|exact Hc]; reflexivity
               end ] ]).
Qed.

Lemma issue_year_unfold env container k permit_type year organization operator
      order_by t :
  auto_initialize env container t = (Returns k, t) ->
  query_documents_by_issue_year env container permit_type year organization
                                operator order_by t
  = fetch_sorted k
      (year_query issue_year_columns "issueDate" permit_type year organization
                  operator)
      "issueDate" order_by t.
Proof.
  intros Hk. unfold query_documents_by_issue_year, Run.bind. rewrite Hk.
  unfold year_query. now destruct (year_conditions _ _ _ _ _).
Qed.

Lemma expiration_year_unfold env container k permit_type year organization
      operator order_by t :
  auto_initialize env container t = (Returns k, t) ->
  query_documents_by_expiration_year env container permit_type year organization
                                     operator order_by t
  = fetch_sorted k
      (year_query expiration_year_columns "expirationDate" permit_type year
                  organization operator)
      "expirationDate" order_by t.
Proof.
  intros Hk. unfold query_documents_by_expiration_year, Run.bind. rewrite Hk.
  unfold year_query. now destruct (year_conditions _ _ _ _ _).
Qed.

Lemma year_query_shape cols date permit_type year organization operator :
  shape (year_query cols date permit_type year organization operator)
  = Select cols.
Proof.
  unfold year_query. now destruct (year_conditions _ _ _ _ _).
Qed.

(** What both year queries share: every record fetched for a year and an
    operator shows a date whose year satisfies the operator, and the
    permit type asked for. *)
Lemma year_fetch_spec faults db cols date permit_type year organization operator
      order_by t :
  NoDup (map Store.ref_name cols) ->
  In (p_ date) cols -> In (c_ "permitType") cols ->
  year <> 0 -> valid_operator operator ->
  exists items,
    fst (fetch_sorted (Store.serve faults db)
           (year_query cols date permit_type (Some year) organization
                       (Some operator))
           date order_by t) = Returns items
    /\ forall item, In item items ->
         year_satisfies date operator year item /\ shows_type permit_type item.
Proof.
  intros Hnd Hdate Htype Hy Hop.
  destruct (fetch_sorted_run (Store.serve faults db)
              (year_query cols date permit_type (Some year) organization
                          (Some operator)) date order_by t)
    as (items & E & _).
  exists items. split; [now rewrite E|].
  intros item Hin.
  destruct (fetch_sorted_members faults db _ cols date order_by t items
              (year_query_shape _ _ _ _ _ _) ltac:(now rewrite E) item Hin)
    as (cp & _ & Hm & ->).
  apply year_matching in Hm as ((s & y & Hs & Hyr & Hsat) & Hty); trivial.
  pose proof (project_field cols cp (p_ date) Hnd Hdate) as Hd.
  pose proof (project_field cols cp (c_ "permitType") Hnd Htype) as Hp.
  cbn [Store.ref_name Store.deref] in Hd, Hp.
  split.
  - exists s, y. unfold text_of in *. now rewrite Hd.
  - unfold shows_type, of_type, text_of in *. now rewrite Hp.
Qed.

(** C3: for a year other than zero and one of the three operators, the
    issue-year query, holding a container over a store, returns only
    records whose [issueDate] year satisfies the operator (['equal']:
    equal; ['greater']: on or after; ['less']: on or before) and, when a
    permit type is given, only records of that type; the
    expiration-year query does the same on [expirationDate]. *)
Theorem year_queries_spec env container faults db permit_type year organization
        operator order_by t :
  fst (auto_initialize env container t) = Returns (Store.serve faults db) ->
  year <> 0 -> valid_operator operator ->
  (exists items,
      fst (query_documents_by_issue_year env container permit_type (Some year)
             organization (Some operator) order_by t) = Returns items
      /\ forall item, In item items ->
           year_satisfies "issueDate" operator year item
           /\ shows_type permit_type item)
  /\ (exists items,
         fst (query_documents_by_expiration_year env container permit_type
                (Some year) organization (Some operator) order_by t)
         = Returns items
         /\ forall item, In item items ->
              year_satisfies "expirationDate" operator year item
              /\ shows_type permit_type item).
Proof.
  intros Hk Hy Hop. apply auto_initialize_returns in Hk. split.
  - rewrite (issue_year_unfold _ _ _ _ _ _ _ _ _ Hk).
    apply year_fetch_spec; trivial.
    + apply issue_year_columns_distinct.
    + cbn; tauto.
    + cbn; tauto.
  - rewrite (expiration_year_unfold _ _ _ _ _ _ _ _ _ Hk).
    apply year_fetch_spec; trivial.
    + apply expiration_year_columns_distinct.
    + cbn; tauto.
    + cbn; tauto.
Qed.

Lemma year_queries_spec_witness :
  exists items,
    fst (query_documents_by_issue_year Sample.env (Some Sample.store)
           (Some "PLO") (Some 2024) None (Some "greater") "latest" start)
    = Returns items
    /\ List.length items = 1%nat
    /\ forall item, In item items ->
         year_satisfies "issueDate" "greater" 2024 item
         /\ shows_type (Some "PLO") item.
Proof.
  destruct (proj1 (year_queries_spec Sample.env (Some Sample.store)
                     Store.healthy Sample.db (Some "PLO") 2024 None "greater"
                     "latest" start eq_refl ltac:(discriminate)
                     ltac:(cbn; tauto)))
    as (items & E & H).
  exists items. split; [exact E|]. split; [|exact H].
  revert E. vm_compute. now intros [= <-].
Defined.

(** ** Permits expiring soon *)

Lemma sort_text_keys key reverse items :
  (forall x, In x items -> exists s, key x = Returns (VStr s)) ->
  exists l, Py.sort key reverse items = Returns l.
Proof.
  intros H.
  assert (Hk : exists keys, Exc.mapM key items = Returns keys
                            /\ forallb Py.is_str keys = true).
  { induction items as [|x xs IH]; cbn.
    - now exists [].
    - destruct (H x (or_introl eq_refl)) as [s ->]. cbn.
      destruct IH as (keys & -> & Hs); [intros y Hy; apply H; now right|].
      cbn. exists (VStr s :: keys). now split. }
  destruct Hk as (keys & Hm & Hs).
  unfold Py.sort. rewrite Hm. cbn [Exc.bind].
  unfold Py.comparable. rewrite Hs, orb_true_r. cbn. eauto.
Qed.

Lemma expiring_soon_unfold env container k days organization order_by t future :
  auto_initialize env container t = (Returns k, t) ->
  add_days (clock env (clock_reads t)) days = Returns future ->
  query_documents_expiring_soon env container days organization order_by t
  = fetch_sorted k
      (expiring_soon_query (strftime_ymd (clock env (clock_reads t)))
                           (strftime_ymd future) organization)
      "expirationDate" order_by (mkTrace (S (S (clock_reads t))) (issued t)).
Proof.
  intros Hk Hf.
  unfold query_documents_expiring_soon, Run.bind at 1. rewrite Hk.
  unfold Run.bind, Run.now, Run.lift, expiring_soon_query.
  cbn [clock_reads issued]. rewrite Hf.
  now destruct (with_organization _ _ _).
Qed.

Lemma expiring_soon_matching current_date future_date organization cp :
  Store.matching (expiring_soon_query current_date future_date organization) cp
  = expires_within current_date future_date cp && of_organization organization cp.
Proof.
  unfold Store.matching, expiring_soon_query, with_organization, expires_within,
    of_organization, text_of.
  destruct organization as [o|]; cbn [Py.truthy_str];
    [destruct (String.eqb o "")|]; cbn;
    destruct (Store.field (snd cp) "expirationDate") as [[| e | | |]|];
    destruct (Store.field (fst cp) "permitType") as [[| type | | |]|];
    cbn; rewrite ?andb_false_r; trivial;
    try (destruct (Store.field (fst cp) "organization") as [[| o' | | |]|]; cbn);
    rewrite ?andb_false_r, ?andb_true_r; trivial;
    rewrite ?test_ge, ?test_le, ?string_compare_eqb;
    destruct (String.eqb type "PLO"), (String.leb current_date e),
      (String.leb e future_date); cbn; trivial.
Qed.

Lemma expiring_soon_shape current_date future_date organization :
  shape (expiring_soon_query current_date future_date organization)
  = Select expiry_columns.
Proof.
  unfold expiring_soon_query, with_organization.
  now destruct (Py.truthy_str organization).
Qed.

Lemma expires_within_key current_date future_date cp :
  expires_within current_date future_date cp = true ->
  exists e, Py.get (Store.project expiry_columns cp) "expirationDate" (VStr "")
            = Returns (VStr e).
Proof.
  unfold expires_within, text_of.
  pose proof (project_field expiry_columns cp (p_ "expirationDate")
                expiry_columns_distinct ltac:(cbn; tauto)) as Hd.
  cbn [Store.ref_name Store.deref] in Hd.
  destruct (Store.field (fst cp) "permitType") as [[| type | | |]|];
    try discriminate.
  destruct (Store.field (snd cp) "expirationDate") as [[| e | | |]|];
    try discriminate.
  intros _. exists e. unfold Store.project in *. cbn [Store.field] in Hd.
  unfold Py.get. now rewrite Hd.
Qed.



(** ** Aggregate statistics *)

Section Grouping.
(** Keys met earlier differ from keys met later. *)
Let apart (a b : option Value) : Prop := Store.opt_eqb a b = false.

Lemma bump_total k groups :
  group_total (Store.bump k groups) = group_total groups + 1.
Proof.
  unfold group_total.
  induction groups as [|[k' n] g IH]; cbn [Store.bump fold_right snd]; [lia|].
  destruct (Store.opt_eqb k' k); cbn [fold_right snd]; lia.
Qed.

Lemma bump_keys k groups :
  (map fst (Store.bump k groups) = map fst groups
   /\ exists k', In k' (map fst groups))
  \/ (map fst (Store.bump k groups) = map fst groups ++ [k]
      /\ Forall (fun k' => apart k' k) (map fst groups)).
Proof.
  induction groups as [|[k' n] g IH]; cbn.
  - right. split; [reflexivity|constructor].
  - destruct (Store.opt_eqb k' k) eqn:E; cbn.
    + left. split; [reflexivity|]. exists k'. now left.
    + destruct IH as [[-> [k'' Hk]]|[-> Hall]].
      * left. split; [reflexivity|]. exists k'. now left.
      * right. split; [reflexivity|]. now constructor.
Qed.

Lemma apart_snoc ks k :
  ForallOrdPairs apart ks -> Forall (fun k' => apart k' k) ks ->
  ForallOrdPairs apart (ks ++ [k]).
Proof.
  induction 1 as [|a l Ha Hl IH]; cbn; intros Hall.
  - repeat constructor.
  - inversion Hall; subst. constructor.
    + apply Forall_app. split; [exact Ha|]. now repeat constructor.
    + now apply IH.
Qed.

Lemma bump_apart k groups :
  ForallOrdPairs apart (map fst groups) ->
  ForallOrdPairs apart (map fst (Store.bump k groups)).
Proof.
  intros H. destruct (bump_keys k groups) as [[-> _]|[-> Hall]]; trivial.
  now apply apart_snoc.
Qed.

Lemma bump_some k groups :
  (exists v, k = Some (VStr v)) ->
  Forall (fun k' => exists v, k' = Some (VStr v)) (map fst groups) ->
  Forall (fun k' => exists v, k' = Some (VStr v)) (map fst (Store.bump k groups)).
Proof.
  intros Hk H. destruct (bump_keys k groups) as [[-> _]|[-> _]]; trivial.
  apply Forall_app. split; [exact H|]. now repeat constructor.
Qed.

Lemma group_count_spec keys :
  Forall (fun k => exists v, k = Some (VStr v)) keys ->
  let groups := Store.group_count keys in
  group_total groups = Z.of_nat (List.length keys)
  /\ ForallOrdPairs apart (map fst groups)
  /\ Forall (fun k' => exists v, k' = Some (VStr v)) (map fst groups).
Proof.
  unfold Store.group_count.
  assert (H : forall acc,
             Forall (fun k => exists v, k = Some (VStr v)) keys ->
             ForallOrdPairs apart (map fst acc) ->
             Forall (fun k' => exists v, k' = Some (VStr v)) (map fst acc) ->
             let groups := fold_left (fun g k => Store.bump k g) keys acc in
             group_total groups = group_total acc + Z.of_nat (List.length keys)
             /\ ForallOrdPairs apart (map fst groups)
             /\ Forall (fun k' => exists v, k' = Some (VStr v)) (map fst groups)).
  { induction keys as [|k ks IH]; intros acc Hk Ha Hs;
      cbn [fold_left List.length].
    - repeat split; trivial. cbv zeta. lia.
    - inversion Hk as [|? ? Hk1 Hk2]; subst.
      destruct (IH (Store.bump k acc) Hk2 (bump_apart k acc Ha)
                   (bump_some k acc Hk1 Hs)) as (Ht & Hp & Hs').
      repeat split; trivial. cbv zeta. rewrite Ht, bump_total. lia. }
  intros Hk. apply (H [] Hk); constructor.
Qed.

(** The dictionary built from the rows of distinct string groups keeps
    every group. *)
Lemma of_counts_groups f groups acc :
  String.eqb f "count" = false ->
  Forall (fun k' => exists v, k' = Some (VStr v)) (map fst groups) ->
  ForallOrdPairs apart (map fst groups) ->
  Forall (fun k' => Forall (fun kv => Store.opt_eqb (Some (fst kv)) k' = false) acc)
         (map fst groups) ->
  exists d,
    Dict.of_counts f (map (Store.group_row f) groups) acc = Returns d
    /\ sum_counts d = sum_counts acc + group_total groups.
Proof.
  intros Hf. revert acc.
  induction groups as [|[k n] g IH]; intros acc Hs Ha Hfresh.
  - exists acc. split; [reflexivity|]. cbn. lia.
  - cbn [map fst] in Hs, Ha, Hfresh.
    inversion Hs as [|? ? [v ->] Hs']; subst.
    inversion Ha as [|? ? Hk Ha']; subst.
    inversion Hfresh as [|? ? Hacc Hfresh']; subst.
    cbn [map Dict.of_counts].
    change (Store.group_row f (Some (VStr v), n))
      with (VDict [(f, VStr v); ("count", VNum n)]).
    unfold Py.index. cbn [Py.dict_get]. rewrite String.eqb_refl.
    cbn [Exc.bind Py.dict_get]. rewrite Hf, String.eqb_refl.
    cbn [Exc.bind Dict.hashable].
    assert (Hset : Dict.set acc (VStr v) (VNum n) = acc ++ [(VStr v, VNum n)]).
    { clear -Hacc. induction acc as [|[k' v'] acc IH]; cbn; [reflexivity|].
      inversion Hacc as [|? ? Hk' Hacc']; subst. cbn in Hk'. rewrite Hk'.
      now rewrite IH. }
    rewrite Hset.
    destruct (IH (acc ++ [(VStr v, VNum n)]) Hs' Ha') as (d & Hd & Hsum).
    + clear -Hk Hfresh'.
      induction g as [|[k' n'] g IH]; cbn [map fst] in *; constructor.
      * inversion Hk; inversion Hfresh'; subst.
        apply Forall_app. split; [assumption|]. now repeat constructor.
      * inversion Hk; inversion Hfresh'; subst. now apply IH.
    + exists d. split; [exact Hd|]. rewrite Hsum.
      unfold group_total. cbn [fold_right snd].
      assert (Hacc' : sum_counts (acc ++ [(VStr v, VNum n)]) = sum_counts acc + n).
      { clear. unfold sum_counts.
        induction acc as [|[k' v'] acc IH]; cbn [app fold_right snd]; [lia|].
        destruct v'; lia. }
      lia.
Qed.
End Grouping.

Lemma filter_all {A} (f : A -> bool) l :
  (forall x, f x = true) -> filter f l = l.
Proof.
  intros H. induction l as [|x xs IH]; cbn; [reflexivity|].
  now rewrite H, IH.
Qed.

Lemma has_text_field f c :
  has_text f c -> exists v, Store.field c f = Some (VStr v).
Proof.
  intros [s Hs]. unfold text_of in Hs.
  destruct (Store.field c f) as [[| v | | |]|]; try discriminate. now exists v.
Qed.

(** The dictionary of counts by a property that every document states
    holds one count per document. *)
Lemma count_by_answer db f :
  String.eqb f "count" = false -> Forall (has_text f) db ->
  exists d,
    Dict.of_counts f (Store.answer db (mkQuery (CountBy f) [] [])) [] = Returns d
    /\ sum_counts d = Z.of_nat (List.length db).
Proof.
  intros Hf Hall. unfold Store.answer. cbn [shape].
  rewrite (filter_all (Store.matching_doc (mkQuery (CountBy f) [] []))) by reflexivity.
  assert (Hkeys : Forall (fun k => exists v, k = Some (VStr v))
                         (map (fun c => Store.field c f) db)).
  { induction Hall as [|c db' Hc _ IH]; cbn; constructor; trivial.
    now apply has_text_field. }
  destruct (group_count_spec _ Hkeys) as (Htotal & Hapart & Hsome).
  destruct (of_counts_groups f (Store.group_count (map (fun c => Store.field c f) db))
              [] Hf Hsome Hapart) as (d & Hd & Hsum).
  - apply Forall_forall. intros. constructor.
  - exists d. split; [exact Hd|].
    rewrite Hsum, Htotal, length_map. reflexivity.
Qed.

(** The two ways the statistics come back: computed, with the active count
    the difference of the other two, or zeroed with an error text. *)
Lemma statistics_cases env container t (P : Statistics -> Prop) :
  (forall total expired active bt bo stamp,
      Py.sub total expired = Returns active ->
      P (mkStatistics total expired active bt bo (Some stamp) None)) ->
  (forall message, P (zeroed message)) ->
  forall s, fst (get_permit_statistics env container t) = Returns s -> P s.
Proof.
  intros Hok Hzero s.
  unfold get_permit_statistics. with_container env container t k.
  unfold Run.bind, Run.now, Run.try_except, Run.query_items, Run.lift, Run.ret;
    cbn [fst snd clock_reads issued].
  repeat match goal with
         | |- context [k ?q] => destruct (k q); cbn [fst]
         | |- context [Dict.of_counts ?f ?l ?a] =>
             destruct (Dict.of_counts f l a); cbn [fst]
         | |- context [Py.sub ?a ?b] =>
             let E := fresh "E" in destruct (Py.sub a b) eqn:E; cbn [fst]
         end;
    intros [= <-]; first [now apply Hok|apply Hzero].
Qed.

(** C1, as the code has it: [active_count] is always [total_permits -
    expired_count]; over a store that answers and whose documents all state
    their permit type and organization, [total_permits] counts the nested
    permit entries while the values of [by_type] add up to the number of
    documents. *)
Theorem get_permit_statistics_spec env container t :
  (forall s,
      fst (get_permit_statistics env container t) = Returns s ->
      Py.sub (total_permits s) (expired_count s) = Returns (active_count s))
  /\ (forall db,
         fst (auto_initialize env container t)
         = Returns (Store.serve Store.healthy db) ->
         Forall (has_text "permitType") db ->
         Forall (has_text "organization") db ->
         exists s,
           fst (get_permit_statistics env container t) = Returns s
           /\ error s = None
           /\ total_permits s = VNum (Z.of_nat (List.length (Store.joined db)))
           /\ sum_counts (by_type s) = Z.of_nat (List.length db)).
Proof.
  split.
  - apply statistics_cases.
    + intros total expired active bt bo stamp H. exact H.
    + reflexivity.
  - intros db Hk Htype Horg. apply auto_initialize_returns in Hk.
    unfold get_permit_statistics, Run.bind at 1. rewrite Hk.
    unfold Run.bind, Run.now, Run.try_except, Run.query_items, Run.lift, Run.ret,
      Store.serve, Store.healthy; cbn [fst snd clock_reads issued].
    unfold type_query, org_query. cbv beta iota.
    destruct (count_by_answer db "permitType" eq_refl Htype) as (d1 & -> & Hd1).
    destruct (count_by_answer db "organization" eq_refl Horg) as (d2 & -> & Hd2).
    change (Store.answer db total_query)
      with [VNum (Z.of_nat (List.length (filter (Store.matching total_query)
                                                (Store.joined db))))].
    set (current_date := strftime_ymd _).
    change (Store.answer db (expired_query current_date))
      with [VNum (Z.of_nat (List.length
                              (filter (Store.matching (expired_query current_date))
                                      (Store.joined db))))].
    cbn [next Py.sub]. cbv beta iota.
    eexists. split; [reflexivity|]. cbn [error total_permits by_type].
    split; [reflexivity|]. split; [|exact Hd1].
    rewrite (filter_all (Store.matching total_query)) by reflexivity.
    reflexivity.
Qed.

Lemma get_permit_statistics_spec_witness :
  exists s,
    fst (get_permit_statistics Sample.env (Some Sample.store) start) = Returns s
    /\ Py.sub (total_permits s) (expired_count s) = Returns (active_count s)
    /\ total_permits s = VNum 3
    /\ sum_counts (by_type s) = 2.
Proof.
  destruct (proj2 (get_permit_statistics_spec Sample.env (Some Sample.store) start)
              Sample.db eq_refl)
    as (s & E & _ & Htotal & Hsum).
  - repeat constructor; eexists; reflexivity.
  - repeat constructor; eexists; reflexivity.
  - exists s. split; [exact E|]. split; [|split; [exact Htotal|exact Hsum]].
    apply (proj1 (get_permit_statistics_spec Sample.env (Some Sample.store) start)).
    exact E.
Defined.

(** C1 as stated fails: for a document bundling two permit entries,
    [total_permits] counts both while [by_type] counts the document once. *)
Lemma by_type_counts_documents :
  exists s,
    fst (get_permit_statistics Sample.env (Some Sample.store) start) = Returns s
    /\ error s = None
    /\ total_permits s = VNum 3
    /\ by_type s = [(VStr "PLO", VNum 1); (VStr "KKPR/KKPRL", VNum 1)]
    /\ sum_counts (by_type s) = 2.
Proof.
  eexists. split; [vm_compute; reflexivity|]. cbn. repeat split.
Qed.

(** ** Permit details *)

(** C10: for a permit record the lookup found, when its expiration date is
    absent or empty the details show status ["Active"] and no days phrase;
    when it states a date the format accepts, the status is derived from
    the days remaining (Expired below zero, Expiring Soon up to 30, Active
    beyond) and the days phrase is present. *)
Theorem get_permit_details_status env cosmos_container permit_number t permit t1 :
  query_permit_by_number env (Some cosmos_container) (Some permit_number) t
  = (Returns (Some permit), t1) ->
  Py.truthy permit = true ->
  (forall expiry,
      Py.get permit "expirationDate" VNull = Returns expiry ->
      Py.truthy expiry = false ->
      fst (get_permit_details env cosmos_container permit_number t)
      = Returns (Details permit_number permit (VStr "N/A") "Active" "")
      /\ status_line "Active" "" = "Status: Active ")
  /\ (forall text expiry_date,
         Py.get permit "expirationDate" VNull = Returns (VStr text) ->
         text <> "" ->
         strptime_ymd text = Returns expiry_date ->
         let days_remaining := sub_days expiry_date (clock env (clock_reads t1)) in
         fst (get_permit_details env cosmos_container permit_number t)
         = Returns (Details permit_number permit (VStr text)
                            (derived_status days_remaining)
                            (days_phrase days_remaining))
         /\ days_phrase days_remaining <> "").
Proof.
  intros Hfound Htruthy. split.
  - intros expiry Hget Hfalsy. split; [|reflexivity].
    unfold get_permit_details, Run.try_except, Run.bind at 1.
    rewrite Hfound, Htruthy. cbn [negb].
    unfold Run.bind, Run.now, Run.lift, Run.ret. rewrite Hget, Hfalsy.
    reflexivity.
  - intros text expiry_date Hget Hne Hparse days_remaining.
    assert (Hdays : Py.truthy (VStr text) = true).
    { cbn. now apply negb_true_iff, String.eqb_neq. }
    split.
    + unfold get_permit_details, Run.try_except, Run.bind at 1.
      rewrite Hfound, Htruthy. cbn [negb].
      unfold Run.bind, Run.now, Run.lift, Run.ret. rewrite Hget, Hdays.
      cbn [strptime]. rewrite Hparse. fold days_remaining.
      unfold derived_status, days_phrase.
      destruct (days_remaining <? 0); [reflexivity|].
      destruct (days_remaining <=? 30); reflexivity.
    + unfold days_phrase. destruct (days_remaining <? 0); discriminate.
Qed.

Lemma get_permit_details_status_witness :
  fst (get_permit_details Sample.env Sample.store "KKPRL-2022-003" start)
  = Returns (Details "KKPRL-2022-003"
               (Store.project detail_columns
                  (hd (VNull, VNull) (with_number "KKPRL-2022-003" Sample.db)))
               (VStr "N/A") "Active" "")
  /\ exists permit,
      fst (get_permit_details Sample.env Sample.store "PLO-2024-001" start)
      = Returns (Details "PLO-2024-001" permit (VStr "2025-11-25")
                         "Expiring Soon" "Expires in 4 days").
Proof.
  split.
  - refine (proj1 (proj1 (get_permit_details_status Sample.env Sample.store
                            "KKPRL-2022-003" start _ _ eq_refl eq_refl)
                         VNull eq_refl eq_refl)).
  - eexists.
    refine (proj1 (proj2 (get_permit_details_status Sample.env Sample.store
                            "PLO-2024-001" start _ _ eq_refl eq_refl)
                         "2025-11-25" (mkDateTime 2025 11 25 0) eq_refl _ eq_refl)).
    discriminate.
Defined.

(** * Further properties *)

(** ** The calendar *)

Lemma code_digit_char n : code (digit_char n) = 48 + n mod 10.
Proof.
  unfold code, digit_char.
  pose proof (Z.mod_pos_bound n 10 ltac:(lia)) as Hb.
  rewrite nat_ascii_embedding by lia. lia.
Qed.

Lemma digit_val_digit_char n : digit_val (digit_char n) = n mod 10.
Proof. unfold digit_val. rewrite code_digit_char. lia. Qed.

Lemma year_tok_pad4 y rest :
  0 <= y <= 9999 ->
  year_tok (list_ascii_of_string (pad4 y ++ rest)%string)
  = Some (y, list_ascii_of_string rest).
Proof.
  intros Hy. unfold pad4, pad2. cbn [String.append list_ascii_of_string year_tok].
  rewrite !digit_char_is_digit. cbn [andb]. rewrite !digit_val_digit_char.
  do 2 f_equal.
  Z.div_mod_to_equations. lia.
Qed.

Lemma tail_parses_all :
  forallb (fun m => forallb (fun d => tail_parses (Z.of_nat m) (Z.of_nat d)) (seq 1 31))
          (seq 1 12) = true.
Proof. vm_compute. reflexivity. Qed.

Lemma map_flat_map {A B C} (g : B -> C) (f : A -> list B) l :
  map g (flat_map f l) = flat_map (fun a => map g (f a)) l.
Proof.
  induction l as [|a l IH]; cbn; [reflexivity|]. now rewrite map_app, IH.
Qed.

Lemma after_year_any y r0 :
  after_year y r0 = map (fun '(_, m, d, r) => (y, m, d, r)) (after_year 0 r0).
Proof.
  unfold after_year. rewrite map_flat_map. apply flat_map_ext. intros r1.
  rewrite map_flat_map. apply flat_map_ext. intros [m r2].
  rewrite map_flat_map. apply flat_map_ext. intros r3.
  rewrite map_map. apply map_ext. now intros [d r4].
Qed.

Lemma in_seq_Z lo len n :
  Z.of_nat lo <= n < Z.of_nat lo + Z.of_nat len -> In (Z.to_nat n) (seq lo len).
Proof. intros H. apply in_seq. lia. Qed.

Lemma check_date_fields_bounds y m d :
  check_date_fields y m d = true ->
  1 <= y <= 9999 /\ 1 <= m <= 12 /\ 1 <= d <= days_in_month y m.
Proof.
  unfold check_date_fields. rewrite !andb_true_iff, !Z.leb_le. tauto.
Qed.

Lemma days_in_month_bounds y m : 1 <= m <= 12 -> 28 <= days_in_month y m <= 31.
Proof.
  intros Hm. unfold days_in_month.
  assert (H : m = 1 \/ m = 2 \/ m = 3 \/ m = 4 \/ m = 5 \/ m = 6 \/ m = 7
              \/ m = 8 \/ m = 9 \/ m = 10 \/ m = 11 \/ m = 12) by lia.
  destruct (is_leap y);
    repeat (destruct H as [->|H]; [cbn; lia|]); subst; cbn; lia.
Qed.

Lemma strptime_strftime d :
  check_date_fields (dt_year d) (dt_month d) (dt_day d) = true ->
  strptime_ymd (strftime_ymd d)
  = Returns (mkDateTime (dt_year d) (dt_month d) (dt_day d) 0).
Proof.
  intros Hc. pose proof (check_date_fields_bounds _ _ _ Hc) as (Hy & Hm & Hd).
  pose proof (days_in_month_bounds (dt_year d) _ Hm) as Hdim.
  assert (Ht : tail_parses (dt_month d) (dt_day d) = true).
  { pose proof tail_parses_all as H.
    rewrite forallb_forall in H.
    specialize (H (Z.to_nat (dt_month d)) (in_seq_Z 1 12 (dt_month d) ltac:(lia))).
    rewrite forallb_forall in H.
    specialize (H (Z.to_nat (dt_day d)) (in_seq_Z 1 31 (dt_day d) ltac:(lia))).
    now rewrite !Z2Nat.id in H by lia. }
  unfold strptime_ymd, regex_matches, strftime_ymd.
  rewrite year_tok_pad4 by lia.
  change (flat_map _ (dash ?r)) with (after_year (dt_year d) r).
  rewrite after_year_any.
  unfold tail_parses, month_day_tail in Ht.
  destruct (after_year 0 _) as [|[[[y0 m'] d'] [|? ?]] ?]; try discriminate.
  apply andb_true_iff in Ht as [Hm' Hd'].
  apply Z.eqb_eq in Hm', Hd'. subst. cbn [map]. now rewrite Hc.
Qed.

Lemma sub_days_midnight a b :
  dt_micros a = 0 -> dt_micros b = 0 -> sub_days a b = toordinal a - toordinal b.
Proof.
  intros Ha Hb. unfold sub_days. rewrite Ha, Hb, Z.sub_0_r, Z.add_0_r.
  apply Z.div_mul. unfold day_us. lia.
Qed.

Lemma days_before_year_succ y :
  days_before_year (y + 1) = days_before_year y + (if is_leap y then 366 else 365).
Proof.
  unfold days_before_year, is_leap.
  replace (y + 1 - 1) with y by lia.
  destruct (y mod 4 =? 0) eqn:E4; destruct (y mod 100 =? 0) eqn:E100;
    destruct (y mod 400 =? 0) eqn:E400; cbn [andb orb negb];
    rewrite ?Z.eqb_eq, ?Z.eqb_neq in *;
    Z.div_mod_to_equations; lia.
Qed.

Lemma days_before_year_mono y1 y2 :
  y1 <= y2 -> days_before_year y1 <= days_before_year y2.
Proof.
  intros H. unfold days_before_year. Z.div_mod_to_equations. lia.
Qed.

Ltac month_table :=
  cbv [Z.eqb Z.ltb Z.compare Pos.compare Pos.compare_cont Pos.eqb andb
       DAYS_IN_MONTH DAYS_BEFORE_MONTH days_in_month days_before_month].

Ltac each_month m :=
  let H := fresh "Hmonth" in
  assert (H : m = 1 \/ m = 2 \/ m = 3 \/ m = 4 \/ m = 5 \/ m = 6 \/ m = 7
              \/ m = 8 \/ m = 9 \/ m = 10 \/ m = 11 \/ m = 12) by lia;
  repeat (destruct H as [H|H]); subst m.

Lemma day_of_year_bounds y m d :
  1 <= m <= 12 -> 1 <= d <= days_in_month y m ->
  1 <= days_before_month y m + d <= (if is_leap y then 366 else 365).
Proof.
  intros Hm. unfold days_in_month, days_before_month.
  destruct (is_leap y); each_month m; month_table; lia.
Qed.

Lemma day_of_year_months y m1 d1 m2 d2 :
  1 <= m1 -> m1 < m2 -> m2 <= 12 ->
  1 <= d1 <= days_in_month y m1 -> 1 <= d2 ->
  days_before_month y m1 + d1 < days_before_month y m2 + d2.
Proof.
  intros H1 H12 H2. unfold days_in_month, days_before_month.
  destruct (is_leap y); each_month m1; each_month m2; month_table; lia.
Qed.

Lemma ymd2ord_lt y1 m1 d1 y2 m2 d2 :
  check_date_fields y1 m1 d1 = true -> check_date_fields y2 m2 d2 = true ->
  date_lt y1 m1 d1 y2 m2 d2 -> ymd2ord y1 m1 d1 < ymd2ord y2 m2 d2.
Proof.
  intros H1 H2 Hlt.
  apply check_date_fields_bounds in H1 as (Hy1 & Hm1 & Hd1).
  apply check_date_fields_bounds in H2 as (Hy2 & Hm2 & Hd2).
  unfold ymd2ord.
  destruct Hlt as [Hy|[-> [Hm|[-> Hd]]]].
  - pose proof (day_of_year_bounds y1 m1 d1 Hm1 Hd1) as Hb1.
    pose proof (day_of_year_bounds y2 m2 d2 Hm2 Hd2) as Hb2.
    pose proof (days_before_year_succ y1) as Hs.
    pose proof (days_before_year_mono (y1 + 1) y2 ltac:(lia)) as Hmono.
    lia.
  - pose proof (day_of_year_months y2 m1 d1 m2 d2) as H. lia.
  - lia.
Qed.

Lemma ymd2ord_order y1 m1 d1 y2 m2 d2 :
  check_date_fields y1 m1 d1 = true -> check_date_fields y2 m2 d2 = true ->
  (ymd2ord y1 m1 d1 < ymd2ord y2 m2 d2 <-> date_lt y1 m1 d1 y2 m2 d2).
Proof.
  intros H1 H2. split; [|now apply ymd2ord_lt].
  intros Hlt.
  assert (Htri : date_lt y1 m1 d1 y2 m2 d2
                 \/ (y1 = y2 /\ m1 = m2 /\ d1 = d2)
                 \/ date_lt y2 m2 d2 y1 m1 d1) by (unfold date_lt; lia).
  destruct Htri as [H|[(-> & -> & ->)|H]]; trivial; [lia|].
  apply (ymd2ord_lt _ _ _ _ _ _ H2 H1) in H. lia.
Qed.

Lemma ascii_compare_code a b : Ascii.compare a b = (code a ?= code b).
Proof.
  unfold Ascii.compare, code, nat_of_ascii.
  rewrite !N_nat_Z. symmetry. apply N2Z.inj_compare.
Qed.

Lemma digit_char_compare p q :
  Ascii.compare (digit_char p) (digit_char q) = (p mod 10 ?= q mod 10).
Proof.
  rewrite ascii_compare_code, !code_digit_char. apply Z.add_compare_mono_l.
Qed.

Lemma compare_pad2 m1 m2 r1 r2 :
  0 <= m1 <= 99 -> 0 <= m2 <= 99 ->
  String.compare (pad2 m1 ++ r1) (pad2 m2 ++ r2)
  = then_compare (m1 ?= m2) (String.compare r1 r2).
Proof.
  intros H1 H2. unfold pad2. cbn [String.append String.compare].
  rewrite !digit_char_compare. unfold then_compare.
  destruct (Z.compare_spec ((m1 / 10) mod 10) ((m2 / 10) mod 10));
    destruct (Z.compare_spec (m1 mod 10) (m2 mod 10));
    destruct (Z.compare_spec m1 m2); trivial;
    exfalso; Z.div_mod_to_equations; lia.
Qed.

Lemma compare_pad4 y1 y2 r1 r2 :
  0 <= y1 <= 9999 -> 0 <= y2 <= 9999 ->
  String.compare (pad4 y1 ++ r1) (pad4 y2 ++ r2)
  = then_compare (y1 ?= y2) (String.compare r1 r2).
Proof.
  intros H1 H2. unfold pad4. cbn [String.append String.compare].
  rewrite !digit_char_compare.
  change (String.compare (pad2 y1 ++ r1) (pad2 y2 ++ r2))
    with (String.compare (pad2 y1 ++ r1) (pad2 y2 ++ r2)).
  unfold pad2. cbn [String.append String.compare].
  rewrite !digit_char_compare. unfold then_compare.
  destruct (Z.compare_spec ((y1 / 1000) mod 10) ((y2 / 1000) mod 10));
    destruct (Z.compare_spec ((y1 / 100) mod 10) ((y2 / 100) mod 10));
    destruct (Z.compare_spec ((y1 / 10) mod 10) ((y2 / 10) mod 10));
    destruct (Z.compare_spec (y1 mod 10) (y2 mod 10));
    destruct (Z.compare_spec y1 y2); trivial;
    exfalso; Z.div_mod_to_equations; lia.
Qed.

Lemma strftime_compare a b :
  check_date_fields (dt_year a) (dt_month a) (dt_day a) = true ->
  check_date_fields (dt_year b) (dt_month b) (dt_day b) = true ->
  String.compare (strftime_ymd a) (strftime_ymd b)
  = then_compare (dt_year a ?= dt_year b)
      (then_compare (dt_month a ?= dt_month b) (dt_day a ?= dt_day b)).
Proof.
  intros Ha Hb.
  apply check_date_fields_bounds in Ha as (Hya & Hma & Hda).
  apply check_date_fields_bounds in Hb as (Hyb & Hmb & Hdb).
  pose proof (days_in_month_bounds (dt_year a) _ Hma).
  pose proof (days_in_month_bounds (dt_year b) _ Hmb).
  unfold strftime_ymd.
  rewrite compare_pad4 by lia. f_equal.
  cbn [String.append String.compare]. change (Ascii.compare "-" "-") with Eq.
  cbv iota. rewrite compare_pad2 by lia. f_equal.
  cbn [String.append String.compare]. change (Ascii.compare "-" "-") with Eq.
  cbv iota.
  assert (Hnil : forall n, pad2 n = (pad2 n ++ "")%string) by reflexivity.
  rewrite (Hnil (dt_day a)), (Hnil (dt_day b)), compare_pad2 by lia.
  cbn [String.compare]. unfold then_compare. now destruct (_ ?= _).
Qed.

Lemma strftime_ltb a b :
  check_date_fields (dt_year a) (dt_month a) (dt_day a) = true ->
  check_date_fields (dt_year b) (dt_month b) (dt_day b) = true ->
  (String.ltb (strftime_ymd a) (strftime_ymd b) = true
   <-> toordinal a < toordinal b).
Proof.
  intros Ha Hb. unfold String.ltb, toordinal.
  rewrite (strftime_compare a b Ha Hb), (ymd2ord_order _ _ _ _ _ _ Ha Hb).
  unfold then_compare, date_lt.
  destruct (Z.compare_spec (dt_year a) (dt_year b));
    destruct (Z.compare_spec (dt_month a) (dt_month b));
    destruct (Z.compare_spec (dt_day a) (dt_day b));
    split; intros; try discriminate; try reflexivity; lia.
Qed.

Lemma month_day_ok_all :
  forallb (fun n => month_day_ok (Z.of_nat n) true && month_day_ok (Z.of_nat n) false)
          (seq 0 365) = true.
Proof. vm_compute. reflexivity. Qed.

Lemma month_day_spec year n leapyear :
  0 <= n <= 364 ->
  exists m d,
    month_day year n leapyear = (year, m, d)
    /\ 1 <= m <= 12
    /\ 1 <= d <= (if (m =? 2) && leapyear then 29 else DAYS_IN_MONTH m)
    /\ DAYS_BEFORE_MONTH m + (if (2 <? m) && leapyear then 1 else 0) + d = n + 1.
Proof.
  intros Hn.
  pose proof month_day_ok_all as H. rewrite forallb_forall in H.
  specialize (H (Z.to_nat n) (in_seq_Z 0 365 n ltac:(lia))).
  rewrite Z2Nat.id in H by lia. apply andb_true_iff in H as [Ht Hf].
  assert (Hok : month_day_ok n leapyear = true) by now destruct leapyear.
  clear Ht Hf. unfold month_day_ok in Hok.
  assert (Hyear : month_day year n leapyear
                  = let '(_, m, d) := month_day 0 n leapyear in (year, m, d)).
  { unfold month_day. cbv zeta. now destruct (n <? _). }
  rewrite Hyear. destruct (month_day 0 n leapyear) as [[y0 m] d].
  rewrite !andb_true_iff, !Z.leb_le, Z.eqb_eq in Hok.
  exists m, d. repeat split; tauto || lia.
Qed.

Lemma ord2ymd_spec o :
  1 <= o <= MAXORDINAL ->
  exists y m d,
    ord2ymd o = (y, m, d)
    /\ check_date_fields y m d = true
    /\ ymd2ord y m d = o.
Proof.
  unfold MAXORDINAL. intros Ho.
  unfold ord2ymd. cbv zeta.
  change DI400Y with 146097. change DI100Y with 36524. change DI4Y with 1461.
  set (n := o - 1).
  pose proof (Z.div_mod n 146097 ltac:(lia)) as E1.
  pose proof (Z.mod_pos_bound n 146097 ltac:(lia)) as B1.
  set (a := n / 146097) in *. set (r := n mod 146097) in *.
  pose proof (Z.div_mod r 36524 ltac:(lia)) as E2.
  pose proof (Z.mod_pos_bound r 36524 ltac:(lia)) as B2.
  set (b := r / 36524) in *. set (r2 := r mod 36524) in *.
  pose proof (Z.div_mod r2 1461 ltac:(lia)) as E3.
  pose proof (Z.mod_pos_bound r2 1461 ltac:(lia)) as B3.
  set (c := r2 / 1461) in *. set (r3 := r2 mod 1461) in *.
  pose proof (Z.div_mod r3 365 ltac:(lia)) as E4.
  pose proof (Z.mod_pos_bound r3 365 ltac:(lia)) as B4.
  set (e := r3 / 365) in *. set (r4 := r3 mod 365) in *.
  assert (Hn : 0 <= n <= 3652058) by (unfold n; lia).
  assert (Hno : n = o - 1) by reflexivity.
  clearbody a r b r2 c r3 e r4 n.
  assert (Ha : 0 <= a <= 24) by lia.
  assert (Hb : 0 <= b <= 4) by lia.
  assert (Hc : 0 <= c <= 24) by lia.
  assert (He : 0 <= e <= 4) by lia.
  assert (Hdby : forall y, 0 <= y ->
             days_before_year (y + 1) = y * 365 + y / 4 - y / 100 + y / 400).
  { intros y _. unfold days_before_year. now replace (y + 1 - 1) with y by lia. }
  destruct ((e =? 4) || (b =? 4)) eqn:Especial.
  - exists (a * 400 + 1 + b * 100 + c * 4 + e - 1), 12, 31.
    split; [reflexivity|].
    assert (Hcase : (b = 4 /\ r2 = 0 /\ c = 0 /\ e = 0 /\ r4 = 0)
                    \/ (b <= 3 /\ e = 4 /\ r4 = 0)).
    { apply orb_true_iff in Especial as [H|H]; apply Z.eqb_eq in H; lia. }
    set (Y := a * 400 + 1 + b * 100 + c * 4 + e - 1).
    assert (HY : Y mod 4 = 0 /\ (Y mod 100 <> 0 \/ Y mod 400 = 0)
                 /\ days_before_year (Y + 1) = n + 1 /\ 1 <= Y <= 9999).
    { rewrite Hdby by (unfold Y; lia). unfold Y.
      destruct Hcase as [(-> & -> & -> & -> & ->)|(Hb3 & -> & ->)];
        Z.div_mod_to_equations; lia. }
    destruct HY as (H4 & H100 & Hd & HYr).
    assert (Hleap : is_leap Y = true).
    { unfold is_leap. apply andb_true_iff. split; [now apply Z.eqb_eq|].
      apply orb_true_iff. destruct H100 as [H|H].
      - left. now apply negb_true_iff, Z.eqb_neq.
      - right. now apply Z.eqb_eq. }
    pose proof (days_before_year_succ Y) as Hs. rewrite Hleap in Hs.
    split.
    + unfold check_date_fields, days_in_month. rewrite Hleap.
      repeat (apply andb_true_iff; split); apply Z.leb_le; cbn; lia.
    + unfold ymd2ord, days_before_month. rewrite Hleap. cbn. lia.
  - apply orb_false_iff in Especial as [He4 Hb4].
    apply Z.eqb_neq in He4, Hb4.
    set (Y := a * 400 + 1 + b * 100 + c * 4 + e).
    set (leapyear := (e =? 3) && (negb (c =? 24) || (b =? 3))).
    change (if r4 <? _ then _ else _) with (month_day Y r4 leapyear).
    destruct (month_day_spec Y r4 leapyear ltac:(lia)) as (m & d & -> & Hm & Hd & Hday).
    exists Y, m, d. split; [reflexivity|].
    assert (HY : days_before_year Y = n - r4 /\ 1 <= Y).
    { replace Y with (Y - 1 + 1) by lia. rewrite Hdby by (unfold Y; lia).
      unfold Y. Z.div_mod_to_equations. lia. }
    destruct HY as [HdY HY1].
    assert (HY2 : Y <= 9999).
    { destruct (Z_le_gt_dec Y 9999) as [|Hbig]; trivial.
      pose proof (days_before_year_mono 10000 Y ltac:(lia)) as Hmono.
      change (days_before_year 10000) with 3652059 in Hmono. lia. }
    assert (Hleap : is_leap Y = leapyear).
    { unfold is_leap, leapyear, Y.
      destruct (e =? 3) eqn:Ee3; destruct (c =? 24) eqn:Ec24;
        destruct (b =? 3) eqn:Eb3; cbn [andb orb negb];
        rewrite ?Z.eqb_eq, ?Z.eqb_neq in *;
        repeat match goal with
               | |- context [?x mod ?k =? 0] =>
                   let E := fresh "E" in
                   destruct (x mod k =? 0) eqn:E;
                   rewrite ?Z.eqb_eq, ?Z.eqb_neq in E
               end; cbn [andb orb negb]; trivial;
        exfalso; Z.div_mod_to_equations; lia. }
    split.
    + unfold check_date_fields, days_in_month. rewrite Hleap.
      repeat (apply andb_true_iff; split); apply Z.leb_le; lia.
    + unfold ymd2ord, days_before_month. rewrite Hleap. lia.
Qed.

(** ** Dates as the tools exchange them *)

Lemma strptime_midnight s d : strptime_ymd s = Returns d -> dt_micros d = 0.
Proof.
  unfold strptime_ymd.
  destruct (regex_matches _) as [|[[[y m] dd] [|? ?]] ?]; try discriminate.
  destruct (check_date_fields y m dd); [|discriminate].
  now intros [= <-].
Qed.

Lemma get_time_difference_parsed a b da db :
  strptime_ymd a = Returns da -> strptime_ymd b = Returns db ->
  get_time_difference a b = Returns (toordinal db - toordinal da).
Proof.
  intros Ha Hb. unfold get_time_difference. rewrite Ha, Hb. cbn.
  rewrite sub_days_midnight; eauto using strptime_midnight.
Qed.

Lemma get_time_difference_texts a b :
  check_date_fields (dt_year a) (dt_month a) (dt_day a) = true ->
  check_date_fields (dt_year b) (dt_month b) (dt_day b) = true ->
  get_time_difference (strftime_ymd a) (strftime_ymd b)
  = Returns (toordinal b - toordinal a).
Proof.
  intros Ha Hb.
  rewrite (get_time_difference_parsed _ _ _ _ (strptime_strftime a Ha)
             (strptime_strftime b Hb)).
  reflexivity.
Qed.

Lemma get_time_difference_rejected a b e :
  strptime_ymd a = Raises e \/ strptime_ymd b = Raises e ->
  get_time_difference a b = Returns 0.
Proof.
  unfold get_time_difference. intros [H|H].
  - rewrite H. cbn. now rewrite (strptime_ymd_raises_value_error _ _ H).
  - destruct (strptime_ymd a) as [da|ea] eqn:Ea; cbn.
    + rewrite H. cbn. now rewrite (strptime_ymd_raises_value_error _ _ H).
    + now rewrite (strptime_ymd_raises_value_error _ _ Ea).
Qed.

(** X1: two readings of [get_current_date] are texts of the form
    YYYY-MM-DD, and [get_time_difference] applied to them returns the
    number of calendar days between the two clock readings, whatever the
    time of day of either; readings on the same day give 0. *)
Theorem current_dates_difference env t1 t2 :
  valid_datetime (clock env (clock_reads t1)) ->
  valid_datetime (clock env (clock_reads t2)) ->
  exists s1 s2,
    fst (get_current_date env t1) = Returns s1
    /\ fst (get_current_date env t2) = Returns s2
    /\ is_ymd_form s1 = true
    /\ get_time_difference s1 s2
       = Returns (toordinal (clock env (clock_reads t2))
                  - toordinal (clock env (clock_reads t1)))
    /\ (dt_year (clock env (clock_reads t1)) = dt_year (clock env (clock_reads t2)) ->
        dt_month (clock env (clock_reads t1)) = dt_month (clock env (clock_reads t2)) ->
        dt_day (clock env (clock_reads t1)) = dt_day (clock env (clock_reads t2)) ->
        get_time_difference s1 s2 = Returns 0).
Proof.
  intros [H1 _] [H2 _]. do 2 eexists. split; [reflexivity|]. split; [reflexivity|].
  split; [apply strftime_ymd_form|].
  rewrite (get_time_difference_texts _ _ H1 H2). split; [reflexivity|].
  intros Hy Hm Hd. unfold toordinal. rewrite Hy, Hm, Hd. f_equal. lia.
Qed.

Lemma current_dates_difference_witness :
  exists s1 s2,
    fst (get_current_date Fixture.passing_days
                          (mkTrace 0 [])) = Returns s1
    /\ fst (get_current_date Fixture.passing_days
                             (mkTrace 5 [])) = Returns s2
    /\ get_time_difference s1 s2 = Returns 5.
Proof.
  destruct (current_dates_difference
              Fixture.passing_days
              (mkTrace 0 []) (mkTrace 5 []))
    as (s1 & s2 & E1 & E2 & _ & Hd & _).
  - split; [reflexivity|]. cbn. unfold day_us. lia.
  - split; [reflexivity|]. cbn. unfold day_us. lia.
  - exists s1, s2. split; [exact E1|]. split; [exact E2|]. exact Hd.
Defined.

(** X2: [get_time_difference] is antisymmetric: swapping the two texts
    negates the result (both are 0 as soon as one text is rejected); a
    text against itself gives 0; and over three accepted texts the
    differences add up. *)
Theorem get_time_difference_antisymmetric a b :
  (exists n, get_time_difference a b = Returns n
             /\ get_time_difference b a = Returns (- n))
  /\ get_time_difference a a = Returns 0
  /\ (forall c da db dc,
         strptime_ymd a = Returns da -> strptime_ymd b = Returns db ->
         strptime_ymd c = Returns dc ->
         exists n1 n2,
           get_time_difference a b = Returns n1
           /\ get_time_difference b c = Returns n2
           /\ get_time_difference a c = Returns (n1 + n2)).
Proof.
  assert (Hraise : forall s e, strptime_ymd s = Raises e ->
                     forall s', get_time_difference s s' = Returns 0
                                /\ get_time_difference s' s = Returns 0).
  { intros s e He s'.
    split; apply (get_time_difference_rejected _ _ e); auto. }
  split; [|split].
  - destruct (strptime_ymd a) as [da|ea] eqn:Ea.
    + destruct (strptime_ymd b) as [db|eb] eqn:Eb.
      * exists (toordinal db - toordinal da).
        rewrite (get_time_difference_parsed _ _ _ _ Ea Eb),
          (get_time_difference_parsed _ _ _ _ Eb Ea).
        split; [reflexivity|]. f_equal. lia.
      * exists 0. destruct (Hraise b eb Eb a) as [H1 H2]. now rewrite H1, H2.
    + exists 0. destruct (Hraise a ea Ea b) as [H1 H2]. now rewrite H1, H2.
  - destruct (strptime_ymd a) as [da|ea] eqn:Ea.
    + rewrite (get_time_difference_parsed _ _ _ _ Ea Ea). f_equal. lia.
    + apply (Hraise a ea Ea a).
  - intros c da db dc Ha Hb Hc. do 2 eexists.
    rewrite (get_time_difference_parsed _ _ _ _ Ha Hb),
      (get_time_difference_parsed _ _ _ _ Hb Hc),
      (get_time_difference_parsed _ _ _ _ Ha Hc).
    repeat split. f_equal. lia.
Qed.

Lemma get_time_difference_antisymmetric_witness :
  get_time_difference "2025-11-20" "2026-01-05" = Returns 46
  /\ get_time_difference "2026-01-05" "2025-11-20" = Returns (-46)
  /\ exists n1 n2,
      get_time_difference "2025-11-20" "2025-12-01" = Returns n1
      /\ get_time_difference "2025-12-01" "2026-01-05" = Returns n2
      /\ get_time_difference "2025-11-20" "2026-01-05" = Returns (n1 + n2).
Proof.
  split; [reflexivity|]. split; [reflexivity|].
  apply (proj2 (proj2 (get_time_difference_antisymmetric "2025-11-20" "2025-12-01"))
           "2026-01-05" (mkDateTime 2025 11 20 0) (mkDateTime 2025 12 1 0)
           (mkDateTime 2026 1 5 0)); reflexivity.
Defined.

Lemma strftime_leb a b :
  check_date_fields (dt_year a) (dt_month a) (dt_day a) = true ->
  check_date_fields (dt_year b) (dt_month b) (dt_day b) = true ->
  (String.leb (strftime_ymd a) (strftime_ymd b) = true
   <-> toordinal a <= toordinal b).
Proof.
  intros Ha Hb.
  pose proof (ltb_not_leb (strftime_ymd b) (strftime_ymd a)) as H1.
  pose proof (strftime_ltb b a Hb Ha) as H2.
  destruct (String.leb (strftime_ymd a) (strftime_ymd b)) eqn:E.
  - split; [intros _|reflexivity].
    destruct (Z_le_gt_dec (toordinal a) (toordinal b)) as [|Hgt]; trivial.
    assert (Hlt : toordinal b < toordinal a) by lia.
    apply H2, H1 in Hlt. discriminate.
  - split; [discriminate|]. intros Hle.
    assert (Hlt : String.ltb (strftime_ymd b) (strftime_ymd a) = true) by now apply H1.
    apply H2 in Hlt. lia.
Qed.

(** X3: for two calendar dates written by [strftime("%Y-%m-%d")], the
    order of the texts, which is what the store compares, is the order of
    the days: the first text is smaller exactly when [get_time_difference]
    from it to the second is positive, not greater exactly when the
    difference is not negative, and the texts are equal exactly when the
    difference is 0. *)
Theorem date_text_order_is_calendar_order a b :
  check_date_fields (dt_year a) (dt_month a) (dt_day a) = true ->
  check_date_fields (dt_year b) (dt_month b) (dt_day b) = true ->
  exists n,
    get_time_difference (strftime_ymd a) (strftime_ymd b) = Returns n
    /\ (String.ltb (strftime_ymd a) (strftime_ymd b) = true <-> 0 < n)
    /\ (String.leb (strftime_ymd a) (strftime_ymd b) = true <-> 0 <= n)
    /\ (strftime_ymd a = strftime_ymd b <-> n = 0).
Proof.
  intros Ha Hb. exists (toordinal b - toordinal a).
  split; [now apply get_time_difference_texts|].
  rewrite (strftime_ltb a b Ha Hb), (strftime_leb a b Ha Hb).
  split; [lia|]. split; [lia|].
  split.
  - intros E.
    pose proof (strftime_leb a b Ha Hb) as H1.
    pose proof (strftime_leb b a Hb Ha) as H2.
    rewrite E in H1. rewrite <- E in H2 at 1. rewrite E in H2.
    assert (Hrefl : String.leb (strftime_ymd b) (strftime_ymd b) = true).
    { unfold String.leb. now rewrite string_compare_refl. }
    apply H1 in Hrefl as H3. apply H2 in Hrefl. lia.
  - intros Hn.
    apply String.leb_antisym.
    + apply (strftime_leb a b Ha Hb). lia.
    + apply (strftime_leb b a Hb Ha). lia.
Qed.

Lemma date_text_order_is_calendar_order_witness :
  exists n,
    get_time_difference "2025-11-20" "2026-01-05" = Returns n
    /\ (String.ltb "2025-11-20" "2026-01-05" = true <-> 0 < n).
Proof.
  destruct (date_text_order_is_calendar_order (mkDateTime 2025 11 20 7)
              (mkDateTime 2026 1 5 9) eq_refl eq_refl) as (n & E & Hlt & _).
  exists n. split; [exact E|exact Hlt].
Defined.

Lemma add_days_spec d n d' :
  check_date_fields (dt_year d) (dt_month d) (dt_day d) = true ->
  add_days d n = Returns d' ->
  check_date_fields (dt_year d') (dt_month d') (dt_day d') = true
  /\ toordinal d' = toordinal d + n
  /\ dt_micros d' = dt_micros d.
Proof.
  intros Hd. unfold add_days.
  destruct (Z.abs n <=? MAX_DELTA_DAYS); [|discriminate].
  destruct ((0 <? toordinal d + n) && (toordinal d + n <=? MAXORDINAL)) eqn:E;
    [|discriminate].
  apply andb_true_iff in E as [E1 E2]. apply Z.ltb_lt in E1. apply Z.leb_le in E2.
  destruct (ord2ymd_spec (toordinal d + n) ltac:(lia)) as (y & m & dd & -> & Hc & Ho).
  intros [= <-]. cbn. repeat split; trivial.
Qed.

Lemma toordinal_bounds d :
  check_date_fields (dt_year d) (dt_month d) (dt_day d) = true ->
  1 <= toordinal d <= MAXORDINAL.
Proof.
  intros Hc. apply check_date_fields_bounds in Hc as (Hy & Hm & Hd).
  unfold toordinal, ymd2ord, MAXORDINAL.
  pose proof (day_of_year_bounds _ _ _ Hm Hd) as Hb.
  pose proof (days_before_year_mono 1 (dt_year d) ltac:(lia)) as H1.
  pose proof (days_before_year_mono (dt_year d + 1) 10000 ltac:(lia)) as H2.
  rewrite days_before_year_succ in H2.
  change (days_before_year 1) with 0 in H1.
  change (days_before_year 10000) with 3652059 in H2.
  destruct (is_leap (dt_year d)); lia.
Qed.

Lemma add_days_returns d n :
  check_date_fields (dt_year d) (dt_month d) (dt_day d) = true ->
  ((exists d', add_days d n = Returns d')
   <-> 1 <= toordinal d + n <= MAXORDINAL).
Proof.
  intros Hc. pose proof (toordinal_bounds d Hc) as Hb. unfold add_days.
  destruct (Z.abs n <=? MAX_DELTA_DAYS) eqn:Ea.
  - destruct ((0 <? toordinal d + n) && (toordinal d + n <=? MAXORDINAL)) eqn:E.
    + apply andb_true_iff in E as [E1 E2]. apply Z.ltb_lt in E1. apply Z.leb_le in E2.
      split; [lia|]. intros _. destruct (ord2ymd _) as [[y m] dd]. eauto.
    + split; [intros [d' [=]]|]. intros H. exfalso.
      apply andb_false_iff in E as [E|E];
        [apply Z.ltb_ge in E|apply Z.leb_gt in E]; lia.
  - split; [intros [d' [=]]|]. intros H. exfalso.
    apply Z.leb_gt in Ea. unfold MAX_DELTA_DAYS, MAXORDINAL in *. lia.
Qed.

(** ** Windows of the date queries *)

Lemma fetch_sorted_exact db q cols date order_by t :
  shape q = Select cols ->
  (forall cp, In cp (Store.joined db) -> Store.matching q cp = true ->
     exists s, Py.get (Store.project cols cp) date (VStr "") = Returns (VStr s)) ->
  exists items,
    fetch_sorted (Store.serve Store.healthy db) q date order_by t
    = (Returns items, mkTrace (clock_reads t) (issued t ++ [q]))
    /\ Permutation items
         (map (Store.project cols) (filter (Store.matching q) (Store.joined db))).
Proof.
  intros Hshape Hkey.
  assert (Hq : Store.serve Store.healthy db q
               = Returns (map (Store.project cols)
                              (filter (Store.matching q) (Store.joined db)))).
  { unfold Store.serve, Store.healthy, Store.answer. now rewrite Hshape. }
  destruct (fetch_sorted_run (Store.serve Store.healthy db) q date order_by t)
    as (items & E & H).
  exists items. split; [exact E|].
  destruct H as [[_ Hnever]|(rs & Hrs & Hs)].
  - exfalso.
    destruct (sort_text_keys (fun x => Py.get x date (VStr ""))
                (String.eqb order_by "latest")
                (map (Store.project cols)
                     (filter (Store.matching q) (Store.joined db)))) as [l Hl].
    + intros x Hx. apply in_map_iff in Hx as (cp & <- & Hcp).
      apply filter_In in Hcp as [Hin Hm]. now apply Hkey.
    + exact (Hnever _ Hq l Hl).
  - rewrite Hq in Hrs. injection Hrs as <-.
    apply sort_spec in Hs as [Hp _]. now symmetry.
Qed.

Lemma expiring_soon_overflow env k days organization order_by t e :
  add_days (clock env (clock_reads t)) days = Raises e ->
  query_documents_expiring_soon env (Some k) days organization order_by t
  = (Raises e, mkTrace (S (S (clock_reads t))) (issued t)).
Proof.
  intros He. unfold query_documents_expiring_soon.
  cbn [auto_initialize Run.bind Run.ret Run.now Run.lift clock_reads issued].
  now rewrite He.
Qed.

Lemma add_days_overflow d n e :
  add_days d n = Raises e -> exn_kind e = OverflowError.
Proof.
  unfold add_days.
  destruct (Z.abs n <=? MAX_DELTA_DAYS); [|now intros [= <-]].
  destruct ((0 <? toordinal d + n) && (toordinal d + n <=? MAXORDINAL));
    [|now intros [= <-]].
  destruct (ord2ymd _) as [[y m] dd]. discriminate.
Qed.



Lemma expired_matching_eq current_date organization cp :
  Store.matching (expired_documents_query current_date organization) cp
  = expired_before current_date cp && of_organization organization cp.
Proof.
  unfold Store.matching, expired_documents_query, with_organization, expired_before,
    of_organization, text_of.
  destruct organization as [o|]; cbn [Py.truthy_str];
    [destruct (String.eqb o "")|]; cbn;
    destruct (Store.field (snd cp) "expirationDate") as [[| e | | |]|];
    destruct (Store.field (fst cp) "permitType") as [[| type | | |]|];
    cbn; rewrite ?andb_false_r; trivial;
    try (destruct (Store.field (fst cp) "organization") as [[| o' | | |]|]; cbn);
    rewrite ?andb_false_r, ?andb_true_r; trivial;
    rewrite ?test_lt, ?string_compare_eqb;
    destruct (String.eqb type "PLO"), (String.ltb e current_date); cbn; trivial.
Qed.

Lemma expired_shape current_date organization :
  shape (expired_documents_query current_date organization) = Select expiry_columns.
Proof.
  unfold expired_documents_query, with_organization.
  now destruct (Py.truthy_str organization).
Qed.

Lemma expired_before_key current_date cp :
  expired_before current_date cp = true ->
  exists e, Py.get (Store.project expiry_columns cp) "expirationDate" (VStr "")
            = Returns (VStr e).
Proof.
  unfold expired_before, text_of.
  pose proof (project_field expiry_columns cp (p_ "expirationDate")
                expiry_columns_distinct ltac:(cbn; tauto)) as Hd.
  cbn [Store.ref_name Store.deref] in Hd.
  destruct (Store.field (fst cp) "permitType") as [[| type | | |]|];
    try discriminate.
  destruct (Store.field (snd cp) "expirationDate") as [[| e | | |]|];
    try discriminate.
  intros _. exists e. unfold Store.project in *. cbn [Store.field] in Hd.
  unfold Py.get. now rewrite Hd.
Qed.

(** What a record of the expiry listings shows of the pair it was
    selected from. *)
Lemma expiry_record_shows cp :
  text_of (Store.project expiry_columns cp) "permitType"
  = text_of (fst cp) "permitType"
  /\ text_of (Store.project expiry_columns cp) "organization"
     = text_of (fst cp) "organization"
  /\ text_of (Store.project expiry_columns cp) "expirationDate"
     = text_of (snd cp) "expirationDate".
Proof.
  unfold text_of.
  show_column expiry_columns cp (c_ "permitType") expiry_columns_distinct.
  show_column expiry_columns cp (c_ "organization") expiry_columns_distinct.
  show_column expiry_columns cp (p_ "expirationDate") expiry_columns_distinct.
  auto.
Qed.

Lemma expired_exact env db organization order_by t :
  exists items,
    query_expired_documents env (Some (Store.serve Store.healthy db)) organization
                            order_by t
    = (Returns items,
       mkTrace (S (clock_reads t))
               (issued t ++ [expired_documents_query
                               (strftime_ymd (clock env (clock_reads t)))
                               organization]))
    /\ Permutation items
         (map (Store.project expiry_columns)
              (filter (fun cp =>
                         expired_before (strftime_ymd (clock env (clock_reads t))) cp
                         && of_organization organization cp)
                      (Store.joined db))).
Proof.
  rewrite (expired_unfold env (Some (Store.serve Store.healthy db))
             (Store.serve Store.healthy db) organization order_by t eq_refl).
  destruct (fetch_sorted_exact db
              (expired_documents_query (strftime_ymd (clock env (clock_reads t)))
                                       organization)
              expiry_columns "expirationDate" order_by
              (mkTrace (S (clock_reads t)) (issued t)))
    as (items & E & Hp).
  - apply expired_shape.
  - intros cp _ Hm. rewrite expired_matching_eq in Hm.
    apply andb_true_iff in Hm as [Hm _]. eapply expired_before_key; exact Hm.
  - exists items. split; [exact E|].
    rewrite Hp. apply Permutation_map.
    rewrite (filter_ext _ _ (expired_matching_eq _ organization)). reflexivity.
Qed.

Lemma expiring_soon_exact env db days organization order_by t future :
  add_days (clock env (clock_reads t)) days = Returns future ->
  exists items,
    query_documents_expiring_soon env (Some (Store.serve Store.healthy db)) days
                                  organization order_by t
    = (Returns items,
       mkTrace (S (S (clock_reads t)))
               (issued t ++ [expiring_soon_query
                               (strftime_ymd (clock env (clock_reads t)))
                               (strftime_ymd future) organization]))
    /\ Permutation items
         (map (Store.project expiry_columns)
              (filter (fun cp =>
                         expires_within (strftime_ymd (clock env (clock_reads t)))
                                        (strftime_ymd future) cp
                         && of_organization organization cp)
                      (Store.joined db))).
Proof.
  intros Hf.
  rewrite (expiring_soon_unfold env (Some (Store.serve Store.healthy db))
             (Store.serve Store.healthy db) days organization order_by t future
             eq_refl Hf).
  destruct (fetch_sorted_exact db
              (expiring_soon_query (strftime_ymd (clock env (clock_reads t)))
                                   (strftime_ymd future) organization)
              expiry_columns "expirationDate" order_by
              (mkTrace (S (S (clock_reads t))) (issued t)))
    as (items & E & Hp).
  - apply expiring_soon_shape.
  - intros cp _ Hm. rewrite expiring_soon_matching in Hm.
    apply andb_true_iff in Hm as [Hm _]. eapply expires_within_key; exact Hm.
  - exists items. split; [exact E|].
    rewrite Hp. apply Permutation_map.
    rewrite (filter_ext _ _ (expiring_soon_matching _ _ organization)). reflexivity.
Qed.

(** X5: read by the calendar, the expired listing over a store that
    answers is exact for expiration dates written as YYYY-MM-DD: a listed
    record with such a date lies a negative number of days from today, as
    [get_time_difference] counts, and every PLO entry of the organization
    asked for whose date lies a negative number of days from today is
    listed.  A permit that expires today is therefore not listed. *)
Theorem expired_listing_by_calendar env db organization order_by t :
  is_date (clock env (clock_reads t)) = true ->
  let current_date := strftime_ymd (clock env (clock_reads t)) in
  exists items,
    fst (query_expired_documents env (Some (Store.serve Store.healthy db))
           organization order_by t) = Returns items
    /\ (forall item d,
           In item items ->
           text_of item "expirationDate" = Some (strftime_ymd d) ->
           is_date d = true ->
           exists n, get_time_difference current_date (strftime_ymd d) = Returns n
                     /\ n < 0)
    /\ (forall cp d n,
           In cp (Store.joined db) ->
           text_of (fst cp) "permitType" = Some "PLO" ->
           of_organization organization cp = true ->
           text_of (snd cp) "expirationDate" = Some (strftime_ymd d) ->
           is_date d = true ->
           get_time_difference current_date (strftime_ymd d) = Returns n ->
           n < 0 ->
           In (Store.project expiry_columns cp) items).
Proof.
  intros Hd current_date.
  destruct (expired_exact env db organization order_by t) as (items & E & Hp).
  fold current_date in Hp.
  exists items. split; [now rewrite E|]. split.
  - intros item d Hin Hitem Hvalid.
    apply (Permutation_in _ Hp) in Hin.
    apply in_map_iff in Hin as (cp & <- & Hcp).
    apply filter_In in Hcp as [_ Hm]. apply andb_true_iff in Hm as [Hm _].
    destruct (expiry_record_shows cp) as (_ & _ & Hshow).
    rewrite Hshow in Hitem. unfold expired_before in Hm. rewrite Hitem in Hm.
    destruct (text_of (fst cp) "permitType"); [|discriminate].
    apply andb_true_iff in Hm as [_ Hlt].
    unfold current_date in *.
    rewrite (get_time_difference_texts _ _ Hd Hvalid).
    eexists. split; [reflexivity|].
    apply (strftime_ltb d _ Hvalid Hd) in Hlt. lia.
  - intros cp d n Hin Hplo Horg He Hvalid Hn Hneg.
    apply (Permutation_in _ (Permutation_sym Hp)).
    apply in_map, filter_In. split; [exact Hin|].
    rewrite Horg, andb_true_r. unfold expired_before. rewrite Hplo, He. cbn.
    unfold current_date in *.
    rewrite (get_time_difference_texts _ _ Hd Hvalid) in Hn. injection Hn as <-.
    apply (strftime_ltb d _ Hvalid Hd). lia.
Qed.

Lemma expired_listing_by_calendar_witness :
  exists items,
    fst (query_expired_documents Sample.env (Some Sample.store) None "latest" start)
    = Returns items
    /\ In (Store.project expiry_columns
             (nth 1 (Store.joined Sample.db) (VNull, VNull))) items.
Proof.
  destruct (expired_listing_by_calendar Sample.env Sample.db None "latest" start
              eq_refl) as (items & E & _ & Hin).
  exists items. split; [exact E|].
  apply (Hin _ (mkDateTime 2025 1 1 0) (-323)); try reflexivity; cbn; auto.
Defined.



(** X7: on the same calendar day no record is both in the expired
    listing and in the expiring-soon listing, whatever the look-ahead, the
    organizations, the sort orders and the failures of the stores. *)
Theorem expired_and_expiring_soon_disjoint env faults db faults' db'
        organization order_by organization' order_by' days t t' items items' :
  strftime_ymd (clock env (clock_reads t)) = strftime_ymd (clock env (clock_reads t')) ->
  fst (query_expired_documents env (Some (Store.serve faults db)) organization
         order_by t) = Returns items ->
  fst (query_documents_expiring_soon env (Some (Store.serve faults' db')) days
         organization' order_by' t') = Returns items' ->
  forall item, In item items -> In item items' -> False.
Proof.
  intros Hsame E E' item Hin Hin'.
  rewrite (expired_unfold env (Some (Store.serve faults db))
             (Store.serve faults db) organization order_by t eq_refl) in E.
  destruct (fetch_sorted_members faults db _ _ _ _ _ _
              (expired_shape _ _) E item Hin) as (cp & _ & Hm & ->).
  rewrite expired_matching_eq in Hm. apply andb_true_iff in Hm as [Hm _].
  destruct (add_days (clock env (clock_reads t')) days) as [future|e] eqn:Hf.
  - rewrite (expiring_soon_unfold env (Some (Store.serve faults' db'))
               (Store.serve faults' db') days organization' order_by' t' future
               eq_refl Hf) in E'.
    destruct (fetch_sorted_members faults' db' _ _ _ _ _ _
                (expiring_soon_shape _ _ _) E' _ Hin') as (cp' & _ & Hm' & Heq).
    rewrite expiring_soon_matching in Hm'. apply andb_true_iff in Hm' as [Hm' _].
    destruct (expiry_record_shows cp) as (_ & _ & Hs).
    destruct (expiry_record_shows cp') as (_ & _ & Hs').
    rewrite <- Heq, Hs in Hs'.
    unfold expired_before in Hm. unfold expires_within in Hm'.
    rewrite <- Hs', <- Hsame in Hm'.
    destruct (text_of (fst cp) "permitType"); [|discriminate].
    destruct (text_of (fst cp') "permitType"); [|discriminate].
    destruct (text_of (snd cp) "expirationDate") as [e0|]; [|discriminate].
    apply andb_true_iff in Hm as [_ Hlt].
    apply andb_true_iff in Hm' as [Hm' _]. apply andb_true_iff in Hm' as [_ Hle].
    apply ltb_not_leb in Hlt. congruence.
  - rewrite (expiring_soon_overflow env _ days organization' order_by' t' e Hf) in E'.
    discriminate.
Qed.

Lemma expired_and_expiring_soon_disjoint_witness :
  exists items items',
    fst (query_expired_documents Sample.env (Some Sample.store) None "latest" start)
    = Returns items
    /\ fst (query_documents_expiring_soon Sample.env (Some Sample.store) 30 None
              "earliest" start) = Returns items'
    /\ items <> [] /\ items' <> []
    /\ forall item, In item items -> In item items' -> False.
Proof.
  eexists. eexists. split; [reflexivity|]. split; [reflexivity|].
  split; [discriminate|]. split; [discriminate|].
  apply (expired_and_expiring_soon_disjoint Sample.env Store.healthy Sample.db
           Store.healthy Sample.db None "latest" None "earliest" 30 start start);
    reflexivity.
Defined.

(** ** The organization filter *)

Lemma holds_organization params c p o :
  Py.dict_get params "@organization" = Some (VStr o) ->
  Store.holds params c (Some p)
              (Cmp (Field (c_ "organization")) OpEq (Param "@organization")) = true ->
  text_of c "organization" = Some o.
Proof.
  intros Hp H.
  destruct (holds_text_param _ _ _ _ _ _ _ Hp H) as (s & Hs & Ht).
  rewrite string_compare_eqb in Ht. apply String.eqb_eq in Ht as ->.
  unfold text_of. cbn [Store.deref] in Hs. now rewrite Hs.
Qed.

Lemma year_matching_organization cols date permit_type year o operator cp :
  o <> "" ->
  Store.matching (year_query cols date permit_type year (Some o) operator) cp = true ->
  text_of (fst cp) "organization" = Some o.
Proof.
  intros Ho.
  assert (Horg : Py.truthy_str (Some o) = true).
  { cbn. now apply negb_true_iff, String.eqb_neq. }
  unfold Store.matching, year_query, year_conditions. rewrite Horg.
  destruct (Py.truthy_str permit_type);
    destruct (Py.truthy_str operator && Py.truthy_int year);
    try destruct (match operator with
                  | Some o0 => String.eqb o0 "greater"
                  | None => false
                  end);
    try destruct (match operator with
                  | Some o0 => String.eqb o0 "less"
                  | None => false
                  end);
    cbn [conditions parameters app]; rewrite ?forallb_app;
    cbn [forallb]; rewrite ?andb_true_iff; intros H; decompose [and] H; clear H;
    match goal with
    | Hc : Store.holds _ _ _ (Cmp (Field (c_ "organization")) _ _) = true |- _ =>
        eapply holds_organization; [|exact Hc]; reflexivity
    end.
Qed.

Lemma year_record_shows_organization cols cp :
  NoDup (map Store.ref_name cols) -> In (c_ "organization") cols ->
  text_of (Store.project cols cp) "organization" = text_of (fst cp) "organization".
Proof.
  intros Hd Hin. unfold text_of.
  pose proof (project_field cols cp (c_ "organization") Hd Hin) as H.
  cbn [Store.ref_name Store.deref] in H. now rewrite H.
Qed.

(** X8: when a non-empty organization is asked for, every record
    returned by the two year queries, the expired query and the
    expiring-soon query shows exactly that organization. *)
Theorem organization_filter env faults db permit_type year organization operator
        order_by days t item :
  organization <> "" ->
  (forall items,
      fst (query_documents_by_issue_year env (Some (Store.serve faults db))
             permit_type year (Some organization) operator order_by t)
      = Returns items ->
      In item items -> text_of item "organization" = Some organization)
  /\ (forall items,
         fst (query_documents_by_expiration_year env (Some (Store.serve faults db))
                permit_type year (Some organization) operator order_by t)
         = Returns items ->
         In item items -> text_of item "organization" = Some organization)
  /\ (forall items,
         fst (query_expired_documents env (Some (Store.serve faults db))
                (Some organization) order_by t) = Returns items ->
         In item items -> text_of item "organization" = Some organization)
  /\ (forall items,
         fst (query_documents_expiring_soon env (Some (Store.serve faults db)) days
                (Some organization) order_by t) = Returns items ->
         In item items -> text_of item "organization" = Some organization).
Proof.
  intros Ho.
  assert (Horg : forall cp, of_organization (Some organization) cp = true ->
                            text_of (fst cp) "organization" = Some organization).
  { intros cp. unfold of_organization.
    destruct (String.eqb organization "") eqn:E;
      [apply String.eqb_eq in E; contradiction|].
    destruct (text_of (fst cp) "organization") as [o'|]; [|discriminate].
    intros H. apply String.eqb_eq in H. now subst. }
  repeat split; intros items E Hin.
  - rewrite (issue_year_unfold env (Some (Store.serve faults db))
               (Store.serve faults db) permit_type year (Some organization)
               operator order_by t eq_refl) in E.
    destruct (fetch_sorted_members faults db _ _ _ _ _ _
                (year_query_shape _ _ _ _ _ _) E item Hin) as (cp & _ & Hm & ->).
    rewrite year_record_shows_organization;
      [|exact issue_year_columns_distinct|cbn; tauto].
    eapply year_matching_organization; eauto.
  - rewrite (expiration_year_unfold env (Some (Store.serve faults db))
               (Store.serve faults db) permit_type year (Some organization)
               operator order_by t eq_refl) in E.
    destruct (fetch_sorted_members faults db _ _ _ _ _ _
                (year_query_shape _ _ _ _ _ _) E item Hin) as (cp & _ & Hm & ->).
    rewrite year_record_shows_organization;
      [|exact expiration_year_columns_distinct|cbn; tauto].
    eapply year_matching_organization; eauto.
  - rewrite (expired_unfold env (Some (Store.serve faults db))
               (Store.serve faults db) (Some organization) order_by t eq_refl) in E.
    destruct (fetch_sorted_members faults db _ _ _ _ _ _
                (expired_shape _ _) E item Hin) as (cp & _ & Hm & ->).
    rewrite expired_matching_eq in Hm. apply andb_true_iff in Hm as [_ Hm].
    destruct (expiry_record_shows cp) as (_ & -> & _). now apply Horg.
  - destruct (add_days (clock env (clock_reads t)) days) as [future|e] eqn:Hf.
    + rewrite (expiring_soon_unfold env (Some (Store.serve faults db))
                 (Store.serve faults db) days (Some organization) order_by t future
                 eq_refl Hf) in E.
      destruct (fetch_sorted_members faults db _ _ _ _ _ _
                  (expiring_soon_shape _ _ _) E item Hin) as (cp & _ & Hm & ->).
      rewrite expiring_soon_matching in Hm. apply andb_true_iff in Hm as [_ Hm].
      destruct (expiry_record_shows cp) as (_ & -> & _). now apply Horg.
    + rewrite (expiring_soon_overflow env _ days (Some organization) order_by t e Hf)
        in E.
      discriminate.
Qed.

Lemma organization_filter_witness :
  exists items,
    fst (query_documents_by_issue_year Sample.env (Some Sample.store) None None
           (Some "PPN") None "latest" start) = Returns items
    /\ List.length items = 2%nat
    /\ forall item, In item items -> text_of item "organization" = Some "PPN".
Proof.
  eexists. split; [reflexivity|]. split; [reflexivity|].
  intros item Hin.
  destruct (organization_filter Sample.env Store.healthy Sample.db None None "PPN"
              None "latest" 0 start item) as (H & _).
  - discriminate.
  - exact (H _ eq_refl Hin).
Defined.

(** ** Arguments that switch a filter off *)

Lemma year_conditions_no_year date permit_type year organization operator :
  Py.truthy_int year = false \/ Py.truthy_str operator = false ->
  year_conditions date permit_type year organization operator
  = year_conditions date permit_type None organization None.
Proof.
  unfold year_conditions.
  intros [H|H]; rewrite H; rewrite ?andb_false_r; reflexivity.
Qed.

Lemma year_conditions_other_operator date permit_type year organization o :
  o <> "greater" -> o <> "less" -> o <> "" ->
  year_conditions date permit_type year organization (Some o)
  = year_conditions date permit_type year organization (Some "equal").
Proof.
  intros Hg Hl He. unfold year_conditions.
  apply String.eqb_neq in Hg, Hl, He.
  cbn [Py.truthy_str]. rewrite Hg, Hl, He. reflexivity.
Qed.

(** X9: the year queries filter by year only when both a year other
    than 0 and a non-empty operator are given: otherwise the call behaves
    like the one without year and operator; and an operator other than
    ['greater'] and ['less'] behaves like ['equal']. *)
Theorem year_filter_edge_cases env container permit_type year organization
        operator order_by :
  (Py.truthy_int year = false \/ Py.truthy_str operator = false ->
   query_documents_by_issue_year env container permit_type year organization
                                 operator order_by
   = query_documents_by_issue_year env container permit_type None organization
                                   None order_by
   /\ query_documents_by_expiration_year env container permit_type year
                                         organization operator order_by
      = query_documents_by_expiration_year env container permit_type None
                                           organization None order_by)
  /\ (forall o,
         operator = Some o -> o <> "greater" -> o <> "less" -> o <> "" ->
         query_documents_by_issue_year env container permit_type year organization
                                       operator order_by
         = query_documents_by_issue_year env container permit_type year
                                         organization (Some "equal") order_by
         /\ query_documents_by_expiration_year env container permit_type year
                                               organization operator order_by
            = query_documents_by_expiration_year env container permit_type year
                                                 organization (Some "equal")
                                                 order_by).
Proof.
  split.
  - intros H. unfold query_documents_by_issue_year,
      query_documents_by_expiration_year.
    rewrite !(year_conditions_no_year _ permit_type year organization operator H).
    split; reflexivity.
  - intros o -> Hg Hl He. unfold query_documents_by_issue_year,
      query_documents_by_expiration_year.
    rewrite !(year_conditions_other_operator _ permit_type year organization o
                Hg Hl He).
    split; reflexivity.
Qed.

Lemma year_filter_edge_cases_witness :
  fst (query_documents_by_issue_year Sample.env (Some Sample.store) None (Some 0)
         None (Some "equal") "latest" start)
  = fst (query_documents_by_issue_year Sample.env (Some Sample.store) None None
           None None "latest" start)
  /\ fst (query_documents_by_issue_year Sample.env (Some Sample.store) None
            (Some 2024) None (Some "before") "latest" start)
     = fst (query_documents_by_issue_year Sample.env (Some Sample.store) None
              (Some 2024) None (Some "equal") "latest" start).
Proof.
  destruct (year_filter_edge_cases Sample.env (Some Sample.store) None (Some 0)
              None (Some "equal") "latest") as [H0 _].
  destruct (year_filter_edge_cases Sample.env (Some Sample.store) None (Some 2024)
              None (Some "before") "latest") as [_ H1].
  split.
  - destruct H0 as [-> _]; [left; reflexivity|reflexivity].
  - destruct (H1 "before" eq_refl) as [-> _]; try discriminate. reflexivity.
Defined.

(** ** Letter case of the installation searched for *)

(** X10: the lookup by installation does not depend on the letter case
    of the search text: two non-empty search texts that agree once
    lowered return the same records from a store that answers. *)
Theorem installation_search_ignores_case env db a b permit_type t :
  a <> "" -> b <> "" -> Store.lower a = Store.lower b ->
  fst (query_permits_by_installation env (Some (Store.serve Store.healthy db))
         (Some a) permit_type t)
  = fst (query_permits_by_installation env (Some (Store.serve Store.healthy db))
           (Some b) permit_type t).
Proof.
  intros Ha Hb Hab.
  rewrite (by_installation_run a permit_type env
             (Some (Store.serve Store.healthy db)) (Store.serve Store.healthy db)
             t eq_refl Ha),
    (by_installation_run b permit_type env
       (Some (Store.serve Store.healthy db)) (Store.serve Store.healthy db)
       t eq_refl Hb).
  cbn [fst]. unfold Store.serve, Store.healthy, Store.answer.
  assert (Hshape : forall x, shape (installation_query x permit_type)
                             = Select detail_columns).
  { intros x. unfold installation_query. now destruct (Py.truthy_str permit_type). }
  rewrite !Hshape. do 2 f_equal. apply filter_ext. intros cp.
  pose proof (by_installation_matching a permit_type cp) as H1.
  pose proof (by_installation_matching b permit_type cp) as H2.
  unfold installation_matches in *. rewrite Hab in H1.
  destruct (Store.matching (installation_query a permit_type) cp),
    (Store.matching (installation_query b permit_type) cp); trivial.
  - symmetry. apply H2, H1. reflexivity.
  - apply H1, H2. reflexivity.
Qed.

Lemma installation_search_ignores_case_witness :
  fst (query_permits_by_installation Sample.env (Some Sample.store)
         (Some "SEMARANG") None start)
  = fst (query_permits_by_installation Sample.env (Some Sample.store)
           (Some "semarang") None start)
  /\ exists items,
      fst (query_permits_by_installation Sample.env (Some Sample.store)
             (Some "SEMARANG") None start) = Returns items
      /\ List.length items = 2%nat.
Proof.
  split.
  - apply (installation_search_ignores_case Sample.env Sample.db "SEMARANG"
             "semarang" None start); [discriminate|discriminate|reflexivity].
  - eexists. split; reflexivity.
Defined.

(** ** Records with equal dates *)

Lemma string_ltb_irrefl s : String.ltb s s = false.
Proof. unfold String.ltb. now rewrite string_compare_refl. Qed.

Lemma stable_sort_equal_keys {A} (key : A -> Value) s l :
  (forall x, In x l -> key x = VStr s) -> Py.stable_sort key l = l.
Proof.
  induction l as [|x l IH]; intros H; [reflexivity|].
  cbn [Py.stable_sort fold_right].
  change (fold_right (Py.insert key) [] l) with (Py.stable_sort key l).
  rewrite IH by (intros y Hy; apply H; now right).
  destruct l as [|y l]; [reflexivity|].
  cbn [Py.insert]. rewrite (H x), (H y); cbn; auto.
  now rewrite string_ltb_irrefl.
Qed.

Lemma sort_keyed_equal_keys {A} (key : A -> Value) s reverse l :
  (forall x, In x l -> key x = VStr s) -> Py.sort_keyed key reverse l = l.
Proof.
  intros H. unfold Py.sort_keyed. destruct reverse.
  - rewrite (stable_sort_equal_keys key s).
    + apply rev_involutive.
    + intros x Hx. apply H. now apply in_rev.
  - now apply (stable_sort_equal_keys key s).
Qed.

Lemma sort_equal_keys key s reverse items :
  (forall x, In x items -> key x = Returns (VStr s)) ->
  Py.sort key reverse items = Returns items.
Proof.
  intros H. unfold Py.sort.
  assert (Hk : Exc.mapM key items = Returns (map (fun _ => VStr s) items)).
  { induction items as [|x l IH]; [reflexivity|].
    cbn [Exc.mapM map]. rewrite (H x) by now left. cbn [Exc.bind].
    rewrite IH by (intros y Hy; apply H; now right). reflexivity. }
  rewrite Hk. cbn [Exc.bind].
  assert (Hc : Py.comparable (map (fun _ => VStr s) items) = true).
  { unfold Py.comparable.
    assert (Hs : forallb Py.is_str (map (fun _ : Value => VStr s) items) = true).
    { apply forallb_forall. intros v Hv. apply in_map_iff in Hv as (x & <- & _).
      reflexivity. }
    rewrite Hs. now rewrite orb_true_r. }
  rewrite Hc. f_equal.
  rewrite (sort_keyed_equal_keys fst s).
  - clear. induction items as [|x l IH]; [reflexivity|].
    cbn [map combine snd]. now rewrite IH.
  - intros [k x] Hin. apply in_combine_l in Hin.
    apply in_map_iff in Hin as (y & <- & _). reflexivity.
Qed.

Lemma fetch_sorted_equal_keys db q cols date order_by t s :
  shape q = Select cols ->
  (forall cp, In cp (Store.joined db) -> Store.matching q cp = true ->
     Py.get (Store.project cols cp) date (VStr "") = Returns (VStr s)) ->
  fst (fetch_sorted (Store.serve Store.healthy db) q date order_by t)
  = Returns (map (Store.project cols) (filter (Store.matching q) (Store.joined db))).
Proof.
  intros Hshape Hkey.
  assert (Hq : Store.serve Store.healthy db q
               = Returns (map (Store.project cols)
                              (filter (Store.matching q) (Store.joined db)))).
  { unfold Store.serve, Store.healthy, Store.answer. now rewrite Hshape. }
  assert (Hs : forall reverse,
             Py.sort (fun x => Py.get x date (VStr "")) reverse
                     (map (Store.project cols)
                          (filter (Store.matching q) (Store.joined db)))
             = Returns (map (Store.project cols)
                            (filter (Store.matching q) (Store.joined db)))).
  { intros reverse. apply (sort_equal_keys _ s).
    intros x Hx. apply in_map_iff in Hx as (cp & <- & Hcp).
    apply filter_In in Hcp as [Hin Hm]. now apply Hkey. }
  unfold fetch_sorted, Run.try_except, Run.bind, Run.query_items, Run.lift, Run.ret.
  rewrite Hq. destruct (String.eqb order_by "latest"); now rewrite Hs.
Qed.

Lemma expiry_key cp s :
  text_of (snd cp) "expirationDate" = Some s ->
  Py.get (Store.project expiry_columns cp) "expirationDate" (VStr "")
  = Returns (VStr s).
Proof.
  intros Hs. destruct (expiry_record_shows cp) as (_ & _ & Hshow).
  rewrite Hs in Hshow. unfold text_of, Store.field, Store.project in Hshow.
  unfold Py.get, Store.project.
  destruct (Py.dict_get _ "expirationDate") as [[| e | | |]|]; try discriminate.
  now injection Hshow as ->.
Qed.



(** ** The list of organizations *)

Lemma get_all_organizations_run env k t :
  get_all_organizations env (Some k) t
  = (match k (mkQuery (DistinctValue "organization")
                      [IS_DEFINED (Field (c_ "organization"))] []) with
     | Returns rs => match sorted rs with
                     | Returns l => Returns l
                     | Raises _ => Returns []
                     end
     | Raises _ => Returns []
     end,
     mkTrace (clock_reads t)
             (issued t ++ [mkQuery (DistinctValue "organization")
                                   [IS_DEFINED (Field (c_ "organization"))] []])).
Proof.
  unfold get_all_organizations, auto_initialize, Run.bind, Run.try_except,
    Run.query_items, Run.lift, Run.ret.
  destruct (k _) as [rs|e]; [|reflexivity].
  now destruct (sorted rs).
Qed.

Lemma organizations_answer db :
  Forall organization_is_text db ->
  Store.answer db (mkQuery (DistinctValue "organization")
                           [IS_DEFINED (Field (c_ "organization"))] [])
  = Store.distinct [] (map VStr (organizations_of db)).
Proof.
  intros Hdb. unfold Store.answer. cbn [shape]. f_equal.
  induction Hdb as [|c db Hc Hdb IH]; [reflexivity|].
  unfold organizations_of in *. cbn [filter flat_map].
  unfold Store.matching_doc at 1. cbn [conditions parameters forallb Store.holds
    Store.eval Store.deref].
  unfold text_of at 1.
  destruct (Store.field c "organization") as [v|] eqn:E.
  - cbn [andb flat_map]. rewrite E, IH.
    specialize (Hc v E). destruct v; try discriminate. reflexivity.
  - cbn [andb]. now rewrite IH.
Qed.

Lemma existsb_text s seen :
  existsb (Store.value_eqb (VStr s)) (map VStr seen) = existsb (String.eqb s) seen.
Proof.
  induction seen as [|x xs IH]; [reflexivity|].
  cbn [existsb map]. rewrite IH. reflexivity.
Qed.

Lemma distinct_text seen l :
  Store.distinct (map VStr seen) (map VStr l) = map VStr (first_occurrences seen l).
Proof.
  revert seen. induction l as [|s l IH]; intros seen; [reflexivity|].
  cbn [map Store.distinct first_occurrences]. rewrite existsb_text.
  destruct (existsb (String.eqb s) seen).
  - apply IH.
  - cbn [map]. f_equal. apply (IH (s :: seen)).
Qed.

Lemma existsb_eqb_in s seen : existsb (String.eqb s) seen = true <-> In s seen.
Proof.
  rewrite existsb_exists. split.
  - intros (x & Hx & E). apply String.eqb_eq in E. now subst.
  - intros H. exists s. split; [exact H|apply String.eqb_refl].
Qed.

Lemma first_occurrences_in seen l x :
  In x (first_occurrences seen l) <-> In x l /\ ~ In x seen.
Proof.
  revert seen. induction l as [|s l IH]; intros seen; cbn [first_occurrences].
  - cbn. tauto.
  - destruct (existsb (String.eqb s) seen) eqn:E.
    + apply existsb_eqb_in in E. rewrite IH. cbn. intuition (subst; tauto).
    + assert (Hs : ~ In s seen).
      { intros H. apply existsb_eqb_in in H. congruence. }
      cbn [In]. rewrite (IH (s :: seen)). cbn [In].
      destruct (string_dec s x) as [->|Hne]; intuition congruence.
Qed.

Lemma first_occurrences_nodup seen l : NoDup (first_occurrences seen l).
Proof.
  revert seen. induction l as [|s l IH]; intros seen; cbn [first_occurrences].
  - constructor.
  - destruct (existsb (String.eqb s) seen); [apply IH|].
    constructor; [|apply IH].
    rewrite first_occurrences_in. cbn. tauto.
Qed.

Lemma organizations_of_in db o :
  In o (organizations_of db) <-> exists c, In c db /\ text_of c "organization" = Some o.
Proof.
  unfold organizations_of. rewrite in_flat_map. split.
  - intros (c & Hc & Hin). exists c. split; [exact Hc|].
    destruct (text_of c "organization"); [|contradiction].
    destruct Hin as [->|[]]. reflexivity.
  - intros (c & Hc & E). exists c. split; [exact Hc|]. rewrite E. now left.
Qed.

Lemma sorted_texts names :
  exists names',
    sorted (map VStr names) = Returns (map VStr names')
    /\ Permutation names names'
    /\ Sorted (fun a b => String.leb a b = true) names'.
Proof.
  destruct (sort_text_keys (fun x => Returns x) false (map VStr names)) as [l Hl].
  { intros x Hx. apply in_map_iff in Hx as (s & <- & _). eauto. }
  destruct (sort_spec _ _ _ _ Hl) as (Hp & keys & Hk & Ho).
  apply Permutation_sym, Permutation_map_inv in Hp as (names' & -> & Hp).
  exists names'. split; [exact Hl|]. split; [exact Hp|].
  assert (keys = map VStr names') as ->.
  { clear -Hk. revert keys Hk. induction names' as [|s l IH]; cbn; intros keys.
    - now intros [= <-].
    - destruct (Exc.mapM _ (map VStr l)) as [ks|]; cbn; [|discriminate].
      intros [= <-]. f_equal. now apply IH. }
  cbn in Ho. unfold non_decreasing in Ho. clear -Ho.
  induction names' as [|a l IH]; [constructor|].
  inversion Ho as [|? ? Hs Hh]; subst. constructor; [now apply IH|].
  destruct l as [|b l]; constructor. inversion Hh; subst. assumption.
Qed.

Lemma ascending_strict names :
  NoDup names -> Sorted (fun a b => String.leb a b = true) names ->
  strictly_ascending names.
Proof.
  unfold strictly_ascending.
  induction names as [|a l IH]; intros Hn Hs; [constructor|].
  inversion Hn as [|? ? Ha Hn']; subst. inversion Hs as [|? ? Hs' Hh]; subst.
  constructor; [now apply IH|].
  destruct l as [|b l]; constructor. inversion Hh as [|? ? Hle]; subst.
  apply ltb_not_leb.
  destruct (String.leb b a) eqn:E; [|reflexivity].
  exfalso. apply Ha. left. now apply String.leb_antisym.
Qed.

(** X11: over a store that answers and whose documents state their
    organization, if at all, as text, [get_all_organizations] returns the
    organizations in strictly ascending order, each one once, and a name
    is returned exactly when some document states it. *)
Theorem get_all_organizations_spec env db t :
  Forall organization_is_text db ->
  exists names,
    fst (get_all_organizations env (Some (Store.serve Store.healthy db)) t)
    = Returns (map VStr names)
    /\ strictly_ascending names
    /\ NoDup names
    /\ (forall o, In o names
                  <-> exists c, In c db /\ text_of c "organization" = Some o).
Proof.
  intros Hdb. rewrite get_all_organizations_run. cbn [fst].
  unfold Store.serve, Store.healthy. rewrite (organizations_answer db Hdb).
  change (Store.distinct [] (map VStr (organizations_of db)))
    with (Store.distinct (map VStr []) (map VStr (organizations_of db))).
  rewrite (distinct_text [] (organizations_of db)).
  destruct (sorted_texts (first_occurrences [] (organizations_of db)))
    as (names & -> & Hp & Hs).
  exists names.
  assert (Hn : NoDup names).
  { eapply Permutation_NoDup; [exact Hp|apply first_occurrences_nodup]. }
  split; [reflexivity|]. split; [now apply ascending_strict|]. split; [exact Hn|].
  intros o. rewrite <- organizations_of_in.
  split.
  - intros H. apply (Permutation_in _ (Permutation_sym Hp)) in H.
    now apply first_occurrences_in in H.
  - intros H. apply (Permutation_in _ Hp). apply first_occurrences_in. tauto.
Qed.

Lemma get_all_organizations_spec_witness :
  fst (get_all_organizations Sample.env (Some Sample.store) start)
  = Returns [VStr "PGN"; VStr "PPN"]
  /\ exists names,
      fst (get_all_organizations Sample.env (Some Sample.store) start)
      = Returns (map VStr names)
      /\ strictly_ascending names.
Proof.
  split; [reflexivity|].
  destruct (get_all_organizations_spec Sample.env Sample.db start)
    as (names & E & Hs & _).
  - repeat constructor; intros v [= <-]; reflexivity.
  - exists names. split; [exact E|exact Hs].
Defined.

Lemma distinct_keeps (P : Value -> bool) seen l v :
  (forall a b, Store.value_eqb a b = true -> P a = true -> P b = true) ->
  In v l -> P v = true ->
  exists v', (In v' (Store.distinct seen l) \/ In v' seen) /\ P v' = true.
Proof.
  intros Hclosed. revert seen. induction l as [|x l IH]; intros seen Hin Hv;
    [contradiction|].
  cbn [Store.distinct].
  destruct (existsb (Store.value_eqb x) seen) eqn:E.
  - destruct Hin as [->|Hin].
    + apply existsb_exists in E as (y & Hy & Hxy).
      exists y. split; [now right|]. eapply Hclosed; eauto.
    + destruct (IH seen Hin Hv) as (v' & Hv' & Hp). exists v'. tauto.
  - destruct Hin as [->|Hin].
    + exists v. split; [left; now left|exact Hv].
    + destruct (IH (x :: seen) Hin Hv) as (v' & [Hv'|[Hx|Hv']] & Hp);
        exists v'; cbn [In]; tauto.
Qed.

Lemma mapM_returns {A} (l : list A) : Exc.mapM (fun x => Returns x) l = Returns l.
Proof. induction l as [|x l IH]; cbn; [reflexivity|]. now rewrite IH. Qed.

Lemma mixed_not_comparable keys a b :
  In a keys -> In b keys -> Py.is_str a = true -> Py.is_num b = true ->
  Py.comparable keys = false.
Proof.
  intros Ha Hb Hsa Hnb. unfold Py.comparable.
  assert (Hs : forallb Py.is_str keys = false).
  { destruct (forallb Py.is_str keys) eqn:E; [|reflexivity].
    rewrite forallb_forall in E. specialize (E b Hb).
    destruct b; discriminate. }
  assert (Hn : forallb Py.is_num keys = false).
  { destruct (forallb Py.is_num keys) eqn:E; [|reflexivity].
    rewrite forallb_forall in E. specialize (E a Ha).
    destruct a; discriminate. }
  rewrite Hs, Hn, !orb_false_r.
  destruct keys as [|x [|y keys]]; [contradiction| |reflexivity].
  destruct Ha as [->|[]], Hb as [->|[]]. destruct b; discriminate.
Qed.

(** X12: when one document states a text and another a number as its
    organization, [get_all_organizations] returns the empty list although
    the store answered with at least two values: the failure of the sort
    is absorbed like a failure of the store. *)
Theorem get_all_organizations_mixed_kinds env db t c1 c2 s n :
  In c1 db -> In c2 db ->
  Store.field c1 "organization" = Some (VStr s) ->
  Store.field c2 "organization" = Some (VNum n) ->
  fst (get_all_organizations env (Some (Store.serve Store.healthy db)) t)
  = Returns []
  /\ exists found,
      Store.serve Store.healthy db
        (mkQuery (DistinctValue "organization")
                 [IS_DEFINED (Field (c_ "organization"))] []) = Returns found
      /\ (2 <= List.length found)%nat.
Proof.
  intros H1 H2 E1 E2. rewrite get_all_organizations_run. cbn [fst].
  unfold Store.serve, Store.healthy.
  set (found := Store.answer db _).
  assert (Hin : forall c v, In c db -> Store.field c "organization" = Some v ->
                  In v (flat_map (fun c => match Store.field c "organization" with
                                           | Some v => [v]
                                           | None => []
                                           end)
                          (filter (Store.matching_doc
                                     (mkQuery (DistinctValue "organization")
                                        [IS_DEFINED (Field (c_ "organization"))] []))
                                  db))).
  { intros c v Hc E. apply in_flat_map. exists c. split.
    - apply filter_In. split; [exact Hc|].
      unfold Store.matching_doc. cbn [conditions parameters forallb Store.holds
        Store.eval Store.deref]. now rewrite E.
    - rewrite E. now left. }
  destruct (distinct_keeps Py.is_str [] _ _
              ltac:(intros a b; destruct a, b; cbn; congruence)
              (Hin c1 _ H1 E1) eq_refl) as (a & [Ha|[]] & Hsa).
  destruct (distinct_keeps Py.is_num [] _ _
              ltac:(intros a' b; destruct a', b; cbn; congruence)
              (Hin c2 _ H2 E2) eq_refl) as (b & [Hb|[]] & Hnb).
  fold found in Ha, Hb.
  assert (Hc : Py.comparable found = false).
  { exact (mixed_not_comparable found a b Ha Hb Hsa Hnb). }
  split.
  - unfold sorted, Py.sort. rewrite mapM_returns. cbn [Exc.bind]. now rewrite Hc.
  - exists found. split; [reflexivity|].
    unfold Py.comparable in Hc. apply orb_false_iff in Hc as [Hc _].
    apply orb_false_iff in Hc as [Hc _]. apply Nat.leb_gt in Hc. lia.
Qed.

Lemma get_all_organizations_mixed_kinds_witness :
  fst (get_all_organizations Sample.env
         (Some (Store.serve Store.healthy
                  [VDict [("organization", VStr "PPN")];
                   VDict [("organization", VNum 7)]])) start)
  = Returns [].
Proof.
  apply (get_all_organizations_mixed_kinds Sample.env _ start
           (VDict [("organization", VStr "PPN")])
           (VDict [("organization", VNum 7)]) "PPN" 7);
    cbn; auto.
Defined.

(** ** Statistics against the listings *)

Lemma expired_query_matching current_date cp :
  Store.matching (expired_query current_date) cp = expired_before current_date cp.
Proof.
  change (Store.matching (expired_query current_date) cp)
    with (Store.matching (expired_documents_query current_date None) cp).
  rewrite expired_matching_eq. cbn [of_organization]. apply andb_true_r.
Qed.

Lemma statistics_exact env db t :
  Forall (has_text "permitType") db ->
  Forall (has_text "organization") db ->
  let current_date := strftime_ymd (clock env (clock_reads t)) in
  let total := Z.of_nat (List.length (Store.joined db)) in
  let expired :=
    Z.of_nat (List.length (filter (expired_before current_date) (Store.joined db))) in
  exists bt bo,
    get_permit_statistics env (Some (Store.serve Store.healthy db)) t
    = (Returns (mkStatistics (VNum total) (VNum expired) (VNum (total - expired))
                             bt bo (Some (clock env (S (clock_reads t)))) None),
       mkTrace (S (S (clock_reads t)))
               (issued t ++ statistics_queries current_date))
    /\ sum_counts bt = Z.of_nat (List.length db)
    /\ sum_counts bo = Z.of_nat (List.length db).
Proof.
  intros Htype Horg current_date total expired.
  unfold get_permit_statistics, auto_initialize.
  unfold Run.bind, Run.now, Run.try_except, Run.query_items, Run.lift, Run.ret,
    Store.serve, Store.healthy; cbn [fst snd clock_reads issued].
  unfold type_query, org_query. cbv beta iota.
  destruct (count_by_answer db "permitType" eq_refl Htype) as (d1 & -> & Hd1).
  destruct (count_by_answer db "organization" eq_refl Horg) as (d2 & -> & Hd2).
  change (Store.answer db total_query)
    with [VNum (Z.of_nat (List.length (filter (Store.matching total_query)
                                              (Store.joined db))))].
  fold current_date.
  change (Store.answer db (expired_query current_date))
    with [VNum (Z.of_nat (List.length
                            (filter (Store.matching (expired_query current_date))
                                    (Store.joined db))))].
  cbn [next Py.sub]. cbv beta iota.
  rewrite (filter_all (Store.matching total_query)) by reflexivity.
  rewrite (filter_ext _ _ (expired_query_matching current_date)).
  exists d1, d2. split; [|split; assumption].
  unfold statistics_queries, type_query, org_query.
  rewrite <- !app_assoc. reflexivity.
Qed.

(** X13: over a store that answers and whose documents all state their
    permit type and organization, the statistics agree with the expired
    listing of the same calendar day: [expired_count] is the number of
    records [query_expired_documents] returns without an organization,
    [active_count] is [total_permits] less that number and is not
    negative, and the counts by type and by organization each add up to
    the number of documents. *)
Theorem statistics_agree_with_expired_listing env db order_by t t' :
  Forall (has_text "permitType") db ->
  Forall (has_text "organization") db ->
  strftime_ymd (clock env (clock_reads t)) = strftime_ymd (clock env (clock_reads t')) ->
  exists s items,
    fst (get_permit_statistics env (Some (Store.serve Store.healthy db)) t)
    = Returns s
    /\ fst (query_expired_documents env (Some (Store.serve Store.healthy db)) None
              order_by t') = Returns items
    /\ error s = None
    /\ total_permits s = VNum (len (Store.joined db))
    /\ expired_count s = VNum (len items)
    /\ active_count s = VNum (len (Store.joined db) - len items)
    /\ 0 <= len items <= len (Store.joined db)
    /\ sum_counts (by_type s) = len db
    /\ sum_counts (by_organization s) = len db.
Proof.
  intros Htype Horg Hsame.
  destruct (statistics_exact env db t Htype Horg) as (bt & bo & E & Hbt & Hbo).
  destruct (expired_exact env db None order_by t') as (items & E' & Hp).
  rewrite <- Hsame in Hp.
  assert (Hlen : List.length items
                 = List.length (filter (expired_before
                                          (strftime_ymd (clock env (clock_reads t))))
                                       (Store.joined db))).
  { rewrite (Permutation_length Hp), length_map. f_equal.
    apply filter_ext. intros cp. cbn [of_organization]. apply andb_true_r. }
  eexists. exists items. rewrite E, E'. cbn [fst].
  split; [reflexivity|]. split; [reflexivity|].
  cbn [error total_permits expired_count active_count by_type by_organization].
  unfold len. rewrite Hlen.
  repeat split; trivial.
  - lia.
  - apply inj_le, filter_length_le.
Qed.

Lemma statistics_agree_with_expired_listing_witness :
  exists s items,
    fst (get_permit_statistics Sample.env (Some Sample.store) start) = Returns s
    /\ fst (query_expired_documents Sample.env (Some Sample.store) None "latest"
              start) = Returns items
    /\ expired_count s = VNum (len items)
    /\ expired_count s = VNum 1
    /\ active_count s = VNum 2.
Proof.
  destruct (statistics_agree_with_expired_listing Sample.env Sample.db "latest"
              start start) as (s & items & E & E' & _ & _ & He & Ha & _).
  - repeat constructor; eexists; reflexivity.
  - repeat constructor; eexists; reflexivity.
  - reflexivity.
  - exists s, items. split; [exact E|]. split; [exact E'|]. split; [exact He|].
    injection E as <-. now split.
Defined.

(** X14: [get_permit_statistics] always returns; the queries it sends
    are a non-empty initial part of: total, expired, by type, by
    organization; no query is sent after one that raised; statistics
    without an error text mean that all four were sent and that
    [generated_at] is a second reading of the clock, taken after the one
    that gave [currentDate]; statistics with an error text are the zeroed
    ones and the clock was read once. *)
Theorem statistics_queries_in_order env k t :
  let current_date := strftime_ymd (clock env (clock_reads t)) in
  exists s t' n,
    get_permit_statistics env (Some k) t = (Returns s, t')
    /\ (1 <= n <= 4)%nat
    /\ sent t t' = firstn n (statistics_queries current_date)
    /\ (forall q, In q (removelast (sent t t')) -> exists rs, k q = Returns rs)
    /\ (error s = None ->
        n = 4%nat
        /\ clock_reads t' = S (S (clock_reads t))
        /\ generated_at s = Some (clock env (S (clock_reads t))))
    /\ (forall message, error s = Some message ->
        s = zeroed message /\ clock_reads t' = S (clock_reads t)).
Proof.
  intros current_date.
  unfold get_permit_statistics, auto_initialize.
  unfold Run.bind, Run.now, Run.try_except, Run.query_items, Run.lift, Run.ret;
    cbn [fst snd clock_reads issued].
  fold current_date. unfold statistics_queries.
  destruct (k total_query) as [r1|e1] eqn:E1.
  2:{ do 2 eexists. exists 1%nat. split; [reflexivity|]. split; [lia|].
      split; [apply sent_app|]. rewrite sent_app.
      split; [intros q []|]. split; [discriminate|].
      intros m [= <-]. now split. }
  destruct (k (expired_query current_date)) as [r2|e2] eqn:E2.
  2:{ do 2 eexists. exists 2%nat. split; [reflexivity|]. split; [lia|].
      rewrite <- !app_assoc. split; [apply sent_app|]. rewrite sent_app.
      split; [intros q [<-|[]]; eauto|]. split; [discriminate|].
      intros m [= <-]. now split. }
  destruct (k type_query) as [r3|e3] eqn:E3.
  2:{ do 2 eexists. exists 3%nat. split; [reflexivity|]. split; [lia|].
      rewrite <- !app_assoc. split; [apply sent_app|]. rewrite sent_app.
      split; [intros q [<-|[<-|[]]]; eauto|]. split; [discriminate|].
      intros m [= <-]. now split. }
  destruct (Dict.of_counts "permitType" r3 []) as [bt|e4].
  2:{ do 2 eexists. exists 3%nat. split; [reflexivity|]. split; [lia|].
      rewrite <- !app_assoc. split; [apply sent_app|]. rewrite sent_app.
      split; [intros q [<-|[<-|[]]]; eauto|]. split; [discriminate|].
      intros m [= <-]. now split. }
  assert (Hfour : forall q,
             In q (removelast [total_query; expired_query current_date;
                               type_query; org_query]) ->
             exists rs, k q = Returns rs).
  { intros q [<-|[<-|[<-|[]]]]; eauto. }
  destruct (k org_query) as [r4|e5] eqn:E4;
    [destruct (Dict.of_counts "organization" r4 []) as [bo|e6];
     [destruct (Py.sub (next r1 (VNum 0)) (next r2 (VNum 0))) as [active|e7]|]|];
    do 2 eexists; exists 4%nat; (split; [reflexivity|]); (split; [lia|]);
    rewrite <- !app_assoc; (split; [apply sent_app|]); rewrite sent_app;
    (split; [exact Hfour|]);
    cbn [error generated_at clock_reads];
    (split; [try discriminate; auto|]);
    try discriminate; intros m [= <-]; now split.
Qed.

Lemma statistics_queries_in_order_witness :
  exists s t' n,
    get_permit_statistics Sample.env (Some Sample.down) start = (Returns s, t')
    /\ sent start t' = firstn n (statistics_queries "2025-11-20")
    /\ n = 1%nat.
Proof.
  destruct (statistics_queries_in_order Sample.env Sample.down start)
    as (s & t' & n & E & Hn & Hs & _).
  exists s, t', n. split; [exact E|]. split; [exact Hs|].
  injection E as <- <-.
  destruct n as [|[|n]]; [lia|reflexivity|discriminate].
Defined.

(** ** The permit-details tool *)

Lemma sub_days_from_midnight a b :
  dt_micros a = 0 -> 0 <= dt_micros b < day_us ->
  sub_days a b
  = toordinal a - toordinal b - (if dt_micros b =? 0 then 0 else 1).
Proof.
  intros Ha Hb. unfold sub_days. rewrite Ha. unfold day_us in *.
  destruct (dt_micros b =? 0) eqn:E.
  - apply Z.eqb_eq in E. rewrite E. Z.div_mod_to_equations. lia.
  - apply Z.eqb_neq in E. Z.div_mod_to_equations. lia.
Qed.

Lemma strftime_ymd_not_empty d : strftime_ymd d <> "".
Proof. unfold strftime_ymd, pad4. discriminate. Qed.

Lemma details_dated env k permit_number t permit t1 text expiry_date :
  query_permit_by_number env (Some k) (Some permit_number) t
  = (Returns (Some permit), t1) ->
  Py.truthy permit = true ->
  Py.get permit "expirationDate" VNull = Returns (VStr text) ->
  text <> "" ->
  strptime_ymd text = Returns expiry_date ->
  get_permit_details env k permit_number t
  = (Returns (Details permit_number permit (VStr text)
                (derived_status (sub_days expiry_date (clock env (clock_reads t1))))
                (days_phrase (sub_days expiry_date (clock env (clock_reads t1))))),
     mkTrace (S (clock_reads t1)) (issued t1)).
Proof.
  intros Hfound Htruthy Hget Hne Hparse.
  assert (Hdays : Py.truthy (VStr text) = true).
  { cbn. now apply negb_true_iff, String.eqb_neq. }
  unfold get_permit_details, Run.try_except, Run.bind at 1.
  rewrite Hfound, Htruthy. cbn [negb].
  unfold Run.bind, Run.now, Run.lift, Run.ret. rewrite Hget, Hdays.
  cbn [strptime]. rewrite Hparse.
  unfold derived_status, days_phrase.
  destruct (sub_days _ _ <? 0); [reflexivity|].
  destruct (sub_days _ _ <=? 30); reflexivity.
Qed.

Lemma details_unreadable env k permit_number t permit t1 expiry e :
  query_permit_by_number env (Some k) (Some permit_number) t
  = (Returns (Some permit), t1) ->
  Py.truthy permit = true ->
  Py.get permit "expirationDate" VNull = Returns expiry ->
  Py.truthy expiry = true ->
  strptime expiry = Raises e ->
  get_permit_details env k permit_number t
  = (Returns (Failure (exn_msg e)), mkTrace (S (clock_reads t1)) (issued t1)).
Proof.
  intros Hfound Htruthy Hget Hdays Hparse.
  unfold get_permit_details, Run.try_except, Run.bind at 1.
  rewrite Hfound, Htruthy. cbn [negb].
  unfold Run.bind, Run.now, Run.lift, Run.ret. rewrite Hget, Hdays, Hparse.
  reflexivity.
Qed.

(** X15: the details tool counts the days to expiry from the present
    moment, not from today's date: for a record with a YYYY-MM-DD
    expiration date, the number shown is the calendar difference
    [get_time_difference] gives when the clock reads midnight exactly, and
    one less otherwise; so past midnight a permit that expires today is
    shown as ["Expired"]. *)
Theorem get_permit_details_counts_from_now env k permit_number t permit t1 d :
  query_permit_by_number env (Some k) (Some permit_number) t
  = (Returns (Some permit), t1) ->
  Py.truthy permit = true ->
  Py.get permit "expirationDate" VNull = Returns (VStr (strftime_ymd d)) ->
  is_date d = true ->
  valid_datetime (clock env (clock_reads t1)) ->
  let now := clock env (clock_reads t1) in
  exists n shown,
    get_time_difference (strftime_ymd now) (strftime_ymd d) = Returns n
    /\ fst (get_permit_details env k permit_number t)
       = Returns (Details permit_number permit (VStr (strftime_ymd d))
                          (derived_status shown) (days_phrase shown))
    /\ (dt_micros now = 0 -> shown = n)
    /\ (dt_micros now <> 0 -> shown = n - 1)
    /\ (dt_micros now <> 0 -> n = 0 -> derived_status shown = "Expired").
Proof.
  intros Hfound Htruthy Hget Hd [Hnow Hmicros] now.
  exists (toordinal d - toordinal now).
  exists (sub_days (mkDateTime (dt_year d) (dt_month d) (dt_day d) 0) now).
  split; [now apply get_time_difference_texts|].
  split.
  - rewrite (details_dated env k permit_number t permit t1 (strftime_ymd d)
               (mkDateTime (dt_year d) (dt_month d) (dt_day d) 0)
               Hfound Htruthy Hget (strftime_ymd_not_empty d)
               (strptime_strftime d Hd)).
    reflexivity.
  - rewrite (sub_days_from_midnight
               (mkDateTime (dt_year d) (dt_month d) (dt_day d) 0) now eq_refl
               Hmicros).
    change (toordinal (mkDateTime (dt_year d) (dt_month d) (dt_day d) 0))
      with (toordinal d).
    fold now in Hmicros.
    repeat split.
    + intros ->. cbn. lia.
    + intros Hne. apply Z.eqb_neq in Hne. rewrite Hne. reflexivity.
    + intros Hne Hz. apply Z.eqb_neq in Hne. rewrite Hne, Hz. reflexivity.
Qed.

Lemma get_permit_details_counts_from_now_witness :
  exists permit,
    fst (get_permit_details Sample.env Fixture.stamped_store "PLO-2025-011" start)
    = Returns (Details "PLO-2025-011" permit (VStr "2025-11-20")
                       "Expired" "Expired 1 days ago")
    /\ get_time_difference "2025-11-20" "2025-11-20" = Returns 0.
Proof.
  destruct (get_permit_details_counts_from_now Sample.env Fixture.stamped_store
              "PLO-2025-011" start
              (Store.project detail_columns
                 (nth 1 (Store.joined Fixture.stamped) (VNull, VNull)))
              (mkTrace 0 [mkQuery (Select detail_columns)
                            [Cmp (Field (p_ "permitNumber")) OpEq
                                 (Param "@permitNumber")]
                            [("@permitNumber", VStr "PLO-2025-011")]])
              (mkDateTime 2025 11 20 0))
    as (n & shown & Hn & E & _ & Hshown & _);
    [reflexivity|reflexivity|reflexivity|reflexivity
    |split; [reflexivity|cbn; unfold day_us; lia]|].
  eexists. split; [|reflexivity].
  rewrite E. injection Hn as <-. rewrite Hshown by (cbn; discriminate).
  reflexivity.
Defined.



(** ** The listing tools *)

Lemma fill_row row slots : fill (VDict row) slots = Returns (map (render row) slots).
Proof.
  unfold fill. induction slots as [|slot slots IH]; [reflexivity|].
  cbn [Exc.mapM map]. rewrite IH.
  destruct slot as [s|key default]; cbn; [reflexivity|].
  now destruct (Py.dict_get row key).
Qed.

Lemma entries_of_rows slots rows start_idx :
  Exc.mapM (numbered slots) (enumerate start_idx (map VDict rows))
  = Returns (map (entry_block slots) (enumerate start_idx rows)).
Proof.
  revert start_idx. induction rows as [|row rows IH]; intros start_idx;
    [reflexivity|].
  cbn [map enumerate Exc.mapM]. rewrite IH.
  unfold numbered at 1. cbn [fst snd]. rewrite fill_row. reflexivity.
Qed.

Lemma projections_are_rows cols cps :
  exists rows, map (Store.project cols) cps = map VDict rows.
Proof.
  induction cps as [|cp cps (rows & IH)]; [now exists []|].
  cbn [map]. unfold Store.project at 1. rewrite IH.
  eexists (_ :: rows). reflexivity.
Qed.

(** Whatever a store answers to a [SELECT] of columns, once sorted, is a
    list of dictionaries. *)
Lemma fetch_sorted_rows faults db q cols date order_by t :
  shape q = Select cols ->
  exists rows,
    fetch_sorted (Store.serve faults db) q date order_by t
    = (Returns (map VDict rows), mkTrace (clock_reads t) (issued t ++ [q])).
Proof.
  intros Hshape.
  destruct (fetch_sorted_run (Store.serve faults db) q date order_by t)
    as (items & E & H).
  rewrite E.
  destruct H as [[-> _]|(rs & Hrs & Hs)]; [now exists []|].
  apply sort_spec in Hs as (Hperm & _).
  unfold Store.serve in Hrs. destruct (faults q); [discriminate|].
  injection Hrs as <-. unfold Store.answer in Hperm. rewrite Hshape in Hperm.
  destruct (projections_are_rows cols (filter (Store.matching q) (Store.joined db)))
    as (rows & Hrows).
  rewrite Hrows in Hperm. apply Permutation_sym in Hperm.
  apply Permutation_map_inv in Hperm as (rows' & -> & _). eauto.
Qed.

Lemma by_installation_rows env faults db installation permit_type t :
  exists rows t',
    query_permits_by_installation env (Some (Store.serve faults db))
                                  (Some installation) permit_type t
    = (Returns (map VDict rows), t').
Proof.
  destruct (string_dec installation "") as [->|Hne].
  - exists [], t. reflexivity.
  - rewrite (by_installation_run installation permit_type env
               (Some (Store.serve faults db)) (Store.serve faults db) t eq_refl Hne).
    unfold Store.serve. destruct (faults _); [exists []; eauto|].
    unfold Store.answer.
    assert (Hshape : shape (installation_query installation permit_type)
                     = Select detail_columns).
    { unfold installation_query. now destruct (Py.truthy_str permit_type). }
    rewrite Hshape.
    destruct (projections_are_rows detail_columns
                (filter (Store.matching (installation_query installation permit_type))
                        (Store.joined db))) as (rows & ->).
    eauto.
Qed.

Ltac run_listing rows :=
  unfold Run.try_except, Run.bind, Run.lift, Run.ret, entries_of;
  destruct rows as [|? ?];
  [ reflexivity
  | rewrite entries_of_rows; unfold listing, len; rewrite ?length_map;
    reflexivity ].

(** X17: over a store, failing or not, the listing tools by issue
    year, by expiration year, of expired permits and by installation
    never answer with their error sentence: the reply is the sentence for
    no results when the query returned nothing, and otherwise the header
    with the number of records followed by one entry per record, numbered
    from 1 in the order the query returned them, a missing property shown
    as its default. *)
Theorem listing_tools_over_a_store env faults db t :
  (forall permit_type year organization operator order_by,
      exists rows,
        fst (query_documents_by_issue_year env (Some (Store.serve faults db))
               permit_type year organization operator order_by t)
        = Returns (map VDict rows)
        /\ fst (get_list_documents_by_issue_year env (Store.serve faults db)
                  permit_type year organization operator order_by t)
           = Returns (listing (none_issued year) issued_header issue_year_entry
                              rows))
  /\ (forall permit_type year organization operator order_by,
         exists rows,
           fst (query_documents_by_expiration_year env
                  (Some (Store.serve faults db))
                  permit_type year organization operator order_by t)
           = Returns (map VDict rows)
           /\ fst (get_list_documents_by_expiration_year env
                     (Store.serve faults db)
                     permit_type year organization operator order_by t)
              = Returns (listing (none_expiring year) expiring_header
                                 expiration_year_entry rows))
  /\ (forall organization order_by,
         exists rows,
           fst (query_expired_documents env (Some (Store.serve faults db))
                  organization order_by
                  (mkTrace (S (clock_reads t)) (issued t)))
           = Returns (map VDict rows)
           /\ fst (get_list_documents_already_expired env (Store.serve faults db)
                     organization order_by t)
              = Returns (listing
                           (none_expired (strftime_ymd (clock env (clock_reads t))))
                           (expired_header
                              (strftime_ymd (clock env (clock_reads t))))
                           expired_entry rows))
  /\ (forall installation permit_type,
         exists rows,
           fst (query_permits_by_installation env (Some (Store.serve faults db))
                  (Some installation) permit_type t)
           = Returns (map VDict rows)
           /\ fst (get_permits_by_installation env (Store.serve faults db)
                     installation permit_type t)
              = Returns (listing (none_installed installation)
                                 (installation_header installation)
                                 installation_entry rows)).
Proof.
  repeat split.
  - intros permit_type year organization operator order_by.
    unfold get_list_documents_by_issue_year.
    pose proof (issue_year_unfold env (Some (Store.serve faults db))
                  (Store.serve faults db) permit_type year organization operator
                  order_by t eq_refl) as Hq.
    destruct (fetch_sorted_rows faults db _ issue_year_columns "issueDate" order_by
                t (year_query_shape issue_year_columns "issueDate" permit_type year
                     organization operator)) as (rows & E).
    rewrite E in Hq. exists rows. split; [now rewrite Hq|].
    unfold Run.try_except at 1, Run.bind at 1. rewrite Hq.
    run_listing rows.
  - intros permit_type year organization operator order_by.
    unfold get_list_documents_by_expiration_year.
    pose proof (expiration_year_unfold env (Some (Store.serve faults db))
                  (Store.serve faults db) permit_type year organization operator
                  order_by t eq_refl) as Hq.
    destruct (fetch_sorted_rows faults db _ expiration_year_columns
                "expirationDate" order_by t
                (year_query_shape expiration_year_columns "expirationDate"
                   permit_type year organization operator)) as (rows & E).
    rewrite E in Hq. exists rows. split; [now rewrite Hq|].
    unfold Run.try_except at 1, Run.bind at 1. rewrite Hq.
    run_listing rows.
  - intros organization order_by.
    unfold get_list_documents_already_expired.
    pose proof (expired_unfold env (Some (Store.serve faults db))
                  (Store.serve faults db) organization order_by
                  (mkTrace (S (clock_reads t)) (issued t)) eq_refl) as Hq.
    destruct (fetch_sorted_rows faults db _ expiry_columns "expirationDate"
                order_by
                (mkTrace (S (clock_reads (mkTrace (S (clock_reads t)) (issued t))))
                         (issued (mkTrace (S (clock_reads t)) (issued t))))
                (expired_shape
                   (strftime_ymd
                      (clock env (clock_reads (mkTrace (S (clock_reads t))
                                                       (issued t)))))
                   organization)) as (rows & E).
    rewrite E in Hq. exists rows. split; [now rewrite Hq|].
    unfold Run.try_except at 1, Run.bind at 1, Run.now at 1.
    unfold Run.bind at 1. rewrite Hq.
    run_listing rows.
  - intros installation permit_type.
    unfold get_permits_by_installation.
    destruct (by_installation_rows env faults db installation permit_type t)
      as (rows & t' & Hq).
    exists rows. split; [now rewrite Hq|].
    unfold Run.try_except at 1, Run.bind at 1. rewrite Hq.
    run_listing rows.
Qed.

(** X18: when no query to the container succeeds, each of the five
    listing tools answers with its sentence for no results (the
    expiring-soon tool as long as the look-ahead stays within the
    calendar): an outage of the store cannot be told from an empty
    result. *)
Theorem outage_reads_as_no_results env k t :
  unavailable k ->
  (forall permit_type year organization operator order_by,
      fst (get_list_documents_by_issue_year env k permit_type year organization
             operator order_by t) = Returns (Line (none_issued year))
      /\ fst (get_list_documents_by_expiration_year env k permit_type year
                organization operator order_by t)
         = Returns (Line (none_expiring year)))
  /\ (forall organization order_by,
         fst (get_list_documents_already_expired env k organization order_by t)
         = Returns (Line (none_expired (strftime_ymd (clock env (clock_reads t))))))
  /\ (forall days organization order_by future,
         add_days (clock env (S (clock_reads t))) days = Returns future ->
         fst (get_list_documents_expiring_soon env k days organization order_by t)
         = Returns (Line (none_expiring_soon days)))
  /\ (forall installation permit_type,
         fst (get_permits_by_installation env k installation permit_type t)
         = Returns (Line (none_installed installation))).
Proof.
  intros Hdown.
  assert (Hfetch : forall q date order_by t0,
             fetch_sorted k q date order_by t0
             = (Returns [], mkTrace (clock_reads t0) (issued t0 ++ [q]))).
  { intros q date order_by t0.
    destruct (fetch_sorted_caught k q date order_by t0) as (items & E & H).
    destruct (Hdown q) as [e He]. now rewrite E, (H e He). }
  repeat split.
  - unfold get_list_documents_by_issue_year, Run.try_except, Run.bind at 1.
    rewrite (issue_year_unfold env (Some k) k permit_type year organization
               operator order_by t eq_refl), Hfetch.
    reflexivity.
  - unfold get_list_documents_by_expiration_year, Run.try_except, Run.bind at 1.
    rewrite (expiration_year_unfold env (Some k) k permit_type year organization
               operator order_by t eq_refl), Hfetch.
    reflexivity.
  - intros organization order_by.
    unfold get_list_documents_already_expired, Run.try_except, Run.bind at 1,
      Run.now at 1.
    unfold Run.bind at 1.
    rewrite (expired_unfold env (Some k) k organization order_by
               (mkTrace (S (clock_reads t)) (issued t)) eq_refl), Hfetch.
    reflexivity.
  - intros days organization order_by future Hf.
    unfold get_list_documents_expiring_soon, Run.try_except, Run.bind at 1,
      Run.now at 1.
    unfold Run.bind at 1.
    rewrite (expiring_soon_unfold env (Some k) k days organization order_by
               (mkTrace (S (clock_reads t)) (issued t)) future eq_refl Hf), Hfetch.
    reflexivity.
  - intros installation permit_type.
    unfold get_permits_by_installation, Run.try_except, Run.bind at 1.
    destruct (string_dec installation "") as [->|Hne]; [reflexivity|].
    rewrite (by_installation_run installation permit_type env (Some k) k t
               eq_refl Hne).
    destruct (Hdown (installation_query installation permit_type)) as [e ->].
    reflexivity.
Qed.

Lemma outage_reads_as_no_results_witness :
  fst (get_list_documents_already_expired Sample.env Sample.down None "latest"
         start)
  = Returns (Line [Text "No expired documents found as of "; Text "2025-11-20";
                   Text "."])
  /\ fst (get_list_documents_expiring_soon Sample.env Sample.down 30 None
            "earliest" start)
     = Returns (Line (none_expiring_soon 30)).
Proof.
  destruct (outage_reads_as_no_results Sample.env Sample.down start)
    as (_ & H2 & H3 & _).
  - intros q. exists Sample.outage. reflexivity.
  - split; [apply H2|].
    apply (H3 30 None "earliest" (mkDateTime 2025 12 20 100)). reflexivity.
Defined.

(** ** The expiring-soon tool *)

Lemma expiring_entry_run env idx row t :
  expiring_entry env (idx, VDict row) t
  = (if dated row then
       match strptime (expiry_of row) with
       | Returns expiry_date =>
           (Returns (Text (str_int idx)
                     :: map (render row) expiring_entry_head
                     ++ [Str (expiry_of row); Text " ";
                         Text ("(" ++ str_int (sub_days expiry_date
                                                 (clock env (clock_reads t)))
                               ++ " days remaining)")%string]
                     ++ map (render row) expiring_entry_tail),
            mkTrace (S (clock_reads t)) (issued t))
       | Raises e => (Raises e, t)
       end
     else
       (Returns (Text (str_int idx)
                 :: map (render row) expiring_entry_head
                 ++ [Str (expiry_of row); Text " "; Text ""]
                 ++ map (render row) expiring_entry_tail), t)).
Proof.
  unfold expiring_entry, dated, expiry_of, Run.bind, Run.lift, Run.ret, Run.now.
  cbn [Py.get].
  set (expiry := match Py.dict_get row "expirationDate" with
                 | Some v => v
                 | None => VStr "N/A"
                 end).
  assert (Hget : match Py.dict_get row "expirationDate" with
                 | Some v => Returns v
                 | None => Returns (VStr "N/A")
                 end = Returns expiry).
  { unfold expiry. now destruct (Py.dict_get row "expirationDate"). }
  rewrite Hget.
  destruct (differs_from expiry "N/A").
  - destruct (strptime expiry) as [expiry_date|e]; [|reflexivity].
    rewrite !fill_row. reflexivity.
  - rewrite !fill_row. reflexivity.
Qed.

Lemma for_each_readable env rows idx t :
  Forall readable rows ->
  exists entries,
    for_each (expiring_entry env) (enumerate idx (map VDict rows)) t
    = (Returns entries,
       mkTrace (clock_reads t + List.length (filter dated rows)) (issued t))
    /\ List.length entries = List.length rows.
Proof.
  intros Hall. revert idx t.
  induction Hall as [|row rows Hrow _ IH]; intros idx t.
  - exists []. cbn. rewrite Nat.add_0_r. now destruct t.
  - cbn [map enumerate for_each filter]. unfold Run.bind at 1.
    rewrite expiring_entry_run. unfold readable in Hrow.
    destruct (dated row).
    + destruct (Hrow eq_refl) as [d ->].
      unfold Run.bind at 1.
      destruct (IH (idx + 1) (mkTrace (S (clock_reads t)) (issued t)))
        as (entries & -> & Hlen).
      eexists. split.
      * unfold Run.ret. cbn [clock_reads issued List.length].
        do 2 f_equal. lia.
      * cbn [List.length]. now rewrite Hlen.
    + unfold Run.bind at 1.
      destruct (IH (idx + 1) t) as (entries & -> & Hlen).
      eexists. split; [reflexivity|]. cbn [List.length]. now rewrite Hlen.
Qed.

Lemma for_each_unreadable env rows idx t :
  Exists unreadable rows ->
  exists row e,
    In row rows /\ dated row = true /\ strptime (expiry_of row) = Raises e
    /\ fst (for_each (expiring_entry env) (enumerate idx (map VDict rows)) t)
       = Raises e.
Proof.
  intros Hex. revert idx t.
  induction rows as [|row rows IH]; intros idx t; [inversion Hex|].
  cbn [map enumerate for_each]. unfold Run.bind at 1.
  rewrite expiring_entry_run.
  destruct (dated row) eqn:Hd.
  - destruct (strptime (expiry_of row)) as [d|e] eqn:Hp.
    + assert (Hrest : Exists unreadable rows).
      { inversion Hex as [? ? [_ [e He]]|]; subst; [congruence|assumption]. }
      destruct (IH Hrest (idx + 1) (mkTrace (S (clock_reads t)) (issued t)))
        as (row' & e & Hin & Hd' & Hp' & E).
      exists row', e. split; [now right|]. split; [exact Hd'|]. split; [exact Hp'|].
      unfold Run.bind at 1.
      destruct (for_each _ _ _) as [[entries|e'] t']; cbn [fst] in *;
        [discriminate|exact E].
    + exists row, e. split; [now left|]. now repeat split.
  - assert (Hrest : Exists unreadable rows).
    { inversion Hex as [? ? [Hd' _]|]; subst; [congruence|assumption]. }
    destruct (IH Hrest (idx + 1) t) as (row' & e & Hin & Hd' & Hp' & E).
    exists row', e. split; [now right|]. split; [exact Hd'|]. split; [exact Hp'|].
    unfold Run.bind at 1.
    destruct (for_each _ _ _) as [[entries|e'] t']; cbn [fst] in *;
      [discriminate|exact E].
Qed.

Lemma expiring_soon_tool_run env k days organization order_by t items t2 :
  query_documents_expiring_soon env (Some k) days organization order_by
                                (mkTrace (S (clock_reads t)) (issued t))
  = (Returns items, t2) ->
  get_list_documents_expiring_soon env k days organization order_by t
  = match items with
    | [] => (Returns (Line (none_expiring_soon days)), t2)
    | _ :: _ =>
        match for_each (expiring_entry env) (enumerate 1 items) t2 with
        | (Returns entries, t3) =>
            (Returns (Joined nl
                        (expiring_soon_header days
                           (strftime_ymd (clock env (clock_reads t)))
                           (len items) :: entries)), t3)
        | (Raises e, t3) => (Returns (expiring_soon_failure (exn_msg e)), t3)
        end
    end.
Proof.
  intros Hq. unfold get_list_documents_expiring_soon.
  unfold Run.try_except at 1, Run.bind at 1, Run.now at 1.
  unfold Run.bind at 1. rewrite Hq.
  destruct items as [|item items]; [reflexivity|].
  unfold Run.bind at 1.
  destruct (for_each _ _ t2) as [[entries|e] t3]; reflexivity.
Qed.



(** ** The clients *)

Lemma truthy_setting env name :
  Py.truthy_str (getenv env name) = true ->
  getenv env name = Some (setting env name) /\ setting env name <> "".
Proof.
  unfold setting. destruct (getenv env name) as [s|]; cbn; [|discriminate].
  intros H. split; [reflexivity|]. apply negb_true_iff in H.
  now apply String.eqb_neq.
Qed.

Lemma connect_with_returns sdk u k d c :
  u <> "" -> k <> "" ->
  Client.connect_with sdk u k d c = Returns (sdk u k d c).
Proof.
  intros Hu Hk. unfold Client.connect_with, Client.init. cbn [Py.truthy_str].
  apply String.eqb_neq in Hu, Hk. rewrite Hu, Hk. reflexivity.
Qed.

(** X20: with the containers reached through the client class over the
    SDK, [get_permit_container] returns the container the SDK gives for
    the four permit settings exactly when all four are present and not
    empty, and raises [ValueError] otherwise; [get_conversation_container]
    does the same with its own four settings, the endpoint being
    [https://<account>.documents.azure.com:443/].  The check of the
    client's constructor never fires in either. *)
Theorem containers_need_all_settings sdk env t :
  on_sdk sdk env ->
  (configured env permit_settings = true ->
   get_permit_container env t
   = (Returns (sdk (setting env "COSMOS_DB_URI") (setting env "COSMOS_DB_KEY")
                   (setting env "COSMOS_DB_DATABASE")
                   (setting env "COSMOS_DB_CONTAINER")), t))
  /\ (configured env permit_settings = false ->
      exists e, get_permit_container env t = (Raises e, t)
                /\ exn_kind e = ValueError)
  /\ (configured env conversation_settings = true ->
      get_conversation_container env t
      = (Returns (sdk ("https://" ++ setting env "AZURE_COSMOSDB_ACCOUNT"
                       ++ ".documents.azure.com:443/")%string
                      (setting env "AZURE_COSMOSDB_ACCOUNT_KEY")
                      (setting env "AZURE_COSMOSDB_DATABASE")
                      (setting env "AZURE_COSMOSDB_CONVERSATIONS_CONTAINER")), t))
  /\ (configured env conversation_settings = false ->
      get_conversation_container env t
      = (Raises (mkExn ValueError conversation_not_configured), t)).
Proof.
  intros Hsdk. unfold configured, permit_settings, conversation_settings.
  cbn [forallb]. rewrite !andb_true_r.
  split; [|split; [|split]].
  - intros H. apply andb_true_iff in H as [H1 H]. apply andb_true_iff in H as [H2 H].
    apply andb_true_iff in H as [H3 H4].
    unfold get_permit_container. rewrite H1, H2, H3, H4.
    destruct (truthy_setting _ _ H1) as [-> Hu].
    destruct (truthy_setting _ _ H2) as [-> Hk].
    destruct (truthy_setting _ _ H3) as [-> _].
    destruct (truthy_setting _ _ H4) as [-> _].
    cbn [andb]. unfold Run.lift.
    rewrite Hsdk, (connect_with_returns sdk _ _ _ _ Hu Hk). reflexivity.
  - intros H. unfold get_permit_container.
    destruct (getenv env "COSMOS_DB_URI"), (getenv env "COSMOS_DB_KEY"),
      (getenv env "COSMOS_DB_DATABASE"), (getenv env "COSMOS_DB_CONTAINER");
      try (eexists; split; reflexivity).
    rewrite !andb_assoc in H. rewrite H.
    eexists; split; reflexivity.
  - intros H. apply andb_true_iff in H as [H1 H]. apply andb_true_iff in H as [H2 H].
    apply andb_true_iff in H as [H3 H4].
    unfold get_conversation_container. rewrite H1, H2, H3, H4.
    destruct (truthy_setting _ _ H1) as [-> Hu].
    destruct (truthy_setting _ _ H2) as [-> Hk].
    destruct (truthy_setting _ _ H3) as [-> _].
    destruct (truthy_setting _ _ H4) as [-> _].
    cbn [andb]. unfold Run.lift.
    rewrite Hsdk, connect_with_returns; [reflexivity|discriminate|exact Hk].
  - intros H. unfold get_conversation_container.
    destruct (getenv env "AZURE_COSMOSDB_ACCOUNT"),
      (getenv env "AZURE_COSMOSDB_ACCOUNT_KEY"),
      (getenv env "AZURE_COSMOSDB_DATABASE"),
      (getenv env "AZURE_COSMOSDB_CONVERSATIONS_CONTAINER");
      try reflexivity.
    rewrite !andb_assoc in H. rewrite H. reflexivity.
Qed.

Lemma containers_need_all_settings_witness :
  exists k,
    fst (get_permit_container permit_only start) = Returns k
    /\ fst (get_conversation_container permit_only start)
       = Raises (mkExn ValueError conversation_not_configured).
Proof.
  destruct (containers_need_all_settings sample_sdk permit_only start)
    as (H1 & _ & _ & H4).
  - intros u k d c. reflexivity.
  - eexists. split; [rewrite H1; reflexivity|]. rewrite H4; reflexivity.
Defined.

Lemma container_cached self :
  Client.container (snd (Client.container self))
  = (fst (Client.container self), snd (Client.container self)).
Proof.
  unfold Client.container at 2 3 4.
  destruct (Client._container self) as [handle|] eqn:E.
  - cbn [fst snd]. unfold Client.container. now rewrite E.
  - destruct (Client.database self) as [proxy self']. reflexivity.
Qed.

(** X21: a client object asks the SDK for its database proxy and its
    container once each, in that order, however many queries are made
    through it: after one or more calls of [query_items] on a fresh client
    the results are those of the SDK's container, the two requests are the
    only ones recorded, and the container is cached; on any client object
    a second reading of [container] gives the handle of the first and
    changes nothing. *)
Theorem client_asks_sdk_once sdk u k d c self qs :
  Client.init sdk (Some u) (Some k) d c = Returns self ->
  qs <> [] ->
  fst (query_all self qs) = map (sdk u k d c) qs
  /\ Client.sdk_calls (snd (query_all self qs))
     = [Client.GetDatabaseClient d; Client.GetContainerClient c]
  /\ Client.container (snd (query_all self qs))
     = (sdk u k d c, snd (query_all self qs))
  /\ (forall other,
         Client.container (snd (Client.container other))
         = (fst (Client.container other), snd (Client.container other))).
Proof.
  intros Hinit Hqs.
  assert (Hself : self = Client.mkCosmosDBClient u k d c (sdk u k) None None []).
  { unfold Client.init in Hinit.
    destruct (Py.truthy_str (Some u) && Py.truthy_str (Some k)); [|discriminate].
    now injection Hinit as <-. }
  set (ready := Client.mkCosmosDBClient u k d c (sdk u k) (Some (sdk u k d))
                  (Some (sdk u k d c))
                  [Client.GetDatabaseClient d; Client.GetContainerClient c]).
  assert (Hready : forall qs', query_all ready qs' = (map (sdk u k d c) qs', ready)).
  { induction qs' as [|q qs' IH]; [reflexivity|].
    cbn [query_all map]. unfold Client.query_items, Client.container.
    cbn [Client._container ready]. fold ready. rewrite IH.
    f_equal. f_equal. now destruct (sdk u k d c q). }
  destruct qs as [|q qs]; [contradiction|].
  assert (Hfirst : Client.query_items self q = (sdk u k d c q, ready)).
  { subst self. unfold Client.query_items, Client.container, Client.database.
    cbn. now destruct (sdk u k d c q). }
  cbn [query_all]. rewrite Hfirst, Hready. cbn [fst snd map].
  repeat split. apply container_cached.
Qed.

Lemma client_asks_sdk_once_witness :
  exists self,
    Client.init sample_sdk (Some "uri") (Some "key") "db" "permits" = Returns self
    /\ Client.sdk_calls (snd (query_all self [total_query; type_query; org_query]))
       = [Client.GetDatabaseClient "db"; Client.GetContainerClient "permits"].
Proof.
  eexists. split; [reflexivity|].
  apply (client_asks_sdk_once sample_sdk "uri" "key" "db" "permits" _
           [total_query; type_query; org_query] eq_refl).
  discriminate.
Defined.



(** ** Search requests *)

(** X23: a hybrid search without a vector (absent or empty) posts the
    same request as a semantic ranking search without vector fields, and
    so gives the same result; an empty list of vector fields counts as
    none; and the result or failure of the HTTP request is passed on
    unchanged. *)
Theorem hybrid_without_vector_is_semantic http self keyword vector k select_fields
        filter_query :
  AzureSearch.truthy_opt vector = false ->
  AzureSearch.hybrid_payload keyword vector k select_fields filter_query
  = AzureSearch.semantic_payload keyword k select_fields None filter_query
  /\ AzureSearch.hybrid_search http self keyword vector k select_fields filter_query
     = AzureSearch.semantic_ranking_search http self keyword k select_fields None
                                      filter_query
  /\ AzureSearch.semantic_ranking_search http self keyword k select_fields (Some [])
                                    filter_query
     = AzureSearch.semantic_ranking_search http self keyword k select_fields None
                                      filter_query
  /\ AzureSearch.semantic_ranking_search http self keyword k select_fields None
                                    filter_query
     = http (AzureSearch.search_url self)
            (VDict (AzureSearch.semantic_payload keyword k select_fields None
                                            filter_query))
            (AzureSearch.headers self).
Proof.
  intros Hv.
  assert (Hp : AzureSearch.hybrid_payload keyword vector k select_fields filter_query
               = AzureSearch.semantic_payload keyword k select_fields None filter_query).
  { unfold AzureSearch.hybrid_payload, AzureSearch.semantic_payload. rewrite Hv.
    reflexivity. }
  split; [exact Hp|]. split; [|split].
  - unfold AzureSearch.hybrid_search, AzureSearch.semantic_ranking_search. now rewrite Hp.
  - reflexivity.
  - unfold AzureSearch.semantic_ranking_search. now destruct (http _ _ _).
Qed.

Lemma hybrid_without_vector_is_semantic_witness :
  AzureSearch.hybrid_search two_documents search_client "pipeline" (Some (VList [])) 10
                       (Some ["title"]) None
  = AzureSearch.semantic_ranking_search two_documents search_client "pipeline" 10
                                   (Some ["title"]) None None.
Proof.
  apply (hybrid_without_vector_is_semantic two_documents search_client "pipeline"
           (Some (VList [])) 10 (Some ["title"]) None eq_refl).
Defined.

(** X24: the request of a semantic ranking search names each key once,
    always carries the keyword under [search] and [k] under [top], carries
    [select] exactly when select fields are given (joined by commas),
    [filter] exactly when a non-empty filter is given, and [vectorQueries]
    exactly when vector fields are given. *)
Theorem search_payload_keys keyword k select_fields vector_fields filter_query :
  let payload :=
    AzureSearch.semantic_payload keyword k select_fields vector_fields filter_query in
  NoDup (map fst payload)
  /\ Py.dict_get payload "search" = Some (VStr keyword)
  /\ Py.dict_get payload "top" = Some (VNum k)
  /\ (forall v, Py.dict_get payload "select" = Some v
                <-> exists f fs, select_fields = Some (f :: fs)
                                 /\ v = VStr (String.concat "," (f :: fs)))
  /\ (forall v, Py.dict_get payload "filter" = Some v
                <-> exists f, filter_query = Some f /\ f <> "" /\ v = VStr f)
  /\ (Py.dict_get payload "vectorQueries" = None
      <-> AzureSearch.truthy_fields vector_fields = false).
Proof.
  intros payload. unfold payload, AzureSearch.semantic_payload.
  destruct select_fields as [[|f fs]|];
    destruct vector_fields as [[|g gs]|];
    destruct filter_query as [flt|];
    cbn [AzureSearch.truthy_fields AzureSearch.fields_of Py.truthy_str];
    try (destruct (String.eqb flt "") eqn:Ef; cbn [negb]);
    cbn [app map fst];
    (split; [repeat (constructor; [cbn; intuition discriminate|]); constructor|]);
    (split; [reflexivity|]); (split; [reflexivity|]);
    cbn [Py.dict_get String.eqb Ascii.eqb Bool.eqb andb];
    repeat split;
    try discriminate;
    try (intros (? & ? & ? & ?); discriminate);
    try (intros (? & ? & ? & ?); congruence);
    try (intros [= <-]; eauto);
    try (intros (f0 & fs0 & [= <- <-] & ->); reflexivity);
    try (intros (? & [= <-] & Hne & ->); first [reflexivity
           | apply String.eqb_eq in Ef; contradiction]);
    try (intros (? & [=] & _));
    try (eexists; split; [reflexivity|]; split;
         [now apply String.eqb_neq|reflexivity]).
Qed.

(** X25: a vector search without vector fields (absent or empty)
    searches the field [contentVector]; whatever the fields, the request
    has no [search] key and exactly one vector query, which carries the
    vector and [k]. *)
Theorem vector_search_default_fields http self vector k vector_fields select_fields
        filter_query :
  AzureSearch.truthy_fields vector_fields = false ->
  AzureSearch.vector_search http self vector k vector_fields select_fields filter_query
  = AzureSearch.vector_search http self vector k (Some ["contentVector"]) select_fields
                         filter_query
  /\ (forall fields,
         Py.dict_get (AzureSearch.vector_payload vector k fields select_fields
                                            filter_query) "search" = None
         /\ exists query,
             Py.dict_get (AzureSearch.vector_payload vector k fields select_fields
                                                filter_query) "vectorQueries"
             = Some (VList [VDict query])
             /\ Py.dict_get query "vector" = Some vector
             /\ Py.dict_get query "k" = Some (VNum k)).
Proof.
  intros Hf. split.
  - unfold AzureSearch.vector_search, AzureSearch.vector_payload. rewrite Hf. reflexivity.
  - intros fields. unfold AzureSearch.vector_payload.
    destruct (AzureSearch.truthy_fields select_fields), (Py.truthy_str filter_query);
      (split; [reflexivity|]); eexists; (split; [reflexivity|]); split; reflexivity.
Qed.

Lemma vector_search_default_fields_witness :
  AzureSearch.vector_search two_documents search_client (VList [VNum 1; VNum 2]) 5
                       (Some []) None None
  = AzureSearch.vector_search two_documents search_client (VList [VNum 1; VNum 2]) 5
                         (Some ["contentVector"]) None None.
Proof.
  apply (vector_search_default_fields two_documents search_client
           (VList [VNum 1; VNum 2]) 5 (Some []) None None eq_refl).
Defined.

(** ** The content lookup *)

Lemma content_request_posted http client keyword :
  AzureSearch.semantic_ranking_search http client keyword 10 (Some ["title"; "content"])
                                 None None
  = http (AzureSearch.search_url client) (content_request keyword)
         (AzureSearch.headers client).
Proof.
  unfold AzureSearch.semantic_ranking_search. now destruct (http _ _ _).
Qed.

Lemma documents_mapM rows key default :
  Exc.mapM (fun doc => Py.get doc key (VStr default)) (map VDict rows)
  = Returns (map (fun row => match Py.dict_get row key with
                             | Some v => v
                             | None => VStr default
                             end) rows).
Proof.
  induction rows as [|row rows IH]; [reflexivity|].
  cbn [map Exc.mapM]. rewrite IH. cbn.
  now destruct (Py.dict_get row key).
Qed.

Lemma document_blocks rows :
  map (fun '(t, d) => [Text "["; Str t; Text ("]:" ++ nl); Str d])
      (combine (map (fun row : Row => match Py.dict_get row "title" with
                                      | Some v => v
                                      | None => VStr "Untitled"
                                      end) rows)
               (map (fun row : Row => match Py.dict_get row "content" with
                                      | Some v => v
                                      | None => VStr ""
                                      end) rows))
  = map document_block rows.
Proof.
  induction rows as [|r l IH]; [reflexivity|].
  cbn [map combine]. rewrite IH. reflexivity.
Qed.

Lemma catch_returns {A} (m : Outcome A) (h : Exn -> Outcome A) :
  (forall e, exists a, h e = Returns a) -> exists a, Exc.catch m h = Returns a.
Proof. intros H. destruct m as [a|e]; cbn; eauto. Qed.

(** X26: the content lookup always returns a text: it posts the keyword
    with [top] 10 and [select] "title,content"; a failed request gives the
    error sentence with the text of the failure; a response without
    documents gives the sentence for no relevant documents; and a response
    with documents gives one block per document, in order, a missing title
    shown as "Untitled" and a missing content as the empty text. *)
Theorem get_permit_document_content_spec http client keyword :
  let posted :=
    http (AzureSearch.search_url client) (content_request keyword)
         (AzureSearch.headers client) in
  (exists reply, get_permit_document_content http client keyword = Returns reply)
  /\ (forall e,
         posted = Raises e ->
         get_permit_document_content http client keyword
         = Returns (Line [Text "Error retrieving documents: "; Text (exn_msg e)]))
  /\ (forall response found,
         posted = Returns (VDict response) ->
         Py.get (VDict response) "value" VNull = Returns found ->
         Py.truthy found = false ->
         get_permit_document_content http client keyword
         = Returns (Line [Text "No relevant documents found for the query."]))
  /\ (forall response row rows,
         posted = Returns (VDict response) ->
         Py.dict_get response "value" = Some (VList (map VDict (row :: rows))) ->
         get_permit_document_content http client keyword
         = Returns (Joined (nl ++ nl) (map document_block (row :: rows)))).
Proof.
  intros posted. unfold get_permit_document_content.
  rewrite content_request_posted. fold posted.
  split; [|split; [|split]].
  - apply catch_returns. eauto.
  - intros e ->. reflexivity.
  - intros response found -> Hget Hfalsy. cbn [Exc.bind]. rewrite Hget.
    cbn [Exc.bind]. now rewrite Hfalsy.
  - intros response row rows -> Hvalue. cbn [Exc.bind Py.get Py.index].
    rewrite Hvalue. cbn [Exc.bind Py.truthy map negb iterate].
    change (VDict row :: map VDict rows) with (map VDict (row :: rows)).
    rewrite !documents_mapM. cbn [Exc.bind Exc.catch].
    now rewrite (document_blocks (row :: rows)).
Qed.

Lemma get_permit_document_content_spec_witness :
  get_permit_document_content two_documents search_client "pipeline depth"
  = Returns (Joined (nl ++ nl)
               [[Text "["; Str (VStr "PLO.pdf"); Text ("]:" ++ nl);
                 Str (VStr "pipeline")];
                [Text "["; Str (VStr "Untitled"); Text ("]:" ++ nl);
                 Str (VStr "depth")]])
  /\ get_permit_document_content refused search_client "pipeline depth"
     = Returns (Line [Text "Error retrieving documents: "; Text "403 Forbidden"]).
Proof.
  destruct (get_permit_document_content_spec two_documents search_client
              "pipeline depth") as (_ & _ & _ & H).
  destruct (get_permit_document_content_spec refused search_client
              "pipeline depth") as (_ & H' & _).
  split.
  - rewrite (H _ [("title", VStr "PLO.pdf"); ("content", VStr "pipeline")]
               [[("content", VStr "depth")]] eq_refl eq_refl).
    reflexivity.
  - rewrite (H' _ eq_refl). reflexivity.
Defined.
